(** * Cisco switch configuration tool: port/global configuration engine

    A shallow embedding of [CiscoConfigTool_v5.py] (class [CiscoConfigTool])
    and the properties its specification states about it.

    Conventions of the embedding.
    - Python [int] is [Z].  Python [str] is [string]; the text handled by
      the tool is taken to be ASCII, so [str.lower], [str.upper],
      [str.strip] and [str.isdigit] are modelled on ASCII code points.
    - A Python [dict] is a [gmap]; a [set] of ports is a [gset Z].  Where
      the tool iterates over a set the iteration order is a list argument
      of the loop, and the operation passes [elements] of the set.
    - The values found in a port record are strings, booleans and (after a
      JSON load) numbers: [PyVal].
    - An operation bound to a button returns the new session state together
      with what the operator sees: a status, a warning, or an exception that
      escapes the handler.
    - Widgets, the canvas and the file system are outside the model: the
      configuration panel is an input record, a JSON document is the tree
      [json.load] returns. *)

From Stdlib Require Import ZArith Lia Ascii String List DecimalString DecimalZ.
From stdpp Require Import gmap strings list sorting.

Local Open Scope Z_scope.

(** ** Python string primitives *)

Module Py.

(** [str.isspace] on an ASCII code point: TAB..CR, FS..US and the blank. *)
Definition isspace (c : ascii) : bool :=
  let n := N_of_ascii c in
  ((9 <=? n)%N && (n <=? 13)%N) || ((28 <=? n)%N && (n <=? 32)%N).

Definition isdigit_char (c : ascii) : bool :=
  let n := N_of_ascii c in (48 <=? n)%N && (n <=? 57)%N.

Definition lower_char (c : ascii) : ascii :=
  let n := N_of_ascii c in
  if (65 <=? n)%N && (n <=? 90)%N then ascii_of_N (n + 32) else c.

Definition upper_char (c : ascii) : ascii :=
  let n := N_of_ascii c in
  if (97 <=? n)%N && (n <=? 122)%N then ascii_of_N (n - 32) else c.

Fixpoint smap (f : ascii -> ascii) (s : string) : string :=
  match s with
  | EmptyString => EmptyString
  | String c r => String (f c) (smap f r)
  end.

Definition lower : string -> string := smap lower_char.
Definition upper : string -> string := smap upper_char.

Fixpoint lstrip (s : string) : string :=
  match s with
  | EmptyString => EmptyString
  | String c r => if isspace c then lstrip r else s
  end.

Fixpoint rstrip (s : string) : string :=
  match s with
  | EmptyString => EmptyString
  | String c r =>
      match rstrip r with
      | EmptyString => if isspace c then EmptyString else String c EmptyString
      | r' => String c r'
      end
  end.

Definition strip (s : string) : string := lstrip (rstrip s).

(** [all(c.isdigit() for c in s)]; [str.isdigit] also asks for one character. *)
Fixpoint all_digits (s : string) : bool :=
  match s with
  | EmptyString => true
  | String c r => isdigit_char c && all_digits r
  end.

Definition isdigit (s : string) : bool :=
  match s with
  | EmptyString => false
  | _ => all_digits s
  end.

(** [any(c.isdigit() for c in s)] *)
Fixpoint any_digit (s : string) : bool :=
  match s with
  | EmptyString => false
  | String c r => isdigit_char c || any_digit r
  end.

(** [c in s] for a one-character [c]. *)
Fixpoint contains (c : ascii) (s : string) : bool :=
  match s with
  | EmptyString => false
  | String d r => Ascii.eqb d c || contains c r
  end.

(** [s.split(sep)] for a one-character separator: the piece before the first
    separator, and the pieces after it. *)
Fixpoint split_go (sep : ascii) (s : string) : string * list string :=
  match s with
  | EmptyString => (EmptyString, [])
  | String c r =>
      let '(p, ps) := split_go sep r in
      if Ascii.eqb c sep then (EmptyString, p :: ps) else (String c p, ps)
  end.

Definition split (sep : ascii) (s : string) : list string :=
  let '(p, ps) := split_go sep s in p :: ps.

(** [", ".join(l)] and friends. *)
Fixpoint join (sep : string) (l : list string) : string :=
  match l with
  | [] => EmptyString
  | [x] => x
  | x :: r => x +:+ sep +:+ join sep r
  end.

(** The digits of an [int] literal: single underscores may separate digits. *)
Fixpoint underscores_ok (prev_digit : bool) (s : string) : bool :=
  match s with
  | EmptyString => prev_digit
  | String c r =>
      if Ascii.eqb c "_" then prev_digit && underscores_ok false r
      else isdigit_char c && underscores_ok true r
  end.

Fixpoint drop_underscores (s : string) : string :=
  match s with
  | EmptyString => EmptyString
  | String c r =>
      if Ascii.eqb c "_" then drop_underscores r else String c (drop_underscores r)
  end.

Definition int_digits (s : string) : option Z :=
  if underscores_ok false s
  then Z.of_uint <$> NilEmpty.uint_of_string (drop_underscores s)
  else None.

(** [int(s)]: [None] stands for [ValueError]. *)
Definition int (s : string) : option Z :=
  match strip s with
  | String "-" r => Z.opp <$> int_digits r
  | String "+" r => int_digits r
  | r => int_digits r
  end.

(** [str(n)] for an [int]. *)
Definition str_int (z : Z) : string := NilZero.string_of_int (Z.to_int z).

(** [range(a, b + 1)] *)
Definition range_incl (a b : Z) : list Z := seqZ a (b - a + 1).

(** [l[:n]] *)
Definition slice_to {A} (l : list A) (n : Z) : list A :=
  if 0 <=? n then take (Z.to_nat n) l
  else take (Z.to_nat (Z.of_nat (length l) + n)) l.

(** [l[i]]: [None] stands for [IndexError]. *)
Definition index {A} (l : list A) (i : Z) : option A :=
  if 0 <=? i then l !! Z.to_nat i
  else if 0 <=? Z.of_nat (length l) + i then l !! Z.to_nat (Z.of_nat (length l) + i)
  else None.

End Py.


(** ** Data model *)

(** A value stored under a key of a port record. *)
Inductive PyVal :=
  | VStr (s : string)
  | VBool (b : bool)
  | VInt (z : Z).

Global Instance PyVal_eq_dec : EqDecision PyVal.
Proof. solve_decision. Defined.

(** [str(v)] *)
Definition py_str (v : PyVal) : string :=
  match v with
  | VStr s => s
  | VBool true => "True"
  | VBool false => "False"
  | VInt z => Py.str_int z
  end.

(** One port's record, [self.port_configs[port_num]]. *)
Abbreviation PortConfig := (gmap string PyVal).
(** [self.port_configs] *)
Abbreviation PortConfigs := (gmap Z (gmap string PyVal)).

(** The state variables of [CiscoConfigTool.__init__] that the engine uses. *)
Record Tool := {
  port_configs : PortConfigs;
  selected_ports : gset Z;
  last_clicked_port : option Z;
  config_history : list PortConfigs;
  current_step : Z;
  configured_vlans : gset Z
}.

Definition init_tool : Tool := {|
  port_configs := ∅;
  selected_ports := ∅;
  last_clicked_port := None;
  config_history := [];
  current_step := -1;
  configured_vlans := ∅
|}.

Definition set_port_configs (pc : PortConfigs) (t : Tool) : Tool :=
  {| port_configs := pc; selected_ports := selected_ports t;
     last_clicked_port := last_clicked_port t;
     config_history := config_history t; current_step := current_step t;
     configured_vlans := configured_vlans t |}.

Definition set_configured_vlans (vs : gset Z) (t : Tool) : Tool :=
  {| port_configs := port_configs t; selected_ports := selected_ports t;
     last_clicked_port := last_clicked_port t;
     config_history := config_history t; current_step := current_step t;
     configured_vlans := vs |}.

Definition set_selection (sel : gset Z) (anchor : option Z) (t : Tool) : Tool :=
  {| port_configs := port_configs t; selected_ports := sel;
     last_clicked_port := anchor;
     config_history := config_history t; current_step := current_step t;
     configured_vlans := configured_vlans t |}.

(** The widgets of the port configuration panel, as read by a handler. *)
Record Panel := {
  port_mode_var : string;
  port_desc_entry : string;
  port_portfast_var : bool;
  port_qos_trust_var : bool;
  port_data_vlan_entry : string;
  port_voice_vlan_entry : string;
  port_native_vlan_entry : string;
  port_allowed_vlan_entry : string
}.

(** What the operator gets back from a handler. *)
Inductive Warning :=
  | NoSelection
  | InvalidInput
  | MissingMode
  | TemplateError.

Inductive Exn :=
  | ValueError
  | IndexError
  | KeyError
  | AttributeError
  | UnboundLocalError.

Inductive Report :=
  | Completed
  | Status (msg : string)
  | Warned (w : Warning)
  | Raised (e : Exn).

(** ** History: the snapshot pushed by every mutating handler

    [prev_state = copy.deepcopy(self.port_configs)]
    [self.config_history = self.config_history[:self.current_step+1]]
    [self.config_history.append(prev_state)]
    [self.current_step += 1] *)
Definition push_history (t : Tool) : Tool :=
  {| port_configs := port_configs t; selected_ports := selected_ports t;
     last_clicked_port := last_clicked_port t;
     config_history :=
       Py.slice_to (config_history t) (current_step t + 1) ++ [port_configs t];
     current_step := current_step t + 1;
     configured_vlans := configured_vlans t |}.

Definition set_step (n : Z) (t : Tool) : Tool :=
  {| port_configs := port_configs t; selected_ports := selected_ports t;
     last_clicked_port := last_clicked_port t;
     config_history := config_history t; current_step := n;
     configured_vlans := configured_vlans t |}.

Definition undo_config (t : Tool) : Tool * Report :=
  if 0 <=? current_step t then
    let t1 := set_step (current_step t - 1) t in
    match Py.index (config_history t1) (current_step t1) with
    | Some snap => (set_port_configs snap t1, Status "Undo applied.")
    | None => (t1, Raised IndexError)
    end
  else (t, Status "Nothing to undo.").

Definition redo_config (t : Tool) : Tool * Report :=
  if current_step t <? Z.of_nat (length (config_history t)) - 1 then
    let t1 := set_step (current_step t + 1) t in
    match Py.index (config_history t1) (current_step t1) with
    | Some snap => (set_port_configs snap t1, Status "Redo applied.")
    | None => (t1, Raised IndexError)
    end
  else (t, Status "Nothing to redo.").

(** ** Selection: [on_port_click]

    [clicked] is the port found under the pointer, [ctrl] and [shift] the
    modifier bits of the event. *)
Definition on_port_click (clicked : option Z) (ctrl shift : bool) (t : Tool) : Tool :=
  match clicked with
  | None => t
  | Some 0 => t
  | Some p =>
      if ctrl then
        set_selection
          (if decide (p ∈ selected_ports t) then selected_ports t ∖ {[p]}
           else selected_ports t ∪ {[p]})
          (Some p) t
      else
        match shift, last_clicked_port t with
        | true, Some a =>
            let start_port := Z.min a p in
            let end_port := Z.max a p in
            let port_range : gset Z := list_to_set (Py.range_incl start_port end_port) in
            set_selection (selected_ports t ∪ port_range) (last_clicked_port t) t
        | _, _ =>
            if decide (selected_ports t = {[p]}) then t
            else set_selection {[p]} (Some p) t
        end
  end.

(** [_clear_port_selection] *)
Definition _clear_port_selection (t : Tool) : Tool := set_selection ∅ None t.

(** ** Applying the panel to the selected ports: [_update_vlan_from_port_config] *)

(** [1 <= int(s) <= 4094], with [ValueError] from [int] counted as a failure:
    the test made under [try ... except ValueError] for every VLAN entry. *)
Definition vlan_id_ok (s : string) : bool :=
  match Py.int s with
  | Some n => (1 <=? n) && (n <=? 4094)
  | None => false
  end.

(** The body of [for vlan in allowed_vlans.split(",")] in the VLAN tracking
    part: the VLAN strings one comma-separated piece adds to [new_vlans];
    [None] stands for the [ValueError] of the unpacking or of [int]. *)
Definition tracked_vlans_of_piece (vlan : string) : option (list string) :=
  if Py.contains "-" vlan then
    match Py.split "-" vlan with
    | [s; e] =>
        match Py.int (Py.strip s), Py.int (Py.strip e) with
        | Some a, Some b => Some (Py.str_int <$> Py.range_incl a b)
        | _, _ => None
        end
    | _ => None
    end
  else Some [Py.strip vlan].

Fixpoint tracked_vlans_of_pieces (pieces : list string) : option (list string) :=
  match pieces with
  | [] => Some []
  | v :: r =>
      match tracked_vlans_of_piece v with
      | Some l =>
          match tracked_vlans_of_pieces r with
          | Some l' => Some (l ++ l')
          | None => None
          end
      | None => None
      end
  end.

(** [new_vlans], as the list of the strings added to the set. *)
Definition new_vlans (mode native_vlan allowed_vlans data_vlan voice_vlan : string)
  : option (list string) :=
  let from_native := if decide (native_vlan = "") then [] else [native_vlan] in
  if decide (mode = "access") then
    Some (from_native
          ++ (if decide (data_vlan = "") then [] else [data_vlan])
          ++ (if decide (voice_vlan = "") then [] else [voice_vlan]))
  else if decide (mode = "trunk") then
    if decide (Py.lower allowed_vlans = "all") then Some from_native
    else
      match tracked_vlans_of_pieces (Py.split "," allowed_vlans) with
      | Some l => Some (from_native ++ l)
      | None => None
      end
  else Some from_native.

(** [for vlan in new_vlans: try: self.configured_vlans.add(int(vlan)) ...] *)
Definition track_vlans (vs : list string) (known : gset Z) : gset Z :=
  known ∪ list_to_set (omap Py.int vs).

(** [_validate_vlan_range]: one part of the comma-separated list.
    [None] stands for a [ValueError] raised inside the [try]. *)
Definition validate_part (part : string) : option bool :=
  let part := Py.strip part in
  if decide (part = "") then Some true
  else if Py.contains "-" part then
    match Py.split "-" part with
    | [s; e] =>
        let start := Py.strip s in
        let end_ := Py.strip e in
        if negb (bool_decide (start = "")) && negb (Py.isdigit start) then Some false
        else if negb (bool_decide (end_ = "")) && negb (Py.isdigit end_) then Some false
        else if negb (bool_decide (start = "")) && negb (bool_decide (end_ = "")) then
          match Py.int start, Py.int end_ with
          | Some a, Some b =>
              Some ((1 <=? a) && (a <=? 4094) && (1 <=? b) && (b <=? 4094) && (a <=? b))
          | _, _ => None
          end
        else Some true
    | _ => None
    end
  else if negb (Py.isdigit part) then Some false
  else
    match Py.int part with
    | Some n => Some ((1 <=? n) && (n <=? 4094))
    | None => None
    end.

(** The [for part in parts] loop: it returns [False] at the first bad part. *)
Fixpoint validate_parts (parts : list string) : option bool :=
  match parts with
  | [] => Some true
  | p :: r =>
      match validate_part p with
      | Some true => validate_parts r
      | other => other
      end
  end.

(** [_validate_vlan_range(vlan_range)].  [from_update_template] tells whether
    a frame named [update_template] is on the call stack, which is what the
    [except ValueError] branch inspects. *)
Definition _validate_vlan_range (from_update_template : bool) (vlan_range : string) : bool :=
  if decide (vlan_range = "") then true
  else if decide (Py.upper vlan_range = "ALL") then true
  else
    match validate_parts (Py.split "," vlan_range) with
    | Some b => b
    | None => negb from_update_template
    end.

(** [_validate_single_vlan(value)] *)
Definition _validate_single_vlan (value : string) : bool :=
  if decide (value = "") then true
  else if decide (Py.upper value = "ALL") then true
  else if Py.isdigit value then
    match Py.int value with
    | Some n => (1 <=? n) && (n <=? 4094)
    | None => true
    end
  else true.

(** What the panel holds once the handler has read and normalised it. *)
Record PanelValues := {
  pv_mode : string;
  pv_description : string;
  pv_portfast : bool;
  pv_qos_trust : bool;
  pv_native_vlan : string;
  pv_allowed_vlans : string;
  pv_data_vlan : string;
  pv_voice_vlan : string
}.

Definition read_panel (p : Panel) : PanelValues :=
  let mode := Py.lower (port_mode_var p) in
  let allowed := Py.strip (port_allowed_vlan_entry p) in
  {| pv_mode := mode;
     pv_description := Py.strip (port_desc_entry p);
     pv_portfast := port_portfast_var p;
     pv_qos_trust := port_qos_trust_var p;
     pv_native_vlan := Py.strip (port_native_vlan_entry p);
     pv_allowed_vlans :=
       if bool_decide (allowed = "") && bool_decide (mode = "trunk") then "ALL" else allowed;
     pv_data_vlan := Py.strip (port_data_vlan_entry p);
     pv_voice_vlan := Py.strip (port_voice_vlan_entry p) |}.

(** The record of a port after the four common keys have been written. *)
Definition write_common (v : PanelValues) (old : option PortConfig) : PortConfig :=
  let base : PortConfig :=
    match old with
    | Some r => r
    | None =>
        <["qos_trust" := VBool (pv_qos_trust v)]>
          (<["portfast" := VBool (pv_portfast v)]>
             (<["description" := VStr (pv_description v)]>
                (<["mode" := VStr (pv_mode v)]> ∅)))
    end in
  <["qos_trust" := VBool (pv_qos_trust v)]>
    (<["portfast" := VBool (pv_portfast v)]>
       (<["description" := VStr (pv_description v)]>
          (<["mode" := VStr (pv_mode v)]> base))).

(** One iteration of [for port_num in ports_to_configure].  The record is
    updated in place, so what has been written stays written when the
    iteration leaves through [return]: the boolean tells whether the loop
    goes on. *)
Definition apply_to_record (v : PanelValues) (old : option PortConfig) : PortConfig * bool :=
  let r := write_common v old in
  if decide (pv_mode v = "access") then
    let r := delete "allowed_vlans" (delete "native_vlan" r) in
    if negb (bool_decide (pv_data_vlan v = "")) && negb (vlan_id_ok (pv_data_vlan v))
    then (r, false)
    else
      let r :=
        if decide (pv_data_vlan v = "") then r
        else <["data_vlan" := VStr (pv_data_vlan v)]> r in
      if decide (pv_voice_vlan v = "") then (delete "voice_vlan" r, true)
      else if vlan_id_ok (pv_voice_vlan v)
        then (<["voice_vlan" := VStr (pv_voice_vlan v)]> r, true)
        else (r, false)
  else if decide (pv_mode v = "trunk") then
    let r := delete "voice_vlan" (delete "data_vlan" r) in
    let r :=
      if decide (pv_native_vlan v = "") then delete "native_vlan" r
      else <["native_vlan" := VStr (pv_native_vlan v)]> r in
    (<["allowed_vlans" := VStr (pv_allowed_vlans v)]> r, true)
  else (r, true).

(** The loop over the ports, in iteration order [ports]. *)
Fixpoint apply_loop (v : PanelValues) (ports : list Z) (pc : PortConfigs)
  : PortConfigs * bool :=
  match ports with
  | [] => (pc, true)
  | p :: rest =>
      let '(r, go_on) := apply_to_record v (pc !! p) in
      let pc' := <[p := r]> pc in
      if go_on then apply_loop v rest pc' else (pc', false)
  end.

(** The handler after the selection test, with the iteration order of
    [ports_to_configure] made explicit. *)
Definition apply_panel_in_order (ports : list Z) (panel : Panel) (t : Tool) : Tool * Report :=
  let t := push_history t in
  let v := read_panel panel in
  match new_vlans (pv_mode v) (pv_native_vlan v) (pv_allowed_vlans v)
                  (pv_data_vlan v) (pv_voice_vlan v) with
  | None => (t, Raised ValueError)
  | Some vs =>
      let t := set_configured_vlans (track_vlans vs (configured_vlans t)) t in
      if bool_decide (pv_mode v = "trunk")
         && negb (bool_decide (pv_native_vlan v = ""))
         && negb (vlan_id_ok (pv_native_vlan v))
      then (t, Warned InvalidInput)
      else if bool_decide (pv_mode v = "trunk")
              && negb (bool_decide (Py.lower (pv_allowed_vlans v) = "all"))
              && negb (_validate_vlan_range false (pv_allowed_vlans v))
      then (t, Warned InvalidInput)
      else
        let '(pc, finished) := apply_loop v ports (port_configs t) in
        (set_port_configs pc t, if finished then Completed else Warned InvalidInput)
  end.

Definition _update_vlan_from_port_config (panel : Panel) (t : Tool) : Tool * Report :=
  if decide (selected_ports t = ∅) then (t, Warned NoSelection)
  else apply_panel_in_order (elements (selected_ports t)) panel t.

(** ** Scenarios used by the examples *)

(** The panel filled in for an access port on VLAN [vlan]. *)
Definition access_panel (vlan : string) : Panel :=
  {| port_mode_var := "Access"; port_desc_entry := "";
     port_portfast_var := true; port_qos_trust_var := false;
     port_data_vlan_entry := vlan; port_voice_vlan_entry := "";
     port_native_vlan_entry := ""; port_allowed_vlan_entry := "" |}.

(** The panel filled in for a trunk port. *)
Definition trunk_panel (native allowed : string) : Panel :=
  {| port_mode_var := "Trunk"; port_desc_entry := "";
     port_portfast_var := false; port_qos_trust_var := false;
     port_data_vlan_entry := ""; port_voice_vlan_entry := "";
     port_native_vlan_entry := native; port_allowed_vlan_entry := allowed |}.

(** The record the tool stores for [access_panel vlan]. *)
Definition access_record (vlan : string) : PortConfig :=
  {[ "mode" := VStr "access"; "description" := VStr "";
     "portfast" := VBool true; "qos_trust" := VBool false;
     "data_vlan" := VStr vlan ]}.

(** A fresh session in which the operator has clicked port [p]. *)
Definition session_with_port (p : Z) : Tool :=
  set_selection {[p]} (Some p) init_tool.

(** ** Direct updates of trunk ports:
       [_direct_update_native_vlan] and [_direct_update_allowed_vlans] *)

(** [self.port_configs[port_num].get("mode", "").lower() == "trunk"];
    [None] stands for the [AttributeError] of [.lower()] on a value that is
    not a string. *)
Definition mode_is_trunk (r : PortConfig) : option bool :=
  match r !! "mode" with
  | None => Some false
  | Some (VStr m) => Some (bool_decide (Py.lower m = "trunk"))
  | Some _ => None
  end.

(** The loop [for port_num in focused_ports] of both handlers: it sets [key]
    to [value] on the trunk ports and appends them to [updated_ports].  The
    boolean is [false] when the loop was left by an exception. *)
Fixpoint direct_update_loop (key value : string) (ports : list Z)
    (pc : PortConfigs) (updated : list Z) : PortConfigs * list Z * bool :=
  match ports with
  | [] => (pc, updated, true)
  | p :: rest =>
      match pc !! p with
      | None => direct_update_loop key value rest pc updated
      | Some r =>
          match mode_is_trunk r with
          | None => (pc, updated, false)
          | Some true =>
              direct_update_loop key value rest
                (<[p := <[key := VStr value]> r]> pc) (updated ++ [p])
          | Some false => direct_update_loop key value rest pc updated
          end
      end
  end.

(** The result of a direct update: the session, the report, and
    [updated_ports] (shown in the status line when the handler completes). *)
Record DirectUpdate := {
  du_tool : Tool;
  du_report : Report;
  du_updated : list Z
}.

(** Both handlers from the snapshot on. *)
Definition direct_update_in_order (what key value : string) (ports : list Z) (t : Tool)
  : DirectUpdate :=
  let t := push_history t in
  let '(pc, updated, finished) := direct_update_loop key value ports (port_configs t) [] in
  {| du_tool := set_port_configs pc t;
     du_report :=
       if finished then
         match updated with
         | [] => Status "No ports were updated."
         | _ => Status ("Updated " +:+ what +:+ " for port(s): "
                        +:+ Py.join ", " (Py.str_int <$> updated))
         end
       else Raised AttributeError;
     du_updated := updated |}.

Definition _direct_update_native_vlan (panel : Panel) (t : Tool) : DirectUpdate :=
  if decide (selected_ports t = ∅)
  then {| du_tool := t; du_report := Warned NoSelection; du_updated := [] |}
  else
    let native_vlan := Py.strip (port_native_vlan_entry panel) in
    if negb (bool_decide (native_vlan = "")) && negb (vlan_id_ok native_vlan)
    then {| du_tool := t; du_report := Warned InvalidInput; du_updated := [] |}
    else
      let native_vlan := if decide (native_vlan = "") then "1" else native_vlan in
      direct_update_in_order "native VLAN" "native_vlan" native_vlan
        (elements (selected_ports t)) t.

Definition _direct_update_allowed_vlans (panel : Panel) (t : Tool) : DirectUpdate :=
  if decide (selected_ports t = ∅)
  then {| du_tool := t; du_report := Warned NoSelection; du_updated := [] |}
  else
    let allowed_vlans := Py.strip (port_allowed_vlan_entry panel) in
    let allowed_vlans := if decide (allowed_vlans = "") then "ALL" else allowed_vlans in
    if negb (bool_decide (Py.lower allowed_vlans = "all")) && negb (Py.any_digit allowed_vlans)
    then {| du_tool := t; du_report := Warned InvalidInput; du_updated := [] |}
    else
      direct_update_in_order "allowed VLANs" "allowed_vlans" allowed_vlans
        (elements (selected_ports t)) t.

(** A selected port qualifies for a direct update when it has a record
    whose mode, lower-cased, is trunk. *)
Definition is_trunk_port (pc : PortConfigs) (p : Z) : Prop :=
  ∃ r, pc !! p = Some r ∧ mode_is_trunk r = Some true.

(** What a direct update of [key] may do to session [t]: ports that are not
    both selected and trunk keep their entry (or absence of entry) and are
    not reported; a reported port is a selected trunk port whose record got
    [key] set and nothing else changed; and when the handler ran to its end
    every selected trunk port is reported. *)
Definition updates_only_trunk_ports (key : string) (t : Tool) (r : DirectUpdate) : Prop :=
  (∀ p, ¬ (p ∈ selected_ports t ∧ is_trunk_port (port_configs t) p) →
        port_configs (du_tool r) !! p = port_configs t !! p ∧ p ∉ du_updated r)
  ∧ (∀ p, p ∈ du_updated r →
        p ∈ selected_ports t ∧ is_trunk_port (port_configs t) p
        ∧ ∃ value, port_configs (du_tool r) !! p
                   = <[key := VStr value]> <$> port_configs t !! p)
  ∧ (du_report r ≠ Raised AttributeError →
     du_report r ≠ Warned InvalidInput →
     ∀ p, p ∈ selected_ports t → is_trunk_port (port_configs t) p → p ∈ du_updated r).

(** The invariant of [direct_update_loop] started on store [pc0]: the ports
    reported so far are trunk ports of [pc0] and carry the new value; all
    other entries are as they were. *)
Definition du_inv (key value : string) (pc0 pc : PortConfigs) (updated : list Z) : Prop :=
  (∀ p, p ∈ updated →
        is_trunk_port pc0 p ∧ pc !! p = <[key := VStr value]> <$> pc0 !! p)
  ∧ (∀ p, p ∉ updated → pc !! p = pc0 !! p).

(** A session in which port 1 was made a trunk and port 2 an access port on
    VLAN 10, and ports 1 to 3 are now selected (click 1, shift-click 3). *)
Definition mixed_session : Tool :=
  let t := on_port_click (Some 1) false false init_tool in
  let t := (_update_vlan_from_port_config (trunk_panel "1" "ALL") t).1 in
  let t := on_port_click (Some 2) false false t in
  let t := (_update_vlan_from_port_config (access_panel "10") t).1 in
  let t := on_port_click (Some 1) false false t in
  on_port_click (Some 3) false true t.

(** ** Interface ranges: [_generate_interface_ranges] *)

(** The two f-strings of the compressor: [f"{prefix}{start_range}"] for a
    single port and [f"{prefix}{start_range}-{end_range}"] for a run. *)
Definition range_specifier (prefix : string) (start_range end_range : Z) : string :=
  if decide (start_range = end_range)
  then prefix +:+ Py.str_int start_range
  else prefix +:+ Py.str_int start_range +:+ "-" +:+ Py.str_int end_range.

(** [for i in range(1, len(ports))] with the current run in
    [start_range], [end_range], followed by the final append. *)
Fixpoint ranges_loop (prefix : string) (ports : list Z)
    (start_range end_range : Z) (ranges : list string) : list string :=
  match ports with
  | [] => ranges ++ [range_specifier prefix start_range end_range]
  | p :: rest =>
      if decide (p = end_range + 1)
      then ranges_loop prefix rest start_range p ranges
      else ranges_loop prefix rest p p
             (ranges ++ [range_specifier prefix start_range end_range])
  end.

(** [prefix] is [self.interface_prefix_var.get()]; [port_set] is the
    collection in its iteration order. *)
Definition _generate_interface_ranges (prefix : string) (port_set : list Z) : list string :=
  match merge_sort Z.le port_set with
  | [] => []
  | p0 :: rest => ranges_loop prefix rest p0 p0 []
  end.

(** Re-expansion of a specifier, as the specification words it: after the
    prefix, a bare number stands for that port and [start-end] for every
    integer from [start] to [end]. *)
Fixpoint strip_prefix (prefix s : string) : option string :=
  match prefix, s with
  | EmptyString, _ => Some s
  | String a p, String b r => if Ascii.eqb a b then strip_prefix p r else None
  | String _ _, EmptyString => None
  end.

Definition expand_specifier (prefix spec : string) : option (list Z) :=
  match strip_prefix prefix spec with
  | None => None
  | Some body =>
      match Py.split "-" body with
      | [n] => (λ x, [x]) <$> Py.int n
      | [s; e] =>
          match Py.int s, Py.int e with
          | Some a, Some b => Some (Py.range_incl a b)
          | _, _ => None
          end
      | _ => None
      end
  end.

(** All specifiers re-expanded, one list of ports per specifier. *)
Fixpoint expand_all (prefix : string) (specs : list string) : option (list (list Z)) :=
  match specs with
  | [] => Some []
  | s :: r =>
      match expand_specifier prefix s, expand_all prefix r with
      | Some l, Some ls => Some (l :: ls)
      | _, _ => None
      end
  end.

(** ** Grouping ports by configuration: the first phase of
       [_generate_port_config_commands] *)

(** The order of [sorted] on the [(k, str(v))] tuples: Python compares
    tuples lexicographically and strings by code point. *)
Definition item_le (a b : string * string) : Prop :=
  String.le a.1 b.1 ∧ (a.1 = b.1 → String.le a.2 b.2).

Global Instance item_le_dec : RelDecision item_le.
Proof. intros a b. unfold item_le. apply _. Defined.

(** [config_key = tuple(sorted((k, str(v)) for k, v in config.items()))] *)
Definition config_key (config : PortConfig) : list (string * string) :=
  merge_sort item_le (prod_map id py_str <$> map_to_list config).

(** [configured_ports = [p for p in sorted(list(ports_to_configure))
                          if p in self.port_configs]] *)
Definition configured_ports_of (pc : PortConfigs) (ports_to_configure : list Z) : list Z :=
  filter (λ p, is_Some (pc !! p)) (merge_sort Z.le ports_to_configure).

(** The loop filling [port_groups].  The dictionary is keyed by
    [config_key]; the order in which its keys were inserted only orders the
    emitted blocks and is not kept here. *)
Fixpoint group_ports (pc : PortConfigs) (configured_ports : list Z)
    (port_groups : gmap (list (string * string)) (list Z))
  : gmap (list (string * string)) (list Z) :=
  match configured_ports with
  | [] => port_groups
  | port_num :: rest =>
      match pc !! port_num with
      | Some config =>
          let k := config_key config in
          group_ports pc rest (<[k := default [] (port_groups !! k) ++ [port_num]]> port_groups)
      | None => group_ports pc rest port_groups
      end
  end.

Definition port_groups_of (pc : PortConfigs) (ports_to_configure : list Z)
  : gmap (list (string * string)) (list Z) :=
  group_ports pc (configured_ports_of pc ports_to_configure) ∅.

(** Two ports share a generation group. *)
Definition same_group (groups : gmap (list (string * string)) (list Z)) (p q : Z) : Prop :=
  ∃ key members, groups !! key = Some members ∧ p ∈ members ∧ q ∈ members.

(** The second half of the grouping property as the specification states
    it: ports whose records differ never share a group. *)
Definition different_records_different_groups : Prop :=
  ∀ (pc : PortConfigs) (ports : list Z) (p q : Z) (cp cq : PortConfig),
    p ∈ ports → q ∈ ports →
    pc !! p = Some cp → pc !! q = Some cq →
    cp ≠ cq →
    ¬ same_group (port_groups_of pc ports) p q.

(** Values of the same Python type. *)
Definition same_type (v w : PyVal) : Prop :=
  match v, w with
  | VStr _, VStr _ | VBool _, VBool _ | VInt _, VInt _ => True
  | _, _ => False
  end.

(** The invariant of [group_ports] over store [pc], once the ports [seen]
    have been handled: a group holds exactly the handled ports whose record
    has the group's key, and every handled port has its group. *)
Definition groups_inv (pc : PortConfigs) (seen : list Z)
    (groups : gmap (list (string * string)) (list Z)) : Prop :=
  (∀ key members p, groups !! key = Some members →
     (p ∈ members ↔ p ∈ seen ∧ ∃ c, pc !! p = Some c ∧ config_key c = key))
  ∧ (∀ p c, p ∈ seen → pc !! p = Some c → is_Some (groups !! config_key c)).

(** Two records as a JSON file may hold them: the same access port, with
    the data VLAN once as the string 10 and once as the number 10. *)
Definition stored_as_text : PortConfig :=
  {[ "mode" := VStr "access"; "data_vlan" := VStr "10" ]}.
Definition stored_as_number : PortConfig :=
  {[ "mode" := VStr "access"; "data_vlan" := VInt 10 ]}.

(** ** Redrawing and clearing: [_draw_switch], [clear_all] *)

(** The part of [_draw_switch] that touches the session: the anchor is
    dropped, a port count that is not positive is replaced by 1, and the
    selection and the store lose the ports above the count. *)
Definition _draw_switch (total_ports_var : Z) (t : Tool) : Tool :=
  let total_ports := if total_ports_var <=? 0 then 1 else total_ports_var in
  {| port_configs := filter (λ kv, ¬ (kv.1 > total_ports)) (port_configs t);
     selected_ports := filter (λ p, ¬ (p > total_ports)) (selected_ports t);
     last_clicked_port := None;
     config_history := config_history t; current_step := current_step t;
     configured_vlans := configured_vlans t |}.

(** [clear_all] once the operator has confirmed. *)
Definition clear_all (t : Tool) : Tool :=
  {| port_configs := ∅; selected_ports := ∅; last_clicked_port := None;
     config_history := config_history t; current_step := current_step t;
     configured_vlans := ∅ |}.

(** ** Persistence of the port store: [_save_port_configs], [_load_port_configs]

    The JSON document is the dictionary handed to [json.dump], or returned
    by [json.load]: its members in order, keyed by strings. *)
Definition _save_port_configs (pc : PortConfigs) : list (string * PortConfig) :=
  prod_map Py.str_int id <$> map_to_list pc.

(** [{int(k): v for k, v in port_configs_str.items()}]; [None] stands for
    the [ValueError] of [int]. *)
Fixpoint load_members (members : list (string * PortConfig)) (acc : PortConfigs)
  : option PortConfigs :=
  match members with
  | [] => Some acc
  | (k, v) :: rest =>
      match Py.int k with
      | Some n => load_members rest (<[n := v]> acc)
      | None => None
      end
  end.

(** [file] is [None] when the file does not exist.  An exception while
    loading is caught and leaves the store as it is. *)
Definition _load_port_configs (file : option (list (string * PortConfig))) (t : Tool) : Tool :=
  match file with
  | None => t
  | Some members =>
      match load_members members ∅ with
      | Some pc => set_port_configs pc t
      | None => t
      end
  end.

(** ** Templates: [_apply_template] *)

(** A template: the four keys every template has, and the VLAN keys it may
    have. *)
Record Template := {
  tpl_mode : string;
  tpl_description : string;
  tpl_portfast : bool;
  tpl_qos_trust : bool;
  tpl_access_vlan : option string;
  tpl_voice_vlan : option string;
  tpl_native_vlan : option string;
  tpl_trunk_vlans : option string
}.

(** The built-in templates of [__init__]. *)
Definition builtin_templates : gmap string Template :=
  {[ "Access Port" :=
       {| tpl_mode := "access"; tpl_description := "Standard Access Port";
          tpl_portfast := true; tpl_qos_trust := false;
          tpl_access_vlan := Some "10"; tpl_voice_vlan := None;
          tpl_native_vlan := None; tpl_trunk_vlans := None |};
     "Phone Port" :=
       {| tpl_mode := "access"; tpl_description := "Voice + Data Port";
          tpl_portfast := true; tpl_qos_trust := true;
          tpl_access_vlan := Some "10"; tpl_voice_vlan := Some "100";
          tpl_native_vlan := None; tpl_trunk_vlans := None |};
     "AP Port" :=
       {| tpl_mode := "trunk"; tpl_description := "Access Point Port";
          tpl_portfast := true; tpl_qos_trust := true;
          tpl_access_vlan := None; tpl_voice_vlan := None;
          tpl_native_vlan := Some "10"; tpl_trunk_vlans := Some "10,20,30,100" |};
     "Trunk Port" :=
       {| tpl_mode := "trunk"; tpl_description := "Trunk to Switch";
          tpl_portfast := false; tpl_qos_trust := true;
          tpl_access_vlan := None; tpl_voice_vlan := None;
          tpl_native_vlan := Some "10"; tpl_trunk_vlans := Some "ALL" |} ]}.

(** One part of [template["trunk_vlans"]] in the manual check of
    [_apply_template]; [false] stands for the [ValueError] raised for it. *)
Definition template_part_ok (part : string) : bool :=
  let part := Py.strip part in
  if decide (part = "") then true
  else if Py.contains "-" part then
    match Py.split "-" part with
    | [s; e] =>
        match Py.int (Py.strip s), Py.int (Py.strip e) with
        | Some a, Some b =>
            (1 <=? a) && (a <=? 4094) && (1 <=? b) && (b <=? 4094) && (a <=? b)
        | _, _ => false
        end
    | _ => false
    end
  else
    match Py.int part with
    | Some n => (1 <=? n) && (n <=? 4094)
    | None => false
    end.

(** The [try] block of [_apply_template]: [None] when the template passes,
    otherwise the warning shown or the [KeyError] of a missing key. *)
Definition template_check (tpl : Template) : option Report :=
  if decide (tpl_mode tpl = "access") then
    match tpl_access_vlan tpl with
    | None => Some (Raised KeyError)
    | Some a =>
        if negb (_validate_single_vlan a) then Some (Warned TemplateError)
        else
          match tpl_voice_vlan tpl with
          | Some v =>
              if negb (_validate_single_vlan v) then Some (Warned TemplateError) else None
          | None => None
          end
    end
  else if decide (tpl_mode tpl = "trunk") then
    match tpl_native_vlan tpl with
    | None => Some (Raised KeyError)
    | Some n =>
        if negb (_validate_single_vlan n) then Some (Warned TemplateError)
        else
          match tpl_trunk_vlans tpl with
          | None => Some (Raised KeyError)
          | Some tv =>
              if decide (Py.upper tv = "ALL") then None
              else if forallb template_part_ok (Py.split "," tv) then None
              else Some (Warned TemplateError)
          end
    end
  else None.

(** [_check_vlan_exists(vlan_id)]: [configured_vlans] only ever holds
    integers. *)
Definition _check_vlan_exists (vlan_id : string) (known : gset Z) : bool :=
  match Py.int vlan_id with
  | Some n => bool_decide (n ∈ known)
  | None => false
  end.

(** What [_create_vlan] does to [configured_vlans]; [None] stands for the
    [ValueError] of [int(vlan_id)]. *)
Definition _create_vlan (vlan_id : string) (known : gset Z) : option (gset Z) :=
  match Py.int vlan_id with
  | Some n => Some ({[n]} ∪ known)
  | None => None
  end.

(** The question "VLAN ... is not configured. Would you like to create
    it?" for one VLAN of the template, answered by [answer]. *)
Definition offer_vlan (vlan_id : string) (answer : bool) (known : gset Z) : option (gset Z) :=
  if _check_vlan_exists vlan_id known then Some known
  else if answer then _create_vlan vlan_id known
  else Some known.

(** The record written on every port; [None] stands for the
    [UnboundLocalError] of [native_vlan] when the mode is neither access
    nor trunk. *)
Definition template_record (tpl : Template) : option PortConfig :=
  let base : PortConfig :=
    {[ "mode" := VStr (tpl_mode tpl); "description" := VStr (tpl_description tpl);
       "portfast" := VBool (tpl_portfast tpl); "qos_trust" := VBool (tpl_qos_trust tpl) ]} in
  if decide (tpl_mode tpl = "access") then
    match tpl_access_vlan tpl with
    | Some a =>
        let r := <["data_vlan" := VStr a]> base in
        Some (match tpl_voice_vlan tpl with
              | Some v => <["voice_vlan" := VStr v]> r
              | None => r
              end)
    | None => None
    end
  else if decide (tpl_mode tpl = "trunk") then
    Some (<["allowed_vlans" := VStr (default "ALL" (tpl_trunk_vlans tpl))]>
            (<["native_vlan" := VStr (default "1" (tpl_native_vlan tpl))]> base))
  else None.

(** [for port_num in ports_to_configure: self.port_configs[port_num] = config] *)
Definition write_record (r : PortConfig) (ports : list Z) (pc : PortConfigs) : PortConfigs :=
  foldl (λ acc p, <[p := r]> acc) pc ports.

(** [_apply_template(template_name)]; [create_data] and [create_voice] are
    the operator's answers to the two questions about missing VLANs. *)
Definition _apply_template (templates : gmap string Template) (template_name : string)
    (create_data create_voice : bool) (t : Tool) : Tool * Report :=
  match templates !! template_name with
  | None => (t, Completed)
  | Some tpl =>
      if decide (template_name = "") then (t, Completed)
      else if decide (selected_ports t = ∅) then (t, Warned NoSelection)
      else
        let ports := elements (selected_ports t) in
        let t := push_history t in
        match template_check tpl with
        | Some report => (t, report)
        | None =>
            let finish (t : Tool) : Tool * Report :=
              match template_record tpl with
              | None => (t, Raised UnboundLocalError)
              | Some r =>
                  (set_port_configs (write_record r ports (port_configs t)) t, Completed)
              end in
            if decide (tpl_mode tpl = "access") then
              match tpl_access_vlan tpl with
              | None => (t, Raised KeyError)
              | Some a =>
                  match offer_vlan a create_data (configured_vlans t) with
                  | None => (t, Raised ValueError)
                  | Some known =>
                      let t := set_configured_vlans known t in
                      match tpl_voice_vlan tpl with
                      | None => finish t
                      | Some v =>
                          match offer_vlan v create_voice known with
                          | None => (t, Raised ValueError)
                          | Some known' => finish (set_configured_vlans known' t)
                          end
                      end
                  end
              end
            else finish t
        end
  end.

(** ** The whole-record apply: [apply_port_config_to_selected] *)

(** One piece of the allowed list, checked and rewritten as the handler
    does ([f"{start}-{end}"] or [str(vlan)]); [None] stands for the
    [ValueError] that rejects the list. *)
Definition checked_vrange (vrange : string) : option string :=
  if Py.contains "-" vrange then
    match Py.split "-" vrange with
    | [s; e] =>
        match Py.int s, Py.int e with
        | Some a, Some b =>
            if (1 <=? a) && (a <=? 4094) && (1 <=? b) && (b <=? 4094) && (a <=? b)
            then Some (Py.str_int a +:+ "-" +:+ Py.str_int b)
            else None
        | _, _ => None
        end
    | _ => None
    end
  else
    match Py.int vrange with
    | Some n => if (1 <=? n) && (n <=? 4094) then Some (Py.str_int n) else None
    | None => None
    end.

Fixpoint checked_vranges (pieces : list string) : option (list string) :=
  match pieces with
  | [] => Some []
  | v :: rest =>
      match checked_vrange v, checked_vranges rest with
      | Some x, Some xs => Some (x :: xs)
      | _, _ => None
      end
  end.

(** [config_to_apply], or [None] for the [ValueError] caught at the end of
    the [try] block.  [mode] is not empty here. *)
Definition config_to_apply (v : PanelValues) (native_entry allowed_entry : string)
  : option PortConfig :=
  let base : PortConfig :=
    {[ "mode" := VStr (pv_mode v); "description" := VStr (pv_description v) ]} in
  let flags (c : PortConfig) : PortConfig :=
    <["qos_trust" := VBool (pv_qos_trust v)]> (<["portfast" := VBool (pv_portfast v)]> c) in
  if decide (pv_mode v = "access") then
    if decide (pv_data_vlan v = "") then None
    else
      match Py.int (pv_data_vlan v) with
      | None => None
      | Some d =>
          if negb ((1 <=? d) && (d <=? 4094)) then None
          else
            let c := <["data_vlan" := VStr (Py.str_int d)]> base in
            if decide (pv_voice_vlan v = "") then Some (flags c)
            else
              match Py.int (pv_voice_vlan v) with
              | None => None
              | Some w =>
                  if negb ((1 <=? w) && (w <=? 4094)) then None
                  else if decide (w = d) then None
                  else Some (flags (<["voice_vlan" := VStr (Py.str_int w)]> c))
              end
      end
  else if decide (pv_mode v = "trunk") then
    let native :=
      if decide (native_entry = "") then Some "1"
      else
        match Py.int native_entry with
        | Some n => if (1 <=? n) && (n <=? 4094) then Some (Py.str_int n) else None
        | None => None
        end in
    match native with
    | None => None
    | Some n =>
        let c := <["native_vlan" := VStr n]> base in
        let allowed := if decide (allowed_entry = "") then "ALL" else allowed_entry in
        if decide (Py.upper allowed = "ALL")
        then Some (flags (<["allowed_vlans" := VStr allowed]> c))
        else
          match checked_vranges (Py.split "," allowed) with
          | Some l => Some (flags (<["allowed_vlans" := VStr (Py.join "," l)]> c))
          | None => None
          end
    end
  else Some (flags base).

Definition apply_port_config_to_selected (panel : Panel) (t : Tool) : Tool * Report :=
  if decide (selected_ports t = ∅) then (t, Warned NoSelection)
  else
    let ports := elements (selected_ports t) in
    let t := push_history t in
    let v := read_panel panel in
    if decide (pv_mode v = "") then (t, Warned MissingMode)
    else
      match config_to_apply v (Py.strip (port_native_vlan_entry panel))
                              (Py.strip (port_allowed_vlan_entry panel)) with
      | None => (t, Warned InvalidInput)
      | Some c => (set_port_configs (write_record c ports (port_configs t)) t, Completed)
      end.

(** ** Global settings *)

(** [self.global_configs] *)
Record GlobalConfigs := {
  hostname : string;
  enable_secret : string;
  line_password : string;
  vty_ssh : bool;
  vty_telnet : bool;
  pwd_encrypt : bool;
  no_domain_lookup : bool;
  vlans : gmap string string;
  svi_interface : string;
  svi_ip : string;
  svi_mask : string;
  svi_desc : string;
  gateway_ip : string
}.

(** The dictionary of [__init__] and of [clear_all]. *)
Definition default_global_configs : GlobalConfigs :=
  {| hostname := ""; enable_secret := ""; line_password := "";
     vty_ssh := true; vty_telnet := true; pwd_encrypt := true;
     no_domain_lookup := true; vlans := ∅;
     svi_interface := "Vlan1"; svi_ip := ""; svi_mask := "255.255.255.0";
     svi_desc := ""; gateway_ip := "" |}.

(** The widgets of the global configuration tab. *)
Record GlobalPanel := {
  global_hostname_entry : string;
  global_enable_secret_entry : string;
  global_line_pw_entry : string;
  global_vty_ssh_var : bool;
  global_vty_telnet_var : bool;
  global_pwd_encrypt_var : bool;
  global_no_domain_lookup_var : bool;
  global_vlan_id_entry : string;
  global_vlan_name_entry : string;
  global_svi_intf_entry : string;
  global_svi_ip_entry : string;
  global_svi_mask_entry : string;
  global_svi_desc_entry : string;
  global_gw_ip_entry : string
}.

(** [self.global_configs["vlans"] = {}] followed by
    [for vlan_id in self.configured_vlans:
       self.global_configs["vlans"][str(vlan_id)] = f"VLAN_{vlan_id}"] *)
Definition vlans_from_registry (known : gset Z) : gmap string string :=
  list_to_map ((λ n, (Py.str_int n, "VLAN_" +:+ Py.str_int n)) <$> elements known).

(** [_update_global_configs_from_ui]: every key of the dictionary is
    overwritten. *)
Definition _update_global_configs_from_ui (ui : GlobalPanel) (known : gset Z)
    (g : GlobalConfigs) : GlobalConfigs :=
  {| hostname := Py.strip (global_hostname_entry ui);
     enable_secret := global_enable_secret_entry ui;
     line_password := global_line_pw_entry ui;
     vty_ssh := global_vty_ssh_var ui;
     vty_telnet := global_vty_telnet_var ui;
     pwd_encrypt := global_pwd_encrypt_var ui;
     no_domain_lookup := global_no_domain_lookup_var ui;
     vlans := vlans_from_registry known;
     svi_interface := Py.strip (global_svi_intf_entry ui);
     svi_ip := Py.strip (global_svi_ip_entry ui);
     svi_mask := Py.strip (global_svi_mask_entry ui);
     svi_desc := Py.strip (global_svi_desc_entry ui);
     gateway_ip := Py.strip (global_gw_ip_entry ui) |}.

(** [_save_global_configs]: the dictionary after the update from the
    widgets, and the document written (the same dictionary). *)
Definition _save_global_configs (ui : GlobalPanel) (known : gset Z) (g : GlobalConfigs)
  : GlobalConfigs * GlobalConfigs :=
  let g' := _update_global_configs_from_ui ui known g in (g', g').

(** The VLAN ids a loaded document adds to [configured_vlans]: the keys of
    its [vlans] object that [int] accepts. *)
Definition loaded_vlan_ids (g : GlobalConfigs) : gset Z :=
  list_to_set (omap (λ kv, Py.int kv.1) (map_to_list (vlans g))).

(** [_load_global_configs]; [file] is [None] when the file does not exist. *)
Definition _load_global_configs (file : option GlobalConfigs) (g : GlobalConfigs)
    (known : gset Z) : GlobalConfigs * gset Z :=
  match file with
  | None => (g, known)
  | Some doc => (doc, known ∪ loaded_vlan_ids doc)
  end.

Definition set_vlans (vs : gmap string string) (g : GlobalConfigs) : GlobalConfigs :=
  {| hostname := hostname g; enable_secret := enable_secret g;
     line_password := line_password g; vty_ssh := vty_ssh g;
     vty_telnet := vty_telnet g; pwd_encrypt := pwd_encrypt g;
     no_domain_lookup := no_domain_lookup g; vlans := vs;
     svi_interface := svi_interface g; svi_ip := svi_ip g; svi_mask := svi_mask g;
     svi_desc := svi_desc g; gateway_ip := gateway_ip g |}.

(** The result of [add_global_vlan]: the dictionary as it is when
    [_save_global_configs] is called, the dictionary and the document after
    the call, and the registry; [None] when the input is rejected with a
    warning. *)
Record AddedVlan := {
  av_before_save : GlobalConfigs;
  av_after_save : GlobalConfigs;
  av_document : GlobalConfigs;
  av_configured_vlans : gset Z
}.

Definition add_global_vlan (ui : GlobalPanel) (g : GlobalConfigs) (known : gset Z)
  : option AddedVlan :=
  let vlan_id_str := Py.strip (global_vlan_id_entry ui) in
  let vlan_name := Py.strip (global_vlan_name_entry ui) in
  if decide (vlan_id_str = "") then None
  else
    match Py.int vlan_id_str with
    | None => None
    | Some vlan_id =>
        if negb ((1 <=? vlan_id) && (vlan_id <=? 4094)) then None
        else if decide (vlan_id ∈ known) then None
        else if Py.contains " " vlan_name then None
        else
          let known' := {[vlan_id]} ∪ known in
          let g1 :=
            if decide (vlan_name = "") then g
            else set_vlans (<[Py.str_int vlan_id := vlan_name]> (vlans g)) g in
          let '(g2, doc) := _save_global_configs ui known' g1 in
          Some {| av_before_save := g1; av_after_save := g2; av_document := doc;
                  av_configured_vlans := known' |}
    end.

(** ** Sessions *)

(** The states a session can be in: it starts from [__init__], loading the
    port file a previous session left behind if there is one, and goes on
    by the handlers bound to the ports, the buttons and the settings. *)
Inductive reachable : Tool → Prop :=
  | reach_init : reachable init_tool
  | reach_restart t0 :
      reachable t0 →
      reachable (_load_port_configs (Some (_save_port_configs (port_configs t0))) init_tool)
  | reach_click t clicked ctrl shift :
      reachable t → reachable (on_port_click clicked ctrl shift t)
  | reach_clear_selection t :
      reachable t → reachable (_clear_port_selection t)
  | reach_apply t panel :
      reachable t → reachable (_update_vlan_from_port_config panel t).1
  | reach_apply_selected t panel :
      reachable t → reachable (apply_port_config_to_selected panel t).1
  | reach_native t panel :
      reachable t → reachable (du_tool (_direct_update_native_vlan panel t))
  | reach_allowed t panel :
      reachable t → reachable (du_tool (_direct_update_allowed_vlans panel t))
  | reach_template t templates name create_data create_voice :
      reachable t →
      reachable (_apply_template templates name create_data create_voice t).1
  | reach_undo t : reachable t → reachable (undo_config t).1
  | reach_redo t : reachable t → reachable (redo_config t).1
  | reach_draw t total_ports :
      reachable t → reachable (_draw_switch total_ports t)
  | reach_clear_all t : reachable t → reachable (clear_all t).

(** The fields of one mode only. *)
Definition has_access_field (r : PortConfig) : Prop :=
  is_Some (r !! "data_vlan") ∨ is_Some (r !! "voice_vlan").

Definition has_trunk_field (r : PortConfig) : Prop :=
  is_Some (r !! "native_vlan") ∨ is_Some (r !! "allowed_vlans").

(** What every stored record satisfies: it does not mix the fields of the
    two modes, and a record in trunk mode has no access field. *)
Definition record_ok (r : PortConfig) : Prop :=
  ¬ (has_access_field r ∧ has_trunk_field r)
  ∧ (mode_is_trunk r = Some true → ¬ has_access_field r).

Definition store_ok (pc : PortConfigs) : Prop :=
  ∀ p r, pc !! p = Some r → record_ok r.

Definition session_ok (t : Tool) : Prop :=
  store_ok (port_configs t) ∧ Forall store_ok (config_history t).

(** The cursor points into the history, or stands at -1. *)
Definition cursor_ok (t : Tool) : Prop :=
  -1 ≤ current_step t < Z.of_nat (length (config_history t)).

(** ** Decidable equality of the state, for proofs by evaluation *)

Global Instance Warning_eq_dec : EqDecision Warning.
Proof. solve_decision. Defined.
Global Instance Exn_eq_dec : EqDecision Exn.
Proof. solve_decision. Defined.
Global Instance Report_eq_dec : EqDecision Report.
Proof. solve_decision. Defined.
Global Instance Tool_eq_dec : EqDecision Tool.
Proof. solve_decision. Defined.
Global Instance Template_eq_dec : EqDecision Template.
Proof. solve_decision. Defined.
Global Instance GlobalConfigs_eq_dec : EqDecision GlobalConfigs.
Proof. solve_decision. Defined.

(** Look a key up under inserts and deletes of other keys. *)
Ltac peel_lookup :=
  repeat first [ rewrite lookup_insert_ne by done
               | rewrite lookup_delete_ne by done ];
  rewrite ?lookup_delete_eq, ?lookup_insert_eq.

(** A closed, decidable statement is settled by running its decision
    procedure. *)
Ltac by_evaluation :=
  cbv zeta; apply (bool_decide_unpack _); vm_compute; exact I.

(** The record the tool stores for [trunk_panel native allowed] with both
    entries filled in. *)
Definition trunk_record (native allowed : string) : PortConfig :=
  {[ "mode" := VStr "trunk"; "description" := VStr "";
     "portfast" := VBool false; "qos_trust" := VBool false;
     "native_vlan" := VStr native; "allowed_vlans" := VStr allowed ]}.

(** The global tab as [__init__] leaves it, with a VLAN id and a VLAN name
    typed in. *)
Definition vlan_panel (vlan_id vlan_name : string) : GlobalPanel :=
  {| global_hostname_entry := ""; global_enable_secret_entry := "";
     global_line_pw_entry := ""; global_vty_ssh_var := true;
     global_vty_telnet_var := true; global_pwd_encrypt_var := true;
     global_no_domain_lookup_var := true;
     global_vlan_id_entry := vlan_id; global_vlan_name_entry := vlan_name;
     global_svi_intf_entry := "Vlan1"; global_svi_ip_entry := "";
     global_svi_mask_entry := "255.255.255.0"; global_svi_desc_entry := "";
     global_gw_ip_entry := "" |}.

(** The global dictionary with VLAN 10 named Users: what [add_global_vlan]
    has built when it calls [_save_global_configs]. *)
Definition vlan10_named_users : GlobalConfigs :=
  set_vlans {[ "10" := "Users" ]} default_global_configs.

(** ** Walking the history *)

(** One press of the Undo or of the Redo button. *)
Inductive HistoryButton := Undo | Redo.

Definition press (b : HistoryButton) (t : Tool) : Tool :=
  match b with
  | Undo => (undo_config t).1
  | Redo => (redo_config t).1
  end.

(** The buttons pressed one after the other. *)
Definition press_all (bs : list HistoryButton) (t : Tool) : Tool :=
  foldl (λ t b, press b t) t bs.

(** The history and its cursor. *)
Definition history_of (t : Tool) : list PortConfigs * Z :=
  (config_history t, current_step t).

(** The two checks the apply handler makes before its loop, in trunk mode. *)
Definition native_vlan_rejected (v : PanelValues) : bool :=
  bool_decide (pv_mode v = "trunk")
  && negb (bool_decide (pv_native_vlan v = ""))
  && negb (vlan_id_ok (pv_native_vlan v)).

Definition allowed_vlans_rejected (v : PanelValues) : bool :=
  bool_decide (pv_mode v = "trunk")
  && negb (bool_decide (Py.lower (pv_allowed_vlans v) = "all"))
  && negb (_validate_vlan_range false (pv_allowed_vlans v)).

(** The panel filled in for an access port with a voice VLAN. *)
Definition access_voice_panel (data voice : string) : Panel :=
  {| port_mode_var := "Access"; port_desc_entry := "";
     port_portfast_var := true; port_qos_trust_var := true;
     port_data_vlan_entry := data; port_voice_vlan_entry := voice;
     port_native_vlan_entry := ""; port_allowed_vlan_entry := "" |}.

(** Port 1 configured as an access port on VLAN 10 and still selected. *)
Definition access_session : Tool :=
  (_update_vlan_from_port_config (access_panel "10") (session_with_port 1)).1.

(** A port file with one good member and one whose key is not a number. *)
Definition file_with_bad_key : list (string * PortConfig) :=
  [("1", access_record "10"); ("uplink", trunk_record "1" "ALL")].

(** ** The interface line of a generated block *)

(** [command_prefix = "interface range" if "-" in intf_specifier else "interface"] *)
Definition command_prefix (intf_specifier : string) : string :=
  if Py.contains "-" intf_specifier then "interface range" else "interface".

(** The runs of consecutive ports that the loop of
    [_generate_interface_ranges] goes through, as pairs of first and last
    port: the current run is [start_range], [end_range]. *)
Fixpoint runs_from (ports : list Z) (start_range end_range : Z) : list (Z * Z) :=
  match ports with
  | [] => [(start_range, end_range)]
  | p :: rest =>
      if decide (p = end_range + 1) then runs_from rest start_range p
      else (start_range, end_range) :: runs_from rest p p
  end.

(** Two runs that follow each other leave at least one port out between
    them. *)
Definition run_gap (r1 r2 : Z * Z) : Prop := r1.2 + 1 < r2.1.

(** ** The key validator of the VLAN entries

    [port_data_vlan_entry], [port_voice_vlan_entry] and
    [port_native_vlan_entry] are created with [validate="key"] and
    [validatecommand=(reg, "%P")], and are bound to no variable: every
    insertion into and every deletion from such an entry, typed or made by
    the program, is first offered to [vlan_validator] as the text the entry
    would hold, and is dropped when the validator returns [False].  The
    entries start empty, so the text of such an entry is at all times one
    the validator accepts.  [port_allowed_vlan_entry] has no validator. *)









(* ================================================================= *)
(** * Properties *)

(** ** Sanity checks of the Python primitives *)

Example int_ex1 : Py.int " 10 " = Some 10. Proof. reflexivity. Qed.
Example int_ex2 : Py.int "1_0" = Some 10. Proof. reflexivity. Qed.
Example int_ex3 : Py.int "-7" = Some (-7). Proof. reflexivity. Qed.
Example int_ex4 : Py.int "" = None. Proof. reflexivity. Qed.
Example int_ex5 : Py.int "1__0" = None. Proof. reflexivity. Qed.
Example int_ex6 : Py.int "abc" = None. Proof. reflexivity. Qed.
Example int_ex7 : Py.int "007" = Some 7. Proof. reflexivity. Qed.
Example str_ex1 : Py.str_int 4094 = "4094". Proof. reflexivity. Qed.
Example str_ex2 : Py.str_int (-12) = "-12". Proof. reflexivity. Qed.
Example str_ex3 : Py.str_int 0 = "0". Proof. reflexivity. Qed.
Example split_ex1 : Py.split "," "1,10-20,30" = ["1"; "10-20"; "30"]. Proof. reflexivity. Qed.
Example split_ex2 : Py.split "-" "10-" = ["10"; ""]. Proof. reflexivity. Qed.
Example split_ex3 : Py.split "," "" = [""]. Proof. reflexivity. Qed.
Example strip_ex1 : Py.strip "  a b  " = "a b". Proof. reflexivity. Qed.
Example slice_ex1 : Py.slice_to [1;2;3] 0 = []. Proof. reflexivity. Qed.
Example slice_ex2 : Py.slice_to [1;2;3] (-1) = [1;2]. Proof. reflexivity. Qed.
Example index_ex1 : Py.index [1;2;3] (-1) = Some 3. Proof. reflexivity. Qed.
Example index_ex2 : Py.index [1;2;3] 3 = None. Proof. reflexivity. Qed.

(** ** History bookkeeping of the apply handler *)

Section ApplyHistory.
Variables (panel : Panel) (t : Tool).
Hypothesis Hsel : selected_ports t ≠ ∅.

Lemma apply_pushes_history :
  config_history (_update_vlan_from_port_config panel t).1
    = Py.slice_to (config_history t) (current_step t + 1) ++ [port_configs t]
  ∧ current_step (_update_vlan_from_port_config panel t).1 = current_step t + 1.
Proof.
  unfold _update_vlan_from_port_config.
  destruct (decide (selected_ports t = ∅)) as [|_]; [done|].
  unfold apply_panel_in_order.
  destruct (new_vlans _ _ _ _ _); [|done].
  repeat (case_match; simpl; try done).
Qed.

Lemma apply_keeps_selection :
  selected_ports (_update_vlan_from_port_config panel t).1 = selected_ports t.
Proof.
  unfold _update_vlan_from_port_config.
  destruct (decide (selected_ports t = ∅)) as [|_]; [done|].
  unfold apply_panel_in_order.
  destruct (new_vlans _ _ _ _ _); [|done].
  repeat (case_match; simpl; try done).
Qed.
End ApplyHistory.

Lemma undo_at_initial_position t :
  current_step t < 0 → undo_config t = (t, Status "Nothing to undo.").
Proof.
  intros H. unfold undo_config.
  destruct (0 <=? current_step t) eqn:E; [lia|done].
Qed.

(** ** Undo after two applies *)

(** Whatever the two panels hold, after two applies in a fresh session the
    first undo brings back the snapshot taken before the first apply (the
    empty store), the second undo wraps around to the last snapshot (the
    store as the first apply left it), and the third finds nothing to undo. *)
Lemma undo_walk_after_two_applies (pA pB : Panel) (p : Z) :
  let tA := (_update_vlan_from_port_config pA (session_with_port p)).1 in
  let tB := (_update_vlan_from_port_config pB tA).1 in
  let u1 := (undo_config tB).1 in
  let u2 := (undo_config u1).1 in
  port_configs u1 = ∅
  ∧ port_configs u2 = port_configs tA
  ∧ undo_config u2 = (u2, Status "Nothing to undo.").
Proof.
  intros tA tB u1 u2.
  assert (Hsel0 : selected_ports (session_with_port p) ≠ ∅) by (simpl; set_solver).
  destruct (apply_pushes_history pA _ Hsel0) as [HhA HsA].
  assert (HselA : selected_ports tA ≠ ∅).
  { subst tA. by rewrite apply_keeps_selection. }
  destruct (apply_pushes_history pB _ HselA) as [HhB HsB].
  fold tA in HhA, HsA. fold tB in HhB, HsB.
  simpl in HhA, HsA. rewrite HhA, HsA in HhB. rewrite HsA in HsB.
  simpl in HhB, HsB.
  assert (Hu1 : u1 = set_port_configs ∅ (set_step 0 tB)).
  { subst u1. unfold undo_config. rewrite HsB. simpl.
    unfold Py.index. simpl. by rewrite HhB. }
  assert (Hu2 : u2 = set_port_configs (port_configs tA) (set_step (-1) u1)).
  { subst u2. unfold undo_config. rewrite Hu1. simpl.
    unfold Py.index. simpl. by rewrite HhB. }
  split; [by rewrite Hu1|]. split; [by rewrite Hu2|].
  apply undo_at_initial_position. rewrite Hu2. simpl. lia.
Qed.

(** C1 (the claim fails on the code): in a fresh session port 1 is set to
    access VLAN 10 (configuration A) and then to access VLAN 20
    (configuration B).  The first [undo_config] leaves the store empty
    instead of restoring the state after A; the second one leaves the state
    after A instead of the empty store; the third changes nothing. *)
Theorem undo_config_after_A_then_B :
  let tA := (_update_vlan_from_port_config (access_panel "10") (session_with_port 1)).1 in
  let tB := (_update_vlan_from_port_config (access_panel "20") tA).1 in
  let u1 := (undo_config tB).1 in
  let u2 := (undo_config u1).1 in
  let u3 := (undo_config u2).1 in
  port_configs tA = {[ 1 := access_record "10" ]}
  ∧ port_configs tB = {[ 1 := access_record "20" ]}
  ∧ port_configs u1 = ∅
  ∧ port_configs u2 = {[ 1 := access_record "10" ]}
  ∧ u3 = u2.
Proof. by_evaluation. Qed.

(** C10: when the apply handler runs with a non-empty selection (the cursor
    standing at -1 or on an entry of the history, as it does in every state
    a session can reach), the history is cut off behind the cursor, so that
    the entries Redo could have restored are gone; a snapshot of the store
    as it was is appended, and the cursor moves up by one onto it.  This
    holds whatever the handler reports afterwards: the snapshot is taken
    before any VLAN check, so a rejected apply leaves its entry in the undo
    history as well. *)
Theorem apply_snapshot_precedes_validation (panel : Panel) (t : Tool) :
  selected_ports t ≠ ∅ →
  -1 ≤ current_step t < Z.of_nat (length (config_history t)) →
  let t' := (_update_vlan_from_port_config panel t).1 in
  config_history t'
    = take (Z.to_nat (current_step t + 1)) (config_history t) ++ [port_configs t]
  ∧ current_step t' = current_step t + 1
  ∧ Z.of_nat (length (config_history t')) = current_step t + 2
  ∧ Py.index (config_history t') (current_step t') = Some (port_configs t).
Proof.
  intros Hsel Hc t'. destruct (apply_pushes_history panel t Hsel) as [Hh Hs].
  fold t' in Hh, Hs.
  assert (Hcut : Py.slice_to (config_history t) (current_step t + 1)
                 = take (Z.to_nat (current_step t + 1)) (config_history t)).
  { unfold Py.slice_to. destruct (0 <=? current_step t + 1) eqn:E; [done|lia]. }
  rewrite Hcut in Hh.
  assert (Hlen : length (take (Z.to_nat (current_step t + 1)) (config_history t))
                 = Z.to_nat (current_step t + 1)).
  { rewrite length_take. lia. }
  split; [exact Hh|]. split; [exact Hs|]. split.
  - rewrite Hh, length_app, Hlen. simpl. lia.
  - rewrite Hh, Hs. unfold Py.index.
    destruct (0 <=? current_step t + 1) eqn:E; [|lia].
    rewrite lookup_app_r by lia. rewrite Hlen, Nat.sub_diag. done.
Qed.

(** Undo once in the mixed session, then a trunk apply with the allowed
    list 10-5: the apply is rejected, and yet the entry beyond the cursor
    has been replaced by a snapshot of the store. *)
Lemma apply_snapshot_precedes_validation_rejected :
  let t := (undo_config mixed_session).1 in
  let r := _update_vlan_from_port_config (trunk_panel "" "10-5") t in
  r.2 = Warned InvalidInput
  ∧ config_history t = [∅; {[ 1 := trunk_record "1" "ALL" ]}]
  ∧ current_step t = 0
  ∧ config_history r.1 = [∅; ∅]
  ∧ current_step r.1 = 1.
Proof.
  intros t r.
  destruct (apply_snapshot_precedes_validation (trunk_panel "" "10-5") t)
    as (Hh & Hs & _).
  - by_evaluation.
  - split; by_evaluation.
  - split; [by_evaluation|]. split; [by_evaluation|]. split; [by_evaluation|].
    subst r. split; [rewrite Hh; by_evaluation | rewrite Hs; by_evaluation].
Defined.

(** ** Rejected applies and the store *)

Lemma apply_loop_finishes_outside_access v ports pc :
  pv_mode v ≠ "access" → (apply_loop v ports pc).2 = true.
Proof.
  intros Hm. revert pc. induction ports as [|p rest IH]; intros pc; [done|].
  simpl. unfold apply_to_record.
  destruct (decide (pv_mode v = "access")); [done|].
  destruct (decide (pv_mode v = "trunk")); simpl; apply IH.
Qed.

(** Outside access mode the checks all run before the loop: an apply that
    does not complete has written nothing. *)
Lemma apply_rejected_outside_access_keeps_store (panel : Panel) (t : Tool) :
  Py.lower (port_mode_var panel) ≠ "access" →
  (_update_vlan_from_port_config panel t).2 ≠ Completed →
  port_configs (_update_vlan_from_port_config panel t).1 = port_configs t.
Proof.
  intros Hm. unfold _update_vlan_from_port_config.
  destruct (decide (selected_ports t = ∅)); [done|].
  unfold apply_panel_in_order.
  destruct (new_vlans _ _ _ _ _); [|done].
  repeat (case_match; simpl; try done).
  all: intros _; exfalso.
  all: match goal with
       | H : apply_loop ?v ?ps ?pc = (_, false) |- _ =>
           pose proof (apply_loop_finishes_outside_access v ps pc Hm) as Hfin;
           rewrite H in Hfin; discriminate Hfin
       end.
Qed.

(** ** Shift-click *)

Lemma elem_of_port_range (a b x : Z) :
  x ∈ (list_to_set (Py.range_incl a b) : gset Z) ↔ a ≤ x ≤ b.
Proof.
  rewrite elem_of_list_to_set. unfold Py.range_incl.
  rewrite elem_of_seqZ. lia.
Qed.

(** C5: with an anchor [a] set, a shift-click (shift held, control not held)
    on port [p] makes the selection the union of the previous selection and
    the inclusive range from [min a p] to [max a p], and leaves the anchor at
    [a]; the selection can therefore only grow under repeated shift-clicks. *)
Theorem shift_click_unions_range (t : Tool) (a p : Z) :
  last_clicked_port t = Some a →
  p ≠ 0 →
  let t' := on_port_click (Some p) false true t in
  (∀ x, x ∈ selected_ports t' ↔ x ∈ selected_ports t ∨ Z.min a p ≤ x ≤ Z.max a p)
  ∧ last_clicked_port t' = Some a
  ∧ selected_ports t ⊆ selected_ports t'.
Proof.
  intros Ha Hp t'.
  assert (Ht' : t' = set_selection
                       (selected_ports t ∪ list_to_set (Py.range_incl (Z.min a p) (Z.max a p)))
                       (Some a) t).
  { subst t'. unfold on_port_click. rewrite Ha. by destruct p. }
  rewrite Ht'. simpl. split; [|split; [done|set_solver]].
  intros x. by rewrite elem_of_union, elem_of_port_range.
Qed.

(** Click 5, shift-click 9, shift-click 3: the selection grows to 5..9 and
    then to 3..9 around the anchor 5. *)
Lemma shift_click_unions_range_chain :
  let t1 := on_port_click (Some 9) false true (session_with_port 5) in
  let t2 := on_port_click (Some 3) false true t1 in
  (∀ x, x ∈ selected_ports t1 ↔ 5 ≤ x ≤ 9)
  ∧ last_clicked_port t1 = Some 5
  ∧ (∀ x, x ∈ selected_ports t2 ↔ 3 ≤ x ≤ 9)
  ∧ last_clicked_port t2 = Some 5.
Proof.
  intros t1 t2.
  destruct (shift_click_unions_range (session_with_port 5) 5 9)
    as (Hm1 & Ha1 & _); [reflexivity | lia |].
  fold t1 in Hm1, Ha1.
  destruct (shift_click_unions_range t1 5 3) as (Hm2 & Ha2 & _); [exact Ha1 | lia |].
  fold t2 in Hm2, Ha2.
  split; [|split; [exact Ha1|split; [|exact Ha2]]].
  - intros x. rewrite Hm1. simpl. rewrite elem_of_singleton. lia.
  - intros x. rewrite Hm2, Hm1. simpl. rewrite elem_of_singleton. lia.
Defined.

(** ** VLAN range validation *)

(** C6 (the claim fails on the code): [_validate_vlan_range], as the apply
    handler and the key validator call it, accepts ALL, 10 and 1,10-20,30 and
    rejects 10-5, 4095 and abc, but it also accepts the unfinished range 10-
    (under [update_template] too, since no [ValueError] is raised for it);
    and it accepts the empty string but not every prefix of a valid string:
    10-2 is a prefix of the valid 10-20 and A a prefix of the valid ALL, and
    both are rejected. *)
Theorem validate_vlan_range_cases :
  _validate_vlan_range false "ALL" = true
  ∧ _validate_vlan_range false "10" = true
  ∧ _validate_vlan_range false "1,10-20,30" = true
  ∧ _validate_vlan_range false "10-5" = false
  ∧ _validate_vlan_range false "4095" = false
  ∧ _validate_vlan_range false "abc" = false
  ∧ _validate_vlan_range false "10-" = true
  ∧ _validate_vlan_range true "10-" = true
  ∧ _validate_vlan_range false "" = true
  ∧ (String.prefix "10-2" "10-20" = true
     ∧ _validate_vlan_range false "10-20" = true
     ∧ _validate_vlan_range false "10-2" = false)
  ∧ (String.prefix "A" "ALL" = true
     ∧ _validate_vlan_range false "ALL" = true
     ∧ _validate_vlan_range false "A" = false).
Proof. vm_compute. repeat split. Qed.

(** In the apply handler the unfinished range 10- never reaches the
    validation: the VLAN tracking before it calls [int] on the empty end of
    the range, and the [ValueError] escapes the handler. *)
Lemma apply_with_unfinished_range :
  let r := _update_vlan_from_port_config (trunk_panel "" "10-") (session_with_port 1) in
  r.2 = Raised ValueError ∧ port_configs r.1 = ∅.
Proof. by_evaluation. Qed.

(** ** Direct updates touch trunk ports only *)

Lemma mode_is_trunk_insert key v r :
  key ≠ "mode" → mode_is_trunk (<[key := v]> r) = mode_is_trunk r.
Proof. intros Hk. unfold mode_is_trunk. by rewrite lookup_insert_ne. Qed.

Section DirectUpdateLoop.
Variables (key value : string) (pc0 : PortConfigs).
Hypothesis Hkey : key ≠ "mode".

Lemma du_inv_trunk_now pc updated p r :
  du_inv key value pc0 pc updated → pc !! p = Some r →
  mode_is_trunk r = Some true → is_trunk_port pc0 p.
Proof.
  intros [Hin Hout] Hp Hm.
  destruct (decide (p ∈ updated)) as [Hu|Hu]; [by apply Hin|].
  exists r. by rewrite <- (Hout p Hu).
Qed.

Lemma du_inv_trunk_back pc updated p r :
  du_inv key value pc0 pc updated → pc !! p = Some r →
  is_trunk_port pc0 p → mode_is_trunk r = Some true.
Proof.
  intros [Hin Hout] Hp (r0 & Hr0 & Hm).
  destruct (decide (p ∈ updated)) as [Hu|Hu].
  - destruct (Hin p Hu) as [_ Hpc]. rewrite Hp, Hr0 in Hpc. simpl in Hpc.
    injection Hpc as ->. by rewrite mode_is_trunk_insert.
  - rewrite (Hout p Hu), Hr0 in Hp. by injection Hp as <-.
Qed.

Lemma du_inv_step pc updated p r :
  du_inv key value pc0 pc updated → pc !! p = Some r → mode_is_trunk r = Some true →
  du_inv key value pc0 (<[p := <[key := VStr value]> r]> pc) (updated ++ [p]).
Proof.
  intros Hinv Hp Hm. pose proof (du_inv_trunk_now _ _ _ _ Hinv Hp Hm) as Htr.
  destruct Hinv as [Hin Hout]. split.
  - intros q Hq. destruct (decide (q = p)) as [->|Hne].
    + split; [done|]. rewrite lookup_insert_eq.
      destruct (decide (p ∈ updated)) as [Hu|Hu].
      * destruct (Hin p Hu) as [_ Hpc]. rewrite Hp in Hpc.
        destruct (pc0 !! p) as [r0|]; [|done]. simpl in *.
        injection Hpc as ->. by rewrite insert_insert_eq.
      * by rewrite <- (Hout p Hu), Hp.
    + rewrite lookup_insert_ne by done. apply Hin.
      apply elem_of_app in Hq as [Hq|Hq]; [done|].
      apply list_elem_of_singleton in Hq. done.
  - intros q Hq. rewrite elem_of_app, list_elem_of_singleton in Hq.
    assert (q ≠ p) by (intros ->; apply Hq; by right).
    rewrite lookup_insert_ne by done. apply Hout. intros ?. apply Hq. by left.
Qed.

Lemma direct_update_loop_spec ports : ∀ pc updated,
  du_inv key value pc0 pc updated →
  let res := direct_update_loop key value ports pc updated in
  du_inv key value pc0 res.1.1 res.1.2
  ∧ (∀ p, p ∈ res.1.2 → p ∈ updated ∨ p ∈ ports)
  ∧ (res.2 = true → ∀ p, p ∈ ports → is_trunk_port pc0 p → p ∈ res.1.2)
  ∧ (∀ p, p ∈ updated → p ∈ res.1.2).
Proof.
  induction ports as [|p rest IH]; intros pc updated Hinv; simpl.
  { split; [done|]. split; [by left|]. split; [|done].
    intros _ p Hp. by apply elem_of_nil in Hp. }
  destruct (pc !! p) as [r|] eqn:Hp.
  - destruct (mode_is_trunk r) as [[|]|] eqn:Hm.
    + destruct (IH _ _ (du_inv_step _ _ _ _ Hinv Hp Hm)) as (H1 & H2 & H3 & H4).
      split; [done|]. split; [|split].
      * intros q Hq. destruct (H2 q Hq) as [Hq'|Hq']; [|right; by right].
        apply elem_of_app in Hq' as [?|Hq']; [by left|].
        apply list_elem_of_singleton in Hq' as ->. right; by left.
      * intros Hfin q Hq Htr. apply elem_of_cons in Hq as [->|Hq]; [|by apply H3].
        apply H4, elem_of_app. right. by apply list_elem_of_singleton.
      * intros q Hq. apply H4, elem_of_app. by left.
    + destruct (IH _ _ Hinv) as (H1 & H2 & H3 & H4).
      split; [done|]. split; [|split; [|done]].
      * intros q Hq. destruct (H2 q Hq); [by left|right; by right].
      * intros Hfin q Hq Htr. apply elem_of_cons in Hq as [->|Hq]; [|by apply H3].
        pose proof (du_inv_trunk_back _ _ _ _ Hinv Hp Htr). congruence.
    + simpl. split; [done|]. split; [by left|]. split; [done|done].
  - destruct (IH _ _ Hinv) as (H1 & H2 & H3 & H4).
    split; [done|]. split; [|split; [|done]].
    + intros q Hq. destruct (H2 q Hq); [by left|right; by right].
    + intros Hfin q Hq Htr. apply elem_of_cons in Hq as [Heq|Hq]; [|by apply H3].
      subst q. exfalso. destruct Hinv as [Hin Hout]. destruct Htr as (r0 & Hr0 & _).
      rename p into q.
      destruct (decide (q ∈ updated)) as [Hu|Hu].
      * destruct (Hin q Hu) as [_ Hpc]. rewrite Hp, Hr0 in Hpc. done.
      * rewrite (Hout q Hu), Hr0 in Hp. done.
Qed.

End DirectUpdateLoop.

Lemma direct_update_in_order_spec what key value (t : Tool) :
  key ≠ "mode" →
  let r := direct_update_in_order what key value (elements (selected_ports t)) t in
  (∀ p, ¬ (p ∈ selected_ports t ∧ is_trunk_port (port_configs t) p) →
        port_configs (du_tool r) !! p = port_configs t !! p ∧ p ∉ du_updated r)
  ∧ (∀ p, p ∈ du_updated r →
        p ∈ selected_ports t ∧ is_trunk_port (port_configs t) p
        ∧ port_configs (du_tool r) !! p
          = <[key := VStr value]> <$> port_configs t !! p)
  ∧ (du_report r ≠ Raised AttributeError →
     ∀ p, p ∈ selected_ports t → is_trunk_port (port_configs t) p → p ∈ du_updated r).
Proof.
  intros Hkey. unfold direct_update_in_order. simpl.
  assert (Hinv0 : du_inv key value (port_configs t) (port_configs t) []).
  { split; [|done]. intros p Hp. by apply elem_of_nil in Hp. }
  pose proof (direct_update_loop_spec key value (port_configs t) Hkey
                (elements (selected_ports t)) _ _ Hinv0) as Hspec.
  destruct (direct_update_loop key value (elements (selected_ports t))
              (port_configs t) []) as [[pc updated] finished].
  simpl in *. destruct Hspec as ([Hin Hout] & Hfrom & Hall & _).
  assert (Hsel : ∀ p, p ∈ updated → p ∈ selected_ports t).
  { intros p Hp. destruct (Hfrom p Hp) as [Hn|He]; [by apply elem_of_nil in Hn|].
    by apply elem_of_elements in He. }
  split; [|split].
  - intros p Hnot.
    assert (p ∉ updated) as Hu.
    { intros Hu. apply Hnot. split; [by apply Hsel|by apply Hin]. }
    split; [by apply Hout|done].
  - intros p Hp. split; [by apply Hsel|]. by apply Hin.
  - intros Hrep p Hp Htr. apply Hall; [|by apply elem_of_elements|done].
    destruct finished; [done|]. by destruct Hrep.
Qed.

(** C8: for a non-empty selection, [_direct_update_native_vlan] and
    [_direct_update_allowed_vlans] change only the selected ports that
    already have a record whose mode is trunk: any other port (not selected,
    not configured, or configured in another mode) keeps its entry exactly
    and is not among the reported updated ports; every reported port is a
    selected trunk port on which only the one key was set; and a handler
    that runs to its end reports every selected trunk port. *)
Theorem direct_updates_touch_trunk_ports_only (panel : Panel) (t : Tool) :
  selected_ports t ≠ ∅ →
  updates_only_trunk_ports "native_vlan" t (_direct_update_native_vlan panel t)
  ∧ updates_only_trunk_ports "allowed_vlans" t (_direct_update_allowed_vlans panel t).
Proof.
  intros Hsel. split.
  - unfold _direct_update_native_vlan, updates_only_trunk_ports.
    destruct (decide (selected_ports t = ∅)); [done|].
    destruct (negb _ && negb _); simpl.
    { split; [|split].
      - intros p _. split; [done|apply not_elem_of_nil].
      - intros p Hp. by apply elem_of_nil in Hp.
      - intros _ Hw. by destruct Hw. }
    match goal with |- context [direct_update_in_order ?w ?k ?v _ _] =>
      destruct (direct_update_in_order_spec w k v t) as (H1 & H2 & H3); [done|] end.
    split; [done|]. split; [|intros Hr _; by apply H3].
    intros p Hp. destruct (H2 p Hp) as (? & ? & ?). eauto.
  - unfold _direct_update_allowed_vlans, updates_only_trunk_ports.
    destruct (decide (selected_ports t = ∅)); [done|].
    destruct (negb _ && negb _); simpl.
    { split; [|split].
      - intros p _. split; [done|apply not_elem_of_nil].
      - intros p Hp. by apply elem_of_nil in Hp.
      - intros _ Hw. by destruct Hw. }
    match goal with |- context [direct_update_in_order ?w ?k ?v _ _] =>
      destruct (direct_update_in_order_spec w k v t) as (H1 & H2 & H3); [done|] end.
    split; [done|]. split; [|intros Hr _; by apply H3].
    intros p Hp. destruct (H2 p Hp) as (? & ? & ?). eauto.
Qed.

(** Ports 1 (trunk), 2 (access) and 3 (not configured) are selected and the
    native VLAN is set to 99: only port 1 is reported and changed. *)
Lemma direct_updates_on_mixed_selection :
  let r := _direct_update_native_vlan (trunk_panel "99" "") mixed_session in
  updates_only_trunk_ports "native_vlan" mixed_session r
  ∧ du_updated r = [1]
  ∧ port_configs (du_tool r) !! 1
    = <["native_vlan" := VStr "99"]> <$> port_configs mixed_session !! 1
  ∧ port_configs (du_tool r) !! 2 = Some (access_record "10")
  ∧ port_configs (du_tool r) !! 3 = None.
Proof.
  intros r.
  destruct (direct_updates_touch_trunk_ports_only (trunk_panel "99" "") mixed_session)
    as [Hn _].
  - by_evaluation.
  - split; [exact Hn|]. by_evaluation.
Defined.

(** ** Decimal text of integers *)

Lemma isdigit_char_cases c :
  Py.isdigit_char c = true →
  Py.isspace c = false ∧ Ascii.eqb c "-" = false ∧ Ascii.eqb c "_" = false
  ∧ Ascii.eqb c "+" = false.
Proof. destruct c as [[] [] [] [] [] [] [] []]; vm_compute; intros H; try done. Qed.

Lemma all_digits_string_of_uint u : Py.all_digits (NilEmpty.string_of_uint u) = true.
Proof. induction u; simpl; try done; by rewrite IHu. Qed.

Lemma all_digits_contains s c :
  Py.isdigit_char c = false → Py.all_digits s = true → Py.contains c s = false.
Proof.
  intros Hc. induction s as [|d r IH]; simpl; [done|].
  intros [Hd Hr]%andb_prop. rewrite (IH Hr), orb_false_r.
  destruct (Ascii.eqb_spec d c) as [->|]; [congruence|done].
Qed.

Lemma all_digits_rstrip s : Py.all_digits s = true → Py.rstrip s = s.
Proof.
  induction s as [|c r IH]; simpl; [done|].
  intros [Hc Hr]%andb_prop. rewrite (IH Hr).
  destruct (isdigit_char_cases c Hc) as (-> & _). by destruct r.
Qed.

Lemma all_digits_strip s : Py.all_digits s = true → Py.strip s = s.
Proof.
  intros H. unfold Py.strip. rewrite all_digits_rstrip by done.
  destruct s as [|c r]; simpl in *; [done|].
  apply andb_prop in H as [Hc _].
  by destruct (isdigit_char_cases c Hc) as (-> & _).
Qed.

Lemma all_digits_underscores s :
  Py.all_digits s = true →
  Py.underscores_ok true s = true ∧ Py.drop_underscores s = s.
Proof.
  induction s as [|c r IH]; simpl; [done|].
  intros [Hc Hr]%andb_prop. destruct (IH Hr) as [H1 H2].
  destruct (isdigit_char_cases c Hc) as (_ & _ & -> & _).
  by rewrite Hc, H1, H2.
Qed.

Lemma int_digits_of_digits c r :
  Py.all_digits (String c r) = true →
  Py.int_digits (String c r) = Z.of_uint <$> NilEmpty.uint_of_string (String c r).
Proof.
  intros H. unfold Py.int_digits.
  destruct (all_digits_underscores _ H) as [_ ->].
  simpl in H. apply andb_prop in H as [Hc Hr].
  destruct (all_digits_underscores _ Hr) as [Hu _].
  cbn [Py.underscores_ok].
  destruct (isdigit_char_cases c Hc) as (_ & _ & -> & _).
  by rewrite Hc, Hu.
Qed.

(** [int] on a non-empty string of decimal digits. *)
Lemma int_of_digits c r :
  Py.all_digits (String c r) = true →
  Py.int (String c r) = Z.of_uint <$> NilEmpty.uint_of_string (String c r).
Proof.
  intros H. unfold Py.int. rewrite all_digits_strip by done.
  rewrite <- int_digits_of_digits by done.
  simpl in H. apply andb_prop in H as [Hc _].
  destruct c as [[] [] [] [] [] [] [] []]; try done.
Qed.

(** The decimal numeral of a non-negative integer. *)
Lemma str_int_nonneg z :
  0 ≤ z →
  ∃ u c r, Py.str_int z = String c r
           ∧ NilEmpty.string_of_uint u = String c r
           ∧ Z.of_uint u = z.
Proof.
  intros Hz. destruct z as [|p|p]; [| |lia].
  - exists (Decimal.D0 Decimal.Nil), "0"%char, EmptyString. done.
  - unfold Py.str_int. simpl.
    pose proof (DecimalPos.Unsigned.to_uint_nonnil p) as Hnn.
    pose proof (DecimalPos.Unsigned.of_to p) as Hof.
    exists (Pos.to_uint p).
    destruct (Pos.to_uint p) eqn:Hu; [done|..]; simpl.
    all: eexists _, _; split; [reflexivity|]; split; [reflexivity|].
    all: unfold Z.of_uint; by rewrite Hof.
Qed.

Lemma str_int_digits z : 0 ≤ z → Py.all_digits (Py.str_int z) = true.
Proof.
  intros Hz. destruct (str_int_nonneg z Hz) as (u & c & r & -> & <- & _).
  apply all_digits_string_of_uint.
Qed.

Lemma int_str_int_nonneg z : 0 ≤ z → Py.int (Py.str_int z) = Some z.
Proof.
  intros Hz. pose proof (str_int_digits z Hz) as Hd.
  destruct (str_int_nonneg z Hz) as (u & c & r & Hs & Hu & Hof).
  rewrite Hs in *. rewrite int_of_digits by done.
  by rewrite <- Hu, NilEmpty.usu, <- Hof.
Qed.

Lemma rstrip_cons a c r :
  Py.rstrip (String c r) = String c r →
  Py.rstrip (String a (String c r)) = String a (String c r).
Proof.
  intros H. change (Py.rstrip (String a (String c r)))
    with (match Py.rstrip (String c r) with
          | EmptyString => if Py.isspace a then EmptyString else String a EmptyString
          | r' => String a r'
          end).
  by rewrite H.
Qed.

(** [int(str(z)) == z] *)
Lemma int_str_int z : Py.int (Py.str_int z) = Some z.
Proof.
  destruct (decide (0 ≤ z)) as [Hz|Hz]; [by apply int_str_int_nonneg|].
  destruct z as [|p|p]; [lia..|].
  pose proof (str_int_nonneg (Z.pos p) ltac:(lia)) as (u & c & r & Hs & Hu & Hof).
  pose proof (str_int_digits (Z.pos p) ltac:(lia)) as Hd. rewrite Hs in Hd.
  assert (Hneg : Py.str_int (Z.neg p) = String "-" (String c r)).
  { unfold Py.str_int in *. simpl in *. by rewrite Hs. }
  rewrite Hneg. unfold Py.int, Py.strip.
  assert (Hr : Py.rstrip (String "-" (String c r)) = String "-" (String c r)).
  { apply rstrip_cons. by apply all_digits_rstrip. }
  rewrite Hr. cbn [Py.lstrip]. change (Py.isspace "-") with false. cbv iota.
  rewrite int_digits_of_digits by done.
  rewrite <- Hu, NilEmpty.usu. simpl. by rewrite Hof.
Qed.

Lemma str_int_inj : Inj (=) (=) Py.str_int.
Proof.
  intros a b Hab. apply (f_equal Py.int) in Hab.
  rewrite !int_str_int in Hab. by injection Hab.
Qed.

(** ** Splitting and prefixes *)

Lemma append_cons c a b : String c a +:+ b = String c (a +:+ b).
Proof. reflexivity. Qed.

Lemma split_go_without sep s :
  Py.contains sep s = false → Py.split_go sep s = (s, []).
Proof.
  induction s as [|c r IH]; simpl; [done|].
  intros [Hc Hr]%orb_false_elim. by rewrite (IH Hr), Hc.
Qed.

Lemma split_go_at_first sep a b :
  Py.contains sep a = false →
  Py.split_go sep (a +:+ String sep b)
  = (a, (Py.split_go sep b).1 :: (Py.split_go sep b).2).
Proof.
  induction a as [|c r IH]; intros Ha.
  - change (EmptyString +:+ String sep b) with (String sep b). simpl.
    destruct (Py.split_go sep b). by rewrite Ascii.eqb_refl.
  - simpl in Ha. apply orb_false_elim in Ha as [Hc Hr].
    rewrite append_cons. simpl. by rewrite (IH Hr), Hc.
Qed.

Lemma strip_prefix_append prefix s : strip_prefix prefix (prefix +:+ s) = Some s.
Proof.
  induction prefix as [|c r IH]; [by destruct s|].
  rewrite append_cons. simpl. by rewrite Ascii.eqb_refl.
Qed.

Lemma range_incl_single a : Py.range_incl a a = [a].
Proof. unfold Py.range_incl. by replace (a - a + 1) with 1 by lia. Qed.

Lemma range_incl_snoc a b : a ≤ b + 1 → Py.range_incl a (b + 1) = Py.range_incl a b ++ [b + 1].
Proof.
  intros H. unfold Py.range_incl.
  replace (b + 1 - a + 1) with ((b - a + 1) + 1) by lia.
  rewrite seqZ_app by lia. f_equal.
  replace (a + (b - a + 1)) with (b + 1) by lia. done.
Qed.

(** ** Compress, then re-expand *)

Lemma expand_range_specifier prefix a b :
  0 ≤ a → 0 ≤ b →
  expand_specifier prefix (range_specifier prefix a b) = Some (Py.range_incl a b).
Proof.
  intros Ha Hb. unfold expand_specifier, range_specifier.
  assert (Hdash : Py.isdigit_char "-" = false) by done.
  pose proof (all_digits_contains _ _ Hdash (str_int_digits a Ha)) as Hca.
  pose proof (all_digits_contains _ _ Hdash (str_int_digits b Hb)) as Hcb.
  destruct (decide (a = b)) as [->|Hab].
  - rewrite strip_prefix_append. unfold Py.split.
    rewrite split_go_without by done.
    by rewrite int_str_int, range_incl_single.
  - rewrite strip_prefix_append. unfold Py.split.
    change ("-" +:+ Py.str_int b) with (String "-" (Py.str_int b)).
    rewrite split_go_at_first by done.
    rewrite split_go_without by done. simpl.
    by rewrite !int_str_int.
Qed.

Lemma expand_all_snoc prefix specs spec chunks l :
  expand_all prefix specs = Some chunks →
  expand_specifier prefix spec = Some l →
  expand_all prefix (specs ++ [spec]) = Some (chunks ++ [l]).
Proof.
  revert chunks. induction specs as [|s r IH]; intros chunks Hc Hs; simpl in *.
  - injection Hc as <-. by rewrite Hs.
  - destruct (expand_specifier prefix s); [|done].
    destruct (expand_all prefix r) as [ls|]; [|done].
    injection Hc as <-. by rewrite (IH ls eq_refl Hs).
Qed.

Lemma ranges_loop_expand prefix rest : ∀ start_range end_range ranges chunks,
  0 ≤ start_range ≤ end_range →
  Forall (λ p, 0 ≤ p) rest →
  expand_all prefix ranges = Some chunks →
  ∃ chunks',
    expand_all prefix (ranges_loop prefix rest start_range end_range ranges) = Some chunks'
    ∧ concat chunks' = concat chunks ++ Py.range_incl start_range end_range ++ rest.
Proof.
  induction rest as [|p rest IH]; intros s e ranges chunks Hse Hpos Hc; simpl.
  - exists (chunks ++ [Py.range_incl s e]). split.
    + apply expand_all_snoc; [done|]. apply expand_range_specifier; lia.
    + rewrite concat_app. simpl. by rewrite !app_nil_r.
  - apply Forall_cons in Hpos as [Hp Hpos].
    destruct (decide (p = e + 1)) as [->|Hne].
    + destruct (IH s (e + 1) ranges chunks ltac:(lia) Hpos Hc) as (chunks' & H1 & H2).
      exists chunks'. split; [done|]. rewrite H2, range_incl_snoc by lia.
      by rewrite <- !app_assoc.
    + destruct (IH p p (ranges ++ [range_specifier prefix s e])
                  (chunks ++ [Py.range_incl s e]) ltac:(lia) Hpos) as (chunks' & H1 & H2).
      { apply expand_all_snoc; [done|]. apply expand_range_specifier; lia. }
      exists chunks'. split; [done|]. rewrite H2, concat_app, range_incl_single.
      simpl. by rewrite app_nil_r, <- !app_assoc.
Qed.

(** Whatever the order of the collection: the specifiers re-expand to the
    ports in ascending order. *)
Lemma generate_then_expand prefix (ports : list Z) :
  Forall (λ p, 0 ≤ p) ports →
  ∃ chunks,
    expand_all prefix (_generate_interface_ranges prefix ports) = Some chunks
    ∧ concat chunks = merge_sort Z.le ports.
Proof.
  intros Hpos. unfold _generate_interface_ranges.
  assert (Hs : Forall (λ p, 0 ≤ p) (merge_sort Z.le ports)).
  { by rewrite merge_sort_Permutation. }
  destruct (merge_sort Z.le ports) as [|p0 rest]; [by exists []|].
  apply Forall_cons in Hs as [Hp0 Hrest].
  destruct (ranges_loop_expand prefix rest p0 p0 [] [] ltac:(lia) Hrest eq_refl)
    as (chunks & H1 & H2).
  exists chunks. split; [done|]. by rewrite H2, range_incl_single.
Qed.

(** The iteration order of the set does not show in the result. *)
Lemma generate_interface_ranges_order prefix (ports ports' : list Z) :
  ports ≡ₚ ports' →
  _generate_interface_ranges prefix ports = _generate_interface_ranges prefix ports'.
Proof.
  intros Hp. unfold _generate_interface_ranges.
  assert (merge_sort Z.le ports = merge_sort Z.le ports') as ->; [|done].
  apply (Sorted_unique Z.le); [apply Sorted_merge_sort, _..|].
  by rewrite !merge_sort_Permutation.
Qed.

(** C3: for a set of port numbers (non-negative, as port numbers are), the
    specifiers produced by [_generate_interface_ranges] all re-expand, and
    the ports they enumerate are exactly the ports of the set, none of them
    twice; and the ports 1, 2, 3, 5, 7, 8 with prefix Gi0/0/ give exactly
    Gi0/0/1-3, Gi0/0/5, Gi0/0/7-8 in this order. *)
Theorem interface_ranges_round_trip (prefix : string) (port_set : gset Z) :
  (∀ p, p ∈ port_set → 0 ≤ p) →
  (∃ chunks,
     expand_all prefix (_generate_interface_ranges prefix (elements port_set)) = Some chunks
     ∧ NoDup (concat chunks)
     ∧ ∀ p, p ∈ concat chunks ↔ p ∈ port_set)
  ∧ _generate_interface_ranges "Gi0/0/" (elements ({[1; 2; 3; 5; 7; 8]} : gset Z))
    = ["Gi0/0/1-3"; "Gi0/0/5"; "Gi0/0/7-8"].
Proof.
  intros Hpos. split; [|by vm_compute].
  destruct (generate_then_expand prefix (elements port_set)) as (chunks & H1 & H2).
  { apply Forall_forall. intros p Hp. apply Hpos. by apply elem_of_elements. }
  exists chunks. split; [done|]. rewrite H2. split.
  - rewrite merge_sort_Permutation. apply NoDup_elements.
  - intros p. by rewrite merge_sort_Permutation, elem_of_elements.
Qed.

(** The ports 4, 1, 2, 5: two ranges, re-expanded to 1, 2, 4, 5. *)
Lemma interface_ranges_round_trip_1245 :
  (∃ chunks,
     expand_all "Gi0/0/" (_generate_interface_ranges "Gi0/0/"
                            (elements ({[4; 1; 2; 5]} : gset Z))) = Some chunks
     ∧ NoDup (concat chunks)
     ∧ ∀ p, p ∈ concat chunks ↔ p ∈ ({[4; 1; 2; 5]} : gset Z))
  ∧ _generate_interface_ranges "Gi0/0/" (elements ({[4; 1; 2; 5]} : gset Z))
    = ["Gi0/0/1-2"; "Gi0/0/4-5"]
  ∧ expand_all "Gi0/0/" ["Gi0/0/1-2"; "Gi0/0/4-5"] = Some [[1; 2]; [4; 5]].
Proof.
  split; [|split; by vm_compute].
  apply (interface_ranges_round_trip "Gi0/0/" {[4; 1; 2; 5]}).
  intros p Hp. rewrite !elem_of_union, !elem_of_singleton in Hp. lia.
Defined.

(** ** Grouping by configuration *)

Global Instance item_le_trans : Transitive item_le.
Proof.
  intros a b c [H1 H2] [H3 H4]. split; [by etrans|].
  intros Hac. rewrite Hac in H1.
  assert (b.1 = c.1) as Hbc by (by apply (anti_symm String.le)).
  assert (a.1 = b.1) as Hab by congruence.
  etrans; [by apply H2|by apply H4].
Qed.

Global Instance item_le_antisymm : AntiSymm (=) item_le.
Proof.
  intros [a1 a2] [b1 b2] [H1 H2] [H3 H4]; simpl in *.
  assert (a1 = b1) as -> by (by apply (anti_symm String.le)).
  f_equal. apply (anti_symm String.le); auto.
Qed.

Global Instance item_le_total : Total item_le.
Proof.
  intros [a1 a2] [b1 b2]. unfold item_le; simpl.
  destruct (decide (a1 = b1)) as [->|Hne].
  - destruct (total String.le a2 b2); [left|right]; done.
  - destruct (total String.le a1 b1); [left|right]; split; try done; congruence.
Qed.

(** The key identifies the record up to [str] of its values. *)
Lemma config_key_eq (c1 c2 : PortConfig) :
  config_key c1 = config_key c2 ↔ py_str <$> c1 = py_str <$> c2.
Proof.
  unfold config_key. split; intros H.
  - apply map_to_list_inj. rewrite !map_to_list_fmap.
    rewrite <- (merge_sort_Permutation item_le (prod_map id py_str <$> map_to_list c1)).
    rewrite <- (merge_sort_Permutation item_le (prod_map id py_str <$> map_to_list c2)).
    by rewrite H.
  - apply (Sorted_unique item_le); [apply Sorted_merge_sort, _..|].
    rewrite !merge_sort_Permutation, <- !map_to_list_fmap. by rewrite H.
Qed.

Lemma py_str_same_type_inj v w : same_type v w → py_str v = py_str w → v = w.
Proof.
  destruct v as [s|[]|z], w as [s'|[]|z']; simpl; try done.
  - by intros _ ->.
  - intros _ H. by apply str_int_inj in H as ->.
Qed.

(** Records whose common keys hold values of the same type are equal as
    soon as they print the same. *)
Lemma fmap_py_str_typed_inj (c1 c2 : PortConfig) :
  (∀ k v w, c1 !! k = Some v → c2 !! k = Some w → same_type v w) →
  py_str <$> c1 = py_str <$> c2 → c1 = c2.
Proof.
  intros Hty H. apply map_eq. intros k.
  apply (f_equal (.!! k)) in H. rewrite !lookup_fmap in H.
  destruct (c1 !! k) as [v|] eqn:E1, (c2 !! k) as [w|] eqn:E2; simpl in H; try done.
  f_equal. apply py_str_same_type_inj; [by eapply Hty|congruence].
Qed.

Lemma groups_inv_step pc seen groups p c :
  groups_inv pc seen groups → pc !! p = Some c →
  groups_inv pc (seen ++ [p])
    (<[config_key c := default [] (groups !! config_key c) ++ [p]]> groups).
Proof.
  intros [Hmem Hhas] Hp. split.
  - intros key members q Hl.
    destruct (decide (key = config_key c)) as [->|Hne].
    + rewrite lookup_insert_eq in Hl. injection Hl as <-.
      rewrite !elem_of_app, !list_elem_of_singleton.
      destruct (groups !! config_key c) as [ms|] eqn:Hg; simpl.
      * rewrite (Hmem _ _ q Hg). split.
        -- intros [[? ?]| ->]; [by auto|]. split; [by right|]. by exists c.
        -- intros [[?| ->] Hc]; [left; by split|by right].
      * split.
        -- intros [Hn| ->]; [by apply elem_of_nil in Hn|]. split; [by right|by exists c].
        -- intros [[Hs| ->] (c' & Hc' & Hk)]; [|by right]. exfalso.
           destruct (Hhas q c' Hs Hc') as [ms Hms]. congruence.
    + rewrite lookup_insert_ne in Hl by done.
      rewrite (Hmem _ _ q Hl), elem_of_app, list_elem_of_singleton. split.
      * intros [? ?]. split; [by left|done].
      * intros [[?| ->] (c' & Hc' & Hk)]; [split; [done|by exists c']|].
        exfalso. apply Hne. congruence.
  - intros q c' Hq Hc'. apply elem_of_app in Hq as [Hq|Hq].
    + destruct (decide (config_key c' = config_key c)) as [->|Hne].
      * rewrite lookup_insert_eq. by eexists.
      * rewrite lookup_insert_ne by done. by eapply Hhas.
    + apply list_elem_of_singleton in Hq as ->.
      assert (c' = c) as -> by congruence. rewrite lookup_insert_eq. by eexists.
Qed.

Lemma group_ports_inv pc rest : ∀ seen groups,
  (∀ p, p ∈ rest → is_Some (pc !! p)) →
  groups_inv pc seen groups →
  groups_inv pc (seen ++ rest) (group_ports pc rest groups).
Proof.
  induction rest as [|p rest IH]; intros seen groups Hcfg Hinv; simpl.
  - by rewrite app_nil_r.
  - destruct (Hcfg p ltac:(by left)) as [c Hc]. rewrite Hc.
    replace (seen ++ p :: rest) with ((seen ++ [p]) ++ rest) by by rewrite <- app_assoc.
    apply IH; [|by apply groups_inv_step].
    intros q Hq. apply Hcfg. by right.
Qed.

Lemma elem_of_configured_ports_of pc ports p :
  p ∈ configured_ports_of pc ports ↔ p ∈ ports ∧ is_Some (pc !! p).
Proof.
  unfold configured_ports_of.
  rewrite list_elem_of_filter, merge_sort_Permutation. tauto.
Qed.

(** Two configured ports of the request share a group exactly when their
    records have the same key. *)
Lemma same_group_iff_key pc ports p q cp cq :
  p ∈ ports → q ∈ ports → pc !! p = Some cp → pc !! q = Some cq →
  same_group (port_groups_of pc ports) p q ↔ config_key cp = config_key cq.
Proof.
  intros Hp Hq Hcp Hcq. unfold port_groups_of.
  assert (Hinv : groups_inv pc (configured_ports_of pc ports)
                   (group_ports pc (configured_ports_of pc ports) ∅)).
  { apply (group_ports_inv pc _ [] ∅).
    - intros x Hx. by apply elem_of_configured_ports_of in Hx as [_ ?].
    - split; [intros ??? H; by rewrite lookup_empty in H|].
      intros ?? H. by apply elem_of_nil in H. }
  destruct Hinv as [Hmem Hhas].
  assert (Hp' : p ∈ configured_ports_of pc ports)
    by (apply elem_of_configured_ports_of; eauto).
  assert (Hq' : q ∈ configured_ports_of pc ports)
    by (apply elem_of_configured_ports_of; eauto).
  split.
  - intros (key & members & Hl & Hpm & Hqm).
    apply (Hmem _ _ p Hl) in Hpm as (_ & c1 & H1 & <-).
    apply (Hmem _ _ q Hl) in Hqm as (_ & c2 & H2 & Hk). congruence.
  - intros Hk. destruct (Hhas p cp Hp' Hcp) as [members Hl].
    exists (config_key cp), members. split; [done|]. split.
    + apply (Hmem _ _ p Hl). split; [done|]. by exists cp.
    + apply (Hmem _ _ q Hl). split; [done|]. by exists cq.
Qed.

(** C4 as the code has it: two configured ports of the request are in the
    same generation group exactly when their records have the same keys and
    under each key values with the same [str] text.  Identical records are
    therefore always grouped together, whatever the order in which the ports
    were configured or are listed; records that differ are kept apart when
    they differ in the keys they have or in the text of a value, and also
    whenever the values under a common key are of the same type. *)
Theorem grouping_by_printed_record (pc : PortConfigs) (ports : list Z)
    (p q : Z) (cp cq : PortConfig) :
  p ∈ ports → q ∈ ports →
  pc !! p = Some cp → pc !! q = Some cq →
  (same_group (port_groups_of pc ports) p q ↔ py_str <$> cp = py_str <$> cq)
  ∧ (cp = cq → same_group (port_groups_of pc ports) p q)
  ∧ ((∀ k v w, cp !! k = Some v → cq !! k = Some w → same_type v w) →
     cp ≠ cq → ¬ same_group (port_groups_of pc ports) p q)
  ∧ (∀ ports', ports' ≡ₚ ports → port_groups_of pc ports' = port_groups_of pc ports).
Proof.
  intros Hp Hq Hcp Hcq.
  pose proof (same_group_iff_key pc ports p q cp cq Hp Hq Hcp Hcq) as Hiff.
  rewrite config_key_eq in Hiff.
  split; [done|]. split; [|split].
  - intros ->. by apply Hiff.
  - intros Hty Hne Hs. apply Hne, fmap_py_str_typed_inj; [done|]. by apply Hiff.
  - intros ports' Hperm. unfold port_groups_of, configured_ports_of.
    assert (merge_sort Z.le ports' = merge_sort Z.le ports) as ->; [|done].
    apply (Sorted_unique Z.le); [apply Sorted_merge_sort, _..|].
    by rewrite !merge_sort_Permutation.
Qed.

(** Ports 1 and 2 of the mixed session have different records and land in
    different groups; asked about port 1 twice, the answer is one group. *)
Lemma grouping_by_printed_record_mixed :
  ∃ cp cq,
    port_configs mixed_session !! 1 = Some cp
    ∧ port_configs mixed_session !! 2 = Some cq
    ∧ cp ≠ cq
    ∧ ¬ same_group (port_groups_of (port_configs mixed_session) [2; 1]) 1 2
    ∧ same_group (port_groups_of (port_configs mixed_session) [2; 1]) 1 1.
Proof.
  exists (trunk_record "1" "ALL"), (access_record "10").
  assert (H1 : port_configs mixed_session !! 1 = Some (trunk_record "1" "ALL"))
    by by_evaluation.
  assert (H2 : port_configs mixed_session !! 2 = Some (access_record "10"))
    by by_evaluation.
  assert (Hne : py_str <$> trunk_record "1" "ALL" ≠ py_str <$> access_record "10")
    by by_evaluation.
  destruct (grouping_by_printed_record (port_configs mixed_session) [2; 1] 1 2
              (trunk_record "1" "ALL") (access_record "10"))
    as (Hiff & _ & _ & _); [repeat constructor..|exact H1|exact H2|].
  destruct (grouping_by_printed_record (port_configs mixed_session) [2; 1] 1 1
              (trunk_record "1" "ALL") (trunk_record "1" "ALL"))
    as (_ & Hsame & _ & _); [repeat constructor..|exact H1|exact H1|].
  split; [exact H1|]. split; [exact H2|]. split; [|split].
  - by_evaluation.
  - intros Hs. apply Hne, Hiff, Hs.
  - apply Hsame. reflexivity.
Defined.

(** C4 as stated does not hold: a data VLAN kept as the text 10 on one port
    and as the number 10 on another (both are accepted from the JSON file)
    makes two different records, and the two ports share a group. *)
Lemma text_and_number_share_a_group : ¬ different_records_different_groups.
Proof.
  intros H.
  apply (H {[ 1 := stored_as_text; 2 := stored_as_number ]} [1; 2] 1 2
           stored_as_text stored_as_number);
    [repeat constructor..|by_evaluation|by_evaluation| |].
  - by_evaluation.
  - apply same_group_iff_key with stored_as_text stored_as_number;
      [repeat constructor..|by_evaluation|by_evaluation|].
    by_evaluation.
Qed.

(** ** Mode-specific fields *)

Lemma lower_char_idemp c : Py.lower_char (Py.lower_char c) = Py.lower_char c.
Proof. by destruct c as [[] [] [] [] [] [] [] []]. Qed.

Lemma lower_idemp s : Py.lower (Py.lower s) = Py.lower s.
Proof.
  induction s as [|c r IH]; [done|].
  unfold Py.lower in *. simpl. by rewrite lower_char_idemp, IH.
Qed.

Lemma read_panel_mode_lower panel :
  Py.lower (pv_mode (read_panel panel)) = pv_mode (read_panel panel).
Proof. apply lower_idemp. Qed.

Lemma record_ok_no_access r :
  r !! "data_vlan" = None → r !! "voice_vlan" = None → record_ok r.
Proof.
  intros Hd Hv. assert (¬ has_access_field r) as Hn.
  { intros [[? H]|[? H]]; congruence. }
  split; [by intros [? _]|done].
Qed.

Lemma record_ok_access_mode r :
  r !! "native_vlan" = None → r !! "allowed_vlans" = None →
  r !! "mode" = Some (VStr "access") → record_ok r.
Proof.
  intros Hn Ha Hm. split.
  - intros [_ [[? H]|[? H]]]; congruence.
  - unfold mode_is_trunk. rewrite Hm. done.
Qed.

Lemma write_common_lookup v old k :
  k ≠ "mode" → k ≠ "description" → k ≠ "portfast" → k ≠ "qos_trust" →
  write_common v old !! k = old ≫= (.!! k).
Proof.
  intros. unfold write_common.
  rewrite !lookup_insert_ne by done.
  destruct old as [r|]; simpl; [done|].
  by rewrite !lookup_insert_ne, lookup_empty by done.
Qed.

Lemma write_common_mode v old :
  write_common v old !! "mode" = Some (VStr (pv_mode v)).
Proof. unfold write_common. by rewrite !lookup_insert_ne, lookup_insert_eq by done. Qed.

(** The record left on a port by one iteration of the apply loop keeps to
    one mode, whether the iteration ends normally or by a warning. *)
Lemma apply_to_record_ok v old :
  Py.lower (pv_mode v) = pv_mode v →
  (∀ r, old = Some r → record_ok r) →
  record_ok (apply_to_record v old).1.
Proof.
  intros Hlow Hold. unfold apply_to_record.
  destruct (decide (pv_mode v = "access")) as [Hacc|Hacc].
  - assert (∀ r : PortConfig,
              r !! "native_vlan" = None → r !! "allowed_vlans" = None →
              r !! "mode" = Some (VStr "access") →
              record_ok
                (if negb (bool_decide (pv_data_vlan v = "")) && negb (vlan_id_ok (pv_data_vlan v))
                 then (r, false)
                 else
                   let r0 := if decide (pv_data_vlan v = "") then r
                             else <["data_vlan" := VStr (pv_data_vlan v)]> r in
                   if decide (pv_voice_vlan v = "") then (delete "voice_vlan" r0, true)
                   else if vlan_id_ok (pv_voice_vlan v)
                        then (<["voice_vlan" := VStr (pv_voice_vlan v)]> r0, true)
                        else (r0, false)).1) as Hgen.
    { intros r Hn Ha Hm.
      repeat case_match; simpl; apply record_ok_access_mode; by peel_lookup. }
    apply Hgen.
    + by rewrite lookup_delete_ne, lookup_delete_eq.
    + by rewrite lookup_delete_eq.
    + rewrite !lookup_delete_ne by done. rewrite write_common_mode. by rewrite Hacc.
  - destruct (decide (pv_mode v = "trunk")) as [Htr|Htr]; simpl.
    + apply record_ok_no_access.
      * by destruct (decide (pv_native_vlan v = "")); peel_lookup.
      * by destruct (decide (pv_native_vlan v = "")); peel_lookup.
    + split.
      * unfold has_access_field, has_trunk_field.
        rewrite !write_common_lookup by done.
        destruct old as [r|]; simpl.
        -- by destruct (Hold r eq_refl) as [H _].
        -- intros [[[? H]|[? H]] _]; done.
      * unfold mode_is_trunk. rewrite write_common_mode, Hlow.
        rewrite bool_decide_eq_false_2 by done. done.
Qed.

Lemma store_ok_insert pc p r : store_ok pc → record_ok r → store_ok (<[p := r]> pc).
Proof.
  intros Hpc Hr q r' Hq. destruct (decide (p = q)) as [->|Hne].
  - rewrite lookup_insert_eq in Hq. by injection Hq as <-.
  - rewrite lookup_insert_ne in Hq by done. by eapply Hpc.
Qed.

Lemma apply_loop_store_ok v ports : ∀ pc,
  Py.lower (pv_mode v) = pv_mode v →
  store_ok pc → store_ok (apply_loop v ports pc).1.
Proof.
  induction ports as [|p rest IH]; intros pc Hlow Hpc; simpl; [done|].
  pose proof (apply_to_record_ok v (pc !! p) Hlow) as Hrec.
  destruct (apply_to_record v (pc !! p)) as [r go_on]. simpl in Hrec.
  assert (store_ok (<[p := r]> pc)) as Hins.
  { apply store_ok_insert; [done|]. apply Hrec. intros r0 Hr0. by eapply Hpc. }
  destruct go_on; [by apply IH|done].
Qed.

Lemma store_ok_write_record r ports : ∀ pc,
  record_ok r → store_ok pc → store_ok (write_record r ports pc).
Proof.
  unfold write_record. induction ports as [|p rest IH]; intros pc Hr Hpc; simpl; [done|].
  apply IH; [done|]. by apply store_ok_insert.
Qed.

Lemma direct_update_loop_store_ok key value ports : ∀ pc updated,
  key ≠ "mode" → key ≠ "data_vlan" → key ≠ "voice_vlan" →
  store_ok pc → store_ok (direct_update_loop key value ports pc updated).1.1.
Proof.
  induction ports as [|p rest IH]; intros pc updated Hk1 Hk2 Hk3 Hpc; simpl; [done|].
  destruct (pc !! p) as [r|] eqn:Hp; [|by apply IH].
  destruct (mode_is_trunk r) as [[|]|] eqn:Hm; [|by apply IH|done].
  apply IH; try done. apply store_ok_insert; [done|].
  destruct (Hpc p r Hp) as [_ Hna]. specialize (Hna Hm).
  apply record_ok_no_access; rewrite lookup_insert_ne by done.
  - destruct (r !! "data_vlan") eqn:E; [|done]. exfalso. apply Hna. left. by eexists.
  - destruct (r !! "voice_vlan") eqn:E; [|done]. exfalso. apply Hna. right. by eexists.
Qed.

Lemma template_record_ok tpl r : template_record tpl = Some r → record_ok r.
Proof.
  unfold template_record. intros H.
  destruct (decide (tpl_mode tpl = "access")) as [Hacc|Hacc].
  - destruct (tpl_access_vlan tpl) as [a|]; [|done]. injection H as <-.
    rewrite Hacc. destruct (tpl_voice_vlan tpl); by apply record_ok_access_mode.
  - destruct (decide (tpl_mode tpl = "trunk")); [|done]. injection H as <-.
    by apply record_ok_no_access.
Qed.

Lemma config_to_apply_ok v n a c : config_to_apply v n a = Some c → record_ok c.
Proof.
  unfold config_to_apply. intros H.
  destruct (decide (pv_mode v = "access")) as [Hacc|Hacc].
  - rewrite Hacc in H. repeat case_match; try done; injection H as <-;
      by apply record_ok_access_mode.
  - destruct (decide (pv_mode v = "trunk")).
    + repeat case_match; try done; injection H as <-; by apply record_ok_no_access.
    + injection H as <-. by apply record_ok_no_access.
Qed.

(** ** The port file gives back the store *)

Lemma load_members_save (l : list (Z * PortConfig)) : ∀ acc,
  load_members (prod_map Py.str_int id <$> l) acc
  = Some (foldl (λ a kv, <[kv.1 := kv.2]> a) acc l).
Proof.
  induction l as [|[k v] l IH]; intros acc; simpl; [done|].
  by rewrite int_str_int, IH.
Qed.

Lemma foldl_insert_union (l : list (Z * PortConfig)) : ∀ acc : PortConfigs,
  NoDup l.*1 →
  foldl (λ a kv, <[kv.1 := kv.2]> a) acc l = list_to_map l ∪ acc.
Proof.
  induction l as [|[k v] l IH]; intros acc Hnd; simpl.
  - by rewrite (left_id ∅ (∪)).
  - apply NoDup_cons in Hnd as [Hk Hnd]. rewrite IH by done.
    rewrite <- insert_union_l. symmetry. apply insert_union_r.
    by apply not_elem_of_list_to_map_1.
Qed.

Lemma foldl_insert_map_to_list (pc : PortConfigs) :
  foldl (λ a kv, <[kv.1 := kv.2]> a) ∅ (map_to_list pc) = pc.
Proof.
  rewrite foldl_insert_union by apply NoDup_fst_map_to_list.
  by rewrite (right_id ∅ (∪)), list_to_map_to_list.
Qed.

(** Saving the store and loading the document gives the same store back:
    the keys written by [str] are read back by [int] as the same ports, and
    the records travel unchanged. *)
Lemma load_saved_port_configs (pc : PortConfigs) (t : Tool) :
  _load_port_configs (Some (_save_port_configs pc)) t = set_port_configs pc t.
Proof.
  unfold _load_port_configs, _save_port_configs.
  by rewrite load_members_save, foldl_insert_map_to_list.
Qed.

(** ** Every handler keeps the records to one mode *)

Lemma store_ok_empty : store_ok ∅.
Proof. intros p r H. by rewrite lookup_empty in H. Qed.

Lemma session_ok_push t : session_ok t → session_ok (push_history t).
Proof.
  intros [Hs Hh]. split; [done|]. simpl. apply Forall_app. split.
  - unfold Py.slice_to. destruct (0 <=? current_step t + 1); by apply Forall_take.
  - by apply Forall_singleton.
Qed.

Lemma session_ok_set_port_configs pc t :
  store_ok pc → session_ok t → session_ok (set_port_configs pc t).
Proof. intros Hpc [_ Hh]. by split. Qed.

Lemma session_ok_apply panel t :
  session_ok t → session_ok (_update_vlan_from_port_config panel t).1.
Proof.
  intros Hok. unfold _update_vlan_from_port_config.
  destruct (decide (selected_ports t = ∅)); [done|].
  unfold apply_panel_in_order.
  apply session_ok_push in Hok.
  destruct (new_vlans _ _ _ _ _); [|done].
  repeat (case_match; simpl; try done).
  all: match goal with
       | H : apply_loop ?v ?ps ?pc = (?pc', _) |- _ =>
           pose proof (apply_loop_store_ok v ps pc (read_panel_mode_lower panel)
                         (proj1 Hok)) as Hl;
           rewrite H in Hl
       end.
  all: split; [exact Hl|exact (proj2 Hok)].
Qed.

Lemma session_ok_apply_selected panel t :
  session_ok t → session_ok (apply_port_config_to_selected panel t).1.
Proof.
  intros Hok. unfold apply_port_config_to_selected.
  destruct (decide (selected_ports t = ∅)); [done|].
  apply session_ok_push in Hok.
  destruct (decide (pv_mode (read_panel panel) = "")); [done|].
  destruct (config_to_apply _ _ _) as [c|] eqn:Hc; [|done]. simpl.
  split; [|exact (proj2 Hok)].
  apply store_ok_write_record; [by eapply config_to_apply_ok|exact (proj1 Hok)].
Qed.

Lemma session_ok_direct_update what key value ports t :
  key ≠ "mode" → key ≠ "data_vlan" → key ≠ "voice_vlan" →
  session_ok t → session_ok (du_tool (direct_update_in_order what key value ports t)).
Proof.
  intros Hk1 Hk2 Hk3 Hok. unfold direct_update_in_order.
  apply session_ok_push in Hok.
  pose proof (direct_update_loop_store_ok key value ports
                (port_configs (push_history t)) [] Hk1 Hk2 Hk3 (proj1 Hok)) as Hl.
  destruct (direct_update_loop _ _ _ _ _) as [[pc updated] finished]. simpl in *.
  split; [exact Hl|exact (proj2 Hok)].
Qed.

Lemma session_ok_native panel t :
  session_ok t → session_ok (du_tool (_direct_update_native_vlan panel t)).
Proof.
  intros Hok. unfold _direct_update_native_vlan.
  destruct (decide (selected_ports t = ∅)); [done|].
  destruct (negb _ && negb _); [done|]. by apply session_ok_direct_update.
Qed.

Lemma session_ok_allowed panel t :
  session_ok t → session_ok (du_tool (_direct_update_allowed_vlans panel t)).
Proof.
  intros Hok. unfold _direct_update_allowed_vlans.
  destruct (decide (selected_ports t = ∅)); [done|].
  destruct (negb _ && negb _); [done|]. by apply session_ok_direct_update.
Qed.

Lemma session_ok_template templates name a b t :
  session_ok t → session_ok (_apply_template templates name a b t).1.
Proof.
  intros Hok. unfold _apply_template.
  destruct (templates !! name) as [tpl|]; [|done].
  destruct (decide (name = "")); [done|].
  destruct (decide (selected_ports t = ∅)); [done|].
  apply session_ok_push in Hok.
  destruct (template_check tpl); [done|].
  assert (Hfin : ∀ t', session_ok t' →
            session_ok (match template_record tpl with
                        | None => (t', Raised UnboundLocalError)
                        | Some r =>
                            (set_port_configs
                               (write_record r (elements (selected_ports t)) (port_configs t'))
                               t', Completed)
                        end).1).
  { intros t' Hok'. destruct (template_record tpl) as [r|] eqn:Hr; [|done]. simpl.
    split; [|exact (proj2 Hok')].
    apply store_ok_write_record; [by eapply template_record_ok|exact (proj1 Hok')]. }
  repeat (case_match; try done); by apply Hfin.
Qed.

Lemma session_ok_restore t i :
  session_ok t →
  match Py.index (config_history t) i with
  | Some snap => store_ok snap
  | None => True
  end.
Proof.
  intros [_ Hh]. unfold Py.index.
  repeat case_match; try done.
  all: match goal with
       | H : _ !! _ = Some _ |- _ =>
           apply list_elem_of_lookup_2 in H; by eapply Forall_forall in Hh
       end.
Qed.

Lemma session_ok_undo t : session_ok t → session_ok (undo_config t).1.
Proof.
  intros Hok. unfold undo_config.
  destruct (0 <=? current_step t); [|done].
  pose proof (session_ok_restore t (current_step t - 1) Hok) as Hr. simpl.
  destruct (Py.index (config_history t) (current_step t - 1)); simpl; [|done].
  split; [done|exact (proj2 Hok)].
Qed.

Lemma session_ok_redo t : session_ok t → session_ok (redo_config t).1.
Proof.
  intros Hok. unfold redo_config.
  destruct (current_step t <? _); [|done].
  pose proof (session_ok_restore t (current_step t + 1) Hok) as Hr. simpl.
  destruct (Py.index (config_history t) (current_step t + 1)); simpl; [|done].
  split; [done|exact (proj2 Hok)].
Qed.

Lemma session_ok_draw n t : session_ok t → session_ok (_draw_switch n t).
Proof.
  intros [Hs Hh]. split; [|done]. simpl.
  intros p r Hp. apply map_lookup_filter_Some in Hp as [Hp _]. by eapply Hs.
Qed.

Lemma reachable_session_ok t : reachable t → session_ok t.
Proof.
  induction 1.
  - split; [apply store_ok_empty|constructor].
  - rewrite load_saved_port_configs. split; [exact (proj1 IHreachable)|constructor].
  - unfold on_port_click. repeat case_match; done.
  - done.
  - by apply session_ok_apply.
  - by apply session_ok_apply_selected.
  - by apply session_ok_native.
  - by apply session_ok_allowed.
  - by apply session_ok_template.
  - by apply session_ok_undo.
  - by apply session_ok_redo.
  - by apply session_ok_draw.
  - split; [apply store_ok_empty|exact (proj2 IHreachable)].
Qed.

Lemma apply_loop_post v (P : PortConfig → Prop) :
  (∀ old, P (apply_to_record v old).1) →
  ∀ ports pc, (apply_loop v ports pc).2 = true →
  ∀ p, p ∈ ports ∨ (∃ r, pc !! p = Some r ∧ P r) →
       ∃ r, (apply_loop v ports pc).1 !! p = Some r ∧ P r.
Proof.
  intros HP. induction ports as [|q rest IH]; intros pc Hfin p Hp; simpl in *.
  - destruct Hp as [Hp|Hp]; [by apply elem_of_nil in Hp|done].
  - pose proof (HP (pc !! q)) as Hq.
    destruct (apply_to_record v (pc !! q)) as [r go_on]. simpl in Hq.
    destruct go_on; [|done]. apply IH; [done|].
    destruct (decide (p = q)) as [->|Hne].
    + right. exists r. by rewrite lookup_insert_eq.
    + destruct Hp as [Hp|Hp].
      * apply elem_of_cons in Hp as [?|?]; [done|by left].
      * right. by rewrite lookup_insert_ne.
Qed.

Lemma apply_to_record_sheds_other_mode v old :
  let r := (apply_to_record v old).1 in
  (pv_mode v = "trunk" → r !! "data_vlan" = None ∧ r !! "voice_vlan" = None)
  ∧ (pv_mode v = "access" → r !! "native_vlan" = None ∧ r !! "allowed_vlans" = None).
Proof.
  unfold apply_to_record. split; intros Hm.
  - destruct (decide (pv_mode v = "access")) as [Hacc|_]; [by rewrite Hm in Hacc|].
    destruct (decide (pv_mode v = "trunk")); [simpl|done].
    by destruct (decide (pv_native_vlan v = "")); split; peel_lookup.
  - destruct (decide (pv_mode v = "access")); [|done].
    repeat case_match; simpl; split; by peel_lookup.
Qed.

(** C7: in every state a session can reach, no port record holds an
    access-only field (data or voice VLAN) together with a trunk-only field
    (native or allowed VLANs); and an apply that completes in trunk mode
    leaves no data or voice VLAN on any selected port, an apply that
    completes in access mode no native VLAN or allowed list. *)
Theorem modes_do_not_mix (t : Tool) :
  reachable t →
  (∀ p r, port_configs t !! p = Some r → ¬ (has_access_field r ∧ has_trunk_field r))
  ∧ (∀ panel p,
       p ∈ selected_ports t →
       (_update_vlan_from_port_config panel t).2 = Completed →
       ∃ r, port_configs (_update_vlan_from_port_config panel t).1 !! p = Some r
            ∧ (Py.lower (port_mode_var panel) = "trunk" →
               r !! "data_vlan" = None ∧ r !! "voice_vlan" = None)
            ∧ (Py.lower (port_mode_var panel) = "access" →
               r !! "native_vlan" = None ∧ r !! "allowed_vlans" = None)).
Proof.
  intros Hreach. split.
  - intros p r Hp. destruct (reachable_session_ok t Hreach) as [Hs _].
    by destruct (Hs p r Hp).
  - intros panel p Hp. unfold _update_vlan_from_port_config.
    destruct (decide (selected_ports t = ∅)); [done|].
    unfold apply_panel_in_order.
    destruct (new_vlans _ _ _ _ _); [|done]. cbv zeta.
    destruct (_ && _ && _); [done|].
    destruct (_ && _ && _); [done|].
    match goal with
    | |- context [apply_loop ?v ?ps ?pc] =>
        pose proof (apply_loop_post v
                      (λ r, (pv_mode v = "trunk" →
                             r !! "data_vlan" = None ∧ r !! "voice_vlan" = None)
                            ∧ (pv_mode v = "access" →
                               r !! "native_vlan" = None ∧ r !! "allowed_vlans" = None))
                      (apply_to_record_sheds_other_mode v) ps pc) as Hpost;
        destruct (apply_loop v ps pc) as [pc' finished]
    end.
    simpl in *. destruct finished; [|done]. intros _.
    destruct (Hpost eq_refl p) as (r & Hr & Hshed);
      [left; by apply elem_of_elements|].
    exists r. split; [done|]. exact Hshed.
Qed.

(** In the mixed session port 2 is an access port on VLAN 10.  No record
    mixes the modes, and applying a trunk panel to the selection 1..3
    leaves port 2 without data and voice VLAN. *)
Lemma modes_do_not_mix_mixed_session :
  (∀ p r, port_configs mixed_session !! p = Some r →
          ¬ (has_access_field r ∧ has_trunk_field r))
  ∧ port_configs mixed_session !! 2 = Some (access_record "10")
  ∧ ∃ r, port_configs (_update_vlan_from_port_config (trunk_panel "1" "10,20") mixed_session).1
           !! 2 = Some r
         ∧ r !! "data_vlan" = None ∧ r !! "voice_vlan" = None.
Proof.
  assert (Hreach : reachable mixed_session).
  { unfold mixed_session. repeat first [apply reach_click | apply reach_apply | apply reach_init]. }
  destruct (modes_do_not_mix mixed_session Hreach) as [Hinv Happly].
  split; [exact Hinv|]. split; [by_evaluation|].
  destruct (Happly (trunk_panel "1" "10,20") 2) as (r & Hr & Htrunk & _).
  - by_evaluation.
  - by_evaluation.
  - exists r. split; [exact Hr|]. apply Htrunk. by_evaluation.
Defined.

(** ** Persistence of the global settings *)

(** C9 (the claim fails on the code): the operator adds VLAN 10 with the
    name Users.  When [add_global_vlan] calls [_save_global_configs] the
    dictionary holds that name; the save first rebuilds the [vlans] map from
    the registry, so the document written, and the state read back from it,
    name the VLAN VLAN_10: the reloaded state differs from the one that was
    serialised, in the VLAN name and in nothing else. *)
Theorem saved_global_configs_lose_vlan_names :
  let ui := vlan_panel "10" "Users" in
  let known : gset Z := {[ 10 ]} in
  let saved := _save_global_configs ui known vlan10_named_users in
  let reloaded := (_load_global_configs (Some saved.2) default_global_configs ∅).1 in
  av_before_save <$> add_global_vlan ui default_global_configs ∅ = Some vlan10_named_users
  ∧ av_document <$> add_global_vlan ui default_global_configs ∅ = Some saved.2
  ∧ vlans vlan10_named_users = {[ "10" := "Users" ]}
  ∧ vlans reloaded = {[ "10" := "VLAN_10" ]}
  ∧ reloaded ≠ vlan10_named_users
  ∧ set_vlans (vlans vlan10_named_users) reloaded = vlan10_named_users.
Proof. by_evaluation. Qed.

(** ** The history cursor *)

Lemma slice_to_length {A} (l : list A) (n : Z) :
  0 ≤ n ≤ Z.of_nat (length l) → length (Py.slice_to l n) = Z.to_nat n.
Proof.
  intros Hn. unfold Py.slice_to.
  destruct (0 <=? n) eqn:E; [|lia]. rewrite length_take. lia.
Qed.

Lemma cursor_ok_push t : cursor_ok t → cursor_ok (push_history t).
Proof.
  unfold cursor_ok. intros Hc. simpl.
  rewrite length_app, slice_to_length by lia. simpl. lia.
Qed.

Lemma cursor_ok_history t t' :
  history_of t' = history_of t → cursor_ok t → cursor_ok t'.
Proof. unfold history_of, cursor_ok. intros [= -> ->]. done. Qed.

Lemma apply_history_of panel t :
  history_of (_update_vlan_from_port_config panel t).1 = history_of t
  ∨ history_of (_update_vlan_from_port_config panel t).1 = history_of (push_history t).
Proof.
  unfold _update_vlan_from_port_config.
  destruct (decide (selected_ports t = ∅)); [by left|right].
  unfold apply_panel_in_order.
  destruct (new_vlans _ _ _ _ _); [|done]. cbv zeta.
  destruct (_ && _ && _); [done|]. destruct (_ && _ && _); [done|].
  by destruct (apply_loop _ _ _).
Qed.

Lemma apply_selected_history_of panel t :
  history_of (apply_port_config_to_selected panel t).1 = history_of t
  ∨ history_of (apply_port_config_to_selected panel t).1 = history_of (push_history t).
Proof.
  unfold apply_port_config_to_selected.
  destruct (decide (selected_ports t = ∅)); [by left|right]. cbv zeta.
  destruct (decide (_ = "")); [done|]. by destruct (config_to_apply _ _ _).
Qed.

Lemma direct_update_history_of what key value ports t :
  history_of (du_tool (direct_update_in_order what key value ports t))
  = history_of (push_history t).
Proof.
  unfold direct_update_in_order. cbv zeta.
  by destruct (direct_update_loop _ _ _ _ _) as [[? ?] ?].
Qed.

Lemma native_history_of panel t :
  history_of (du_tool (_direct_update_native_vlan panel t)) = history_of t
  ∨ history_of (du_tool (_direct_update_native_vlan panel t)) = history_of (push_history t).
Proof.
  unfold _direct_update_native_vlan.
  destruct (decide (selected_ports t = ∅)); [by left|].
  destruct (negb _ && negb _); [by left|right]. apply direct_update_history_of.
Qed.

Lemma allowed_history_of panel t :
  history_of (du_tool (_direct_update_allowed_vlans panel t)) = history_of t
  ∨ history_of (du_tool (_direct_update_allowed_vlans panel t)) = history_of (push_history t).
Proof.
  unfold _direct_update_allowed_vlans.
  destruct (decide (selected_ports t = ∅)); [by left|].
  destruct (negb _ && negb _); [by left|right]. apply direct_update_history_of.
Qed.

Lemma template_history_of templates name a b t :
  history_of (_apply_template templates name a b t).1 = history_of t
  ∨ history_of (_apply_template templates name a b t).1 = history_of (push_history t).
Proof.
  unfold _apply_template.
  destruct (templates !! name) as [tpl|]; [|by left].
  destruct (decide (name = "")); [by left|].
  destruct (decide (selected_ports t = ∅)); [by left|right]. cbv zeta.
  destruct (template_check tpl); [done|].
  repeat (case_match; try done).
Qed.

Lemma index_in_range {A} (l : list A) (i : Z) :
  - Z.of_nat (length l) ≤ i < Z.of_nat (length l) → is_Some (Py.index l i).
Proof.
  intros Hi. unfold Py.index. destruct (0 <=? i) eqn:E.
  - apply lookup_lt_is_Some. lia.
  - destruct (0 <=? Z.of_nat (length l) + i) eqn:E'; [|lia].
    apply lookup_lt_is_Some. lia.
Qed.

Lemma cursor_ok_undo t : cursor_ok t → cursor_ok (undo_config t).1.
Proof.
  unfold cursor_ok, undo_config. intros Hc.
  destruct (0 <=? current_step t) eqn:E; [|done]. simpl.
  destruct (Py.index _ _); simpl; lia.
Qed.

Lemma cursor_ok_redo t : cursor_ok t → cursor_ok (redo_config t).1.
Proof.
  unfold cursor_ok, redo_config. intros Hc.
  destruct (current_step t <? _) eqn:E; [|done]. simpl.
  destruct (Py.index _ _); simpl; lia.
Qed.

Lemma reachable_cursor_ok t : reachable t → cursor_ok t.
Proof.
  induction 1 as [|t0 _ _|t c k s _ IH|t _ IH|t panel _ IH|t panel _ IH|t panel _ IH
                  |t panel _ IH|t tpls name a b _ IH|t _ IH|t _ IH|t n _ IH|t _ IH].
  - unfold cursor_ok. simpl. lia.
  - rewrite load_saved_port_configs. unfold cursor_ok. simpl. lia.
  - unfold on_port_click. repeat case_match; done.
  - done.
  - destruct (apply_history_of panel t) as [H|H];
      eauto using cursor_ok_history, cursor_ok_push.
  - destruct (apply_selected_history_of panel t) as [H|H];
      eauto using cursor_ok_history, cursor_ok_push.
  - destruct (native_history_of panel t) as [H|H];
      eauto using cursor_ok_history, cursor_ok_push.
  - destruct (allowed_history_of panel t) as [H|H];
      eauto using cursor_ok_history, cursor_ok_push.
  - destruct (template_history_of tpls name a b t) as [H|H];
      eauto using cursor_ok_history, cursor_ok_push.
  - by apply cursor_ok_undo.
  - by apply cursor_ok_redo.
  - done.
  - done.
Qed.

(** X1: in every state a session can reach the cursor stands at -1 or on an
    entry of the history, and neither Undo nor Redo ends in an
    [IndexError]. *)
Theorem history_cursor_stays_in_range (t : Tool) :
  reachable t →
  -1 ≤ current_step t < Z.of_nat (length (config_history t))
  ∧ (undo_config t).2 ≠ Raised IndexError
  ∧ (redo_config t).2 ≠ Raised IndexError.
Proof.
  intros Hr. pose proof (reachable_cursor_ok t Hr) as Hc. split; [exact Hc|].
  unfold cursor_ok in Hc. split.
  - unfold undo_config. destruct (0 <=? current_step t) eqn:E; [|done]. simpl.
    destruct (index_in_range (config_history t) (current_step t - 1)) as [x ->]; [lia|done].
  - unfold redo_config. destruct (current_step t <? _) eqn:E; [|done]. simpl.
    destruct (index_in_range (config_history t) (current_step t + 1)) as [x ->]; [lia|done].
Qed.

(** The mixed session has two snapshots and its cursor on the second. *)
Lemma history_cursor_in_mixed_session :
  current_step mixed_session = 1
  ∧ length (config_history mixed_session) = 2%nat
  ∧ (undo_config mixed_session).2 ≠ Raised IndexError
  ∧ (redo_config mixed_session).2 ≠ Raised IndexError.
Proof.
  assert (Hreach : reachable mixed_session).
  { unfold mixed_session. repeat first [apply reach_click | apply reach_apply | apply reach_init]. }
  destruct (history_cursor_stays_in_range mixed_session Hreach) as (_ & Hu & Hr).
  split; [by_evaluation|]. split; [by_evaluation|]. split; [exact Hu|exact Hr].
Defined.

(** X2: once the apply handler has taken its snapshot there is nothing left
    to redo: whatever entries lay beyond the cursor are cut off, and Redo
    reports so and changes nothing. *)
Theorem apply_discards_redo_entries (panel : Panel) (t : Tool) :
  selected_ports t ≠ ∅ →
  -1 ≤ current_step t < Z.of_nat (length (config_history t)) →
  redo_config (_update_vlan_from_port_config panel t).1
  = ((_update_vlan_from_port_config panel t).1, Status "Nothing to redo.").
Proof.
  intros Hsel Hc. destruct (apply_pushes_history panel t Hsel) as [Hh Hs].
  unfold redo_config. rewrite Hh, Hs, length_app, slice_to_length by lia. simpl.
  destruct (_ <? _) eqn:E; [apply Z.ltb_lt in E; lia|done].
Qed.

(** Undo once in the mixed session, then apply: the snapshot that Redo
    could have restored is gone. *)
Lemma apply_discards_redo_entries_after_undo :
  let t := (undo_config mixed_session).1 in
  (redo_config t).2 = Status "Redo applied."
  ∧ redo_config (_update_vlan_from_port_config (access_panel "30") t).1
    = ((_update_vlan_from_port_config (access_panel "30") t).1, Status "Nothing to redo.").
Proof.
  intros t. split; [by_evaluation|].
  apply (apply_discards_redo_entries (access_panel "30") t).
  - by_evaluation.
  - split; by_evaluation.
Defined.

(** ** Undo and Redo restore snapshots and nothing else *)

Lemma index_elem_of {A} (l : list A) (i : Z) (x : A) : Py.index l i = Some x → x ∈ l.
Proof.
  unfold Py.index. repeat case_match; try done; apply list_elem_of_lookup_2.
Qed.

Lemma press_spec b t :
  config_history (press b t) = config_history t
  ∧ (port_configs (press b t) = port_configs t
     ∨ port_configs (press b t) ∈ config_history t)
  ∧ selected_ports (press b t) = selected_ports t
  ∧ last_clicked_port (press b t) = last_clicked_port t
  ∧ configured_vlans (press b t) = configured_vlans t.
Proof.
  destruct b; simpl; [unfold undo_config|unfold redo_config].
  - destruct (0 <=? current_step t); [|by auto]. simpl.
    destruct (Py.index _ _) as [snap|] eqn:E; simpl; [|by auto].
    repeat split; try done. right. by eapply index_elem_of.
  - destruct (current_step t <? _); [|by auto]. simpl.
    destruct (Py.index _ _) as [snap|] eqn:E; simpl; [|by auto].
    repeat split; try done. right. by eapply index_elem_of.
Qed.

(** X3: however often Undo and Redo are pressed, the history itself, the
    selection, the anchor and the VLAN registry stay as they were, and the
    store is either still the store the presses started from or one of the
    recorded snapshots: a store that was never snapshotted cannot be brought
    back. *)
Theorem history_buttons_only_restore_snapshots (bs : list HistoryButton) (t : Tool) :
  config_history (press_all bs t) = config_history t
  ∧ (port_configs (press_all bs t) = port_configs t
     ∨ port_configs (press_all bs t) ∈ config_history t)
  ∧ selected_ports (press_all bs t) = selected_ports t
  ∧ last_clicked_port (press_all bs t) = last_clicked_port t
  ∧ configured_vlans (press_all bs t) = configured_vlans t.
Proof.
  revert t. induction bs as [|b bs IH]; intros t; [by auto 10|].
  change (press_all (b :: bs) t) with (press_all bs (press b t)).
  destruct (IH (press b t)) as (H1 & H2 & H3 & H4 & H5).
  destruct (press_spec b t) as (P1 & P2 & P3 & P4 & P5).
  rewrite H1, H3, H4, H5, P1, P3, P4, P5. repeat split; try done.
  destruct H2 as [H2|H2]; rewrite ?H2, ?P1 in *; [done|by right].
Qed.

(** X4: Undo followed by Redo puts the cursor back where it was, but the
    store it leaves is the snapshot under the cursor, that is the store as
    it was before the change the cursor points at, whatever the store was
    before the two presses. *)
Theorem undo_then_redo_restores_snapshot_under_cursor (t : Tool) :
  0 ≤ current_step t < Z.of_nat (length (config_history t)) →
  ∃ snap,
    config_history t !! Z.to_nat (current_step t) = Some snap
    ∧ redo_config (undo_config t).1 = (set_port_configs snap t, Status "Redo applied.").
Proof.
  intros Hc.
  destruct (lookup_lt_is_Some_2 (config_history t) (Z.to_nat (current_step t)))
    as [snap Hsnap]; [lia|].
  exists snap. split; [done|].
  unfold undo_config.
  destruct (0 <=? current_step t) eqn:E; [|lia]. simpl.
  destruct (index_in_range (config_history t) (current_step t - 1)) as [s0 ->]; [lia|].
  unfold redo_config. simpl.
  destruct (current_step t - 1 <? _) eqn:E'; [|lia].
  simpl. replace (current_step t - 1 + 1) with (current_step t) by lia.
  unfold Py.index at 1. rewrite E, Hsnap.
  by destruct t.
Qed.

(** In the mixed session the cursor is on the snapshot taken before port 2
    was configured: Undo then Redo leaves port 1 alone configured. *)
Lemma undo_then_redo_in_mixed_session :
  ∃ snap,
    config_history mixed_session !! Z.to_nat (current_step mixed_session) = Some snap
    ∧ redo_config (undo_config mixed_session).1
      = (set_port_configs snap mixed_session, Status "Redo applied.")
    ∧ snap = {[ 1 := trunk_record "1" "ALL" ]}
    ∧ port_configs mixed_session ≠ snap.
Proof.
  destruct (undo_then_redo_restores_snapshot_under_cursor mixed_session)
    as (snap & Hs & Hr); [split; by_evaluation|].
  exists snap. split; [exact Hs|]. split; [exact Hr|].
  assert (snap = {[ 1 := trunk_record "1" "ALL" ]}) as ->.
  { assert (config_history mixed_session !! Z.to_nat (current_step mixed_session)
            = Some {[ 1 := trunk_record "1" "ALL" ]}) as H by by_evaluation.
    rewrite H in Hs. by injection Hs. }
  split; [reflexivity|by_evaluation].
Defined.

(** X5: [clear_all] takes no snapshot and leaves history and cursor alone,
    in every session: the store, the selection, the anchor and the registry
    are emptied, and an Undo pressed afterwards reports what it would have
    reported and moves the cursor as it would have, restoring, when it
    restores, the very snapshot it would have restored had the session not
    been cleared. *)
Theorem clear_all_keeps_history (t : Tool) :
  history_of (clear_all t) = history_of t
  ∧ port_configs (clear_all t) = ∅
  ∧ selected_ports (clear_all t) = ∅
  ∧ last_clicked_port (clear_all t) = None
  ∧ configured_vlans (clear_all t) = ∅
  ∧ (undo_config (clear_all t)).2 = (undo_config t).2
  ∧ history_of (undo_config (clear_all t)).1 = history_of (undo_config t).1
  ∧ ((undo_config t).2 = Status "Undo applied." →
     port_configs (undo_config (clear_all t)).1 = port_configs (undo_config t).1).
Proof.
  do 5 (split; [done|]).
  unfold undo_config. simpl.
  destruct (0 <=? current_step t); [|done]. simpl.
  by destruct (Py.index (config_history t) (current_step t - 1)).
Qed.

(** One more apply in the mixed session, then clear and Undo: the store is
    the snapshot with port 1 alone, not the empty store. *)
Lemma clear_all_then_undo_in_mixed_session :
  let t := (_update_vlan_from_port_config (access_panel "30") mixed_session).1 in
  history_of (clear_all t) = history_of t
  ∧ port_configs (clear_all t) = ∅
  ∧ (undo_config (clear_all t)).2 = Status "Undo applied."
  ∧ port_configs (undo_config (clear_all t)).1 = {[ 1 := trunk_record "1" "ALL" ]}.
Proof.
  intros t.
  destruct (clear_all_keeps_history t) as (Hh & Hp & _ & _ & _ & Hr & _ & Hu).
  assert (Hundo : (undo_config t).2 = Status "Undo applied.") by by_evaluation.
  split; [exact Hh|]. split; [exact Hp|]. split; [by rewrite Hr|].
  rewrite (Hu Hundo). by_evaluation.
Defined.

(** ** Clicks *)

(** X6: a click without control on a port, when shift is not held or no
    anchor is set, leaves exactly that port selected.  When the port was
    already the whole selection the click changes nothing, the anchor
    included; otherwise the anchor moves to the port.  Store, history and
    registry are never touched. *)
Theorem plain_click_selects_the_port (t : Tool) (p : Z) (shift : bool) :
  p ≠ 0 →
  shift = false ∨ last_clicked_port t = None →
  let t' := on_port_click (Some p) false shift t in
  selected_ports t' = {[ p ]}
  ∧ (selected_ports t = {[ p ]} → t' = t)
  ∧ (selected_ports t ≠ {[ p ]} → last_clicked_port t' = Some p)
  ∧ port_configs t' = port_configs t
  ∧ history_of t' = history_of t
  ∧ configured_vlans t' = configured_vlans t.
Proof.
  intros Hp Hplain t'.
  assert (Ht' : t' = if decide (selected_ports t = {[p]}) then t
                     else set_selection {[p]} (Some p) t).
  { subst t'. unfold on_port_click.
    destruct p; [done|..]; destruct shift, (last_clicked_port t);
      try done; by destruct Hplain. }
  rewrite Ht'. destruct (decide (selected_ports t = {[p]})) as [Heq|Hne].
  - repeat split; done.
  - repeat split; done.
Qed.

(** Port 7 is selected alone with the anchor on 5 (click 7, control-click 5
    twice): a click on 7 leaves the anchor on 5, a click on 9 moves it. *)
Lemma plain_click_selects_the_port_twice :
  let t := on_port_click (Some 5) true false
             (on_port_click (Some 5) true false
                (on_port_click (Some 7) false false init_tool)) in
  selected_ports t = {[ 7 ]}
  ∧ last_clicked_port t = Some 5
  ∧ on_port_click (Some 7) false false t = t
  ∧ last_clicked_port (on_port_click (Some 7) false false t) = Some 5
  ∧ last_clicked_port (on_port_click (Some 9) false false t) = Some 9.
Proof.
  intros t.
  assert (Hsel : selected_ports t = {[ 7 ]}) by by_evaluation.
  assert (Hanchor : last_clicked_port t = Some 5) by by_evaluation.
  destruct (plain_click_selects_the_port t 7 false) as (_ & Hsame & _); [lia|by left|].
  destruct (plain_click_selects_the_port t 9 false) as (_ & _ & Hmove & _); [lia|by left|].
  split; [exact Hsel|]. split; [exact Hanchor|]. split; [exact (Hsame Hsel)|].
  split; [by rewrite (Hsame Hsel)|].
  apply Hmove. rewrite Hsel. by_evaluation.
Defined.

(** X7: a control-click on a port toggles that port in the selection and
    no other, and makes it the anchor, whether or not shift is held as
    well; control-clicking the same port twice gives the selection back. *)
Theorem ctrl_click_toggles_the_port (t : Tool) (p : Z) (shift : bool) :
  p ≠ 0 →
  let t' := on_port_click (Some p) true shift t in
  (p ∈ selected_ports t' ↔ p ∉ selected_ports t)
  ∧ (∀ q, q ≠ p → (q ∈ selected_ports t' ↔ q ∈ selected_ports t))
  ∧ last_clicked_port t' = Some p
  ∧ selected_ports (on_port_click (Some p) true shift t') = selected_ports t.
Proof.
  intros Hp t'.
  assert (Hclick : ∀ u, on_port_click (Some p) true shift u
            = set_selection (if decide (p ∈ selected_ports u) then selected_ports u ∖ {[p]}
                             else selected_ports u ∪ {[p]}) (Some p) u).
  { intros u. unfold on_port_click. by destruct p. }
  subst t'. rewrite !Hclick. simpl.
  destruct (decide (p ∈ selected_ports t)) as [Hin|Hout].
  - rewrite decide_False by set_solver.
    repeat split; try done; try set_solver.
    apply set_eq. intros q. destruct (decide (q = p)); set_solver.
  - rewrite decide_True by set_solver.
    repeat split; try done; try set_solver.
Qed.

(** Control-click 4 in a session where 5 is selected, then again. *)
Lemma ctrl_click_toggles_port_4 :
  let t := session_with_port 5 in
  let t' := on_port_click (Some 4) true true t in
  (4 ∈ selected_ports t' ↔ 4 ∉ selected_ports t)
  ∧ (∀ q, q ≠ 4 → (q ∈ selected_ports t' ↔ q ∈ selected_ports t))
  ∧ last_clicked_port t' = Some 4
  ∧ selected_ports (on_port_click (Some 4) true true t') = selected_ports t.
Proof. apply (ctrl_click_toggles_the_port (session_with_port 5) 4 true). lia. Defined.

(** ** Redrawing the switch *)

(** X8: after [_draw_switch] with port count [n] (taken as 1 when it is not
    positive) the store and the selection hold exactly their former entries
    up to that count, the anchor is dropped in every case, and the history
    is as it was. *)
Theorem draw_switch_prunes_above_count (n : Z) (t : Tool) :
  let bound := if n <=? 0 then 1 else n in
  (∀ p, port_configs (_draw_switch n t) !! p
        = if decide (p ≤ bound) then port_configs t !! p else None)
  ∧ (∀ p, p ∈ selected_ports (_draw_switch n t) ↔ p ∈ selected_ports t ∧ p ≤ bound)
  ∧ last_clicked_port (_draw_switch n t) = None
  ∧ history_of (_draw_switch n t) = history_of t.
Proof.
  intros bound. split; [|split; [|done]].
  - intros p. simpl. fold bound. destruct (decide (p ≤ bound)) as [Hle|Hgt].
    + destruct (port_configs t !! p) as [r|] eqn:Hp.
      * apply map_lookup_filter_Some. split; [done|]. simpl. lia.
      * apply map_lookup_filter_None. left. done.
    + apply map_lookup_filter_None. right. intros r _. simpl. lia.
  - intros p. simpl. fold bound. rewrite elem_of_filter. split.
    + intros [H ?]. split; [done|lia].
    + intros [? H]. split; [lia|done].
Qed.

(** ** What an apply does to the ports *)

Lemma apply_loop_frame v ports : ∀ pc p,
  p ∉ ports → (apply_loop v ports pc).1 !! p = pc !! p.
Proof.
  induction ports as [|q rest IH]; intros pc p Hp; simpl; [done|].
  apply not_elem_of_cons in Hp as [Hne Hp].
  destruct (apply_to_record v (pc !! q)) as [r go_on].
  destruct go_on; simpl.
  - rewrite IH by done. by rewrite lookup_insert_ne.
  - by rewrite lookup_insert_ne.
Qed.

Lemma apply_loop_exact v ports : ∀ pc,
  NoDup ports → (apply_loop v ports pc).2 = true →
  ∀ p, p ∈ ports → (apply_loop v ports pc).1 !! p = Some (apply_to_record v (pc !! p)).1.
Proof.
  induction ports as [|q rest IH]; intros pc Hnd Hfin p Hp; simpl in *.
  { by apply elem_of_nil in Hp. }
  apply NoDup_cons in Hnd as [Hq Hnd].
  destruct (apply_to_record v (pc !! q)) as [r go_on] eqn:Hr.
  destruct go_on; [|done].
  destruct (decide (p = q)) as [->|Hne].
  - rewrite apply_loop_frame by done. by rewrite lookup_insert_eq, Hr.
  - apply elem_of_cons in Hp as [?|Hp]; [done|].
    rewrite IH by done. by rewrite lookup_insert_ne.
Qed.

(** The handler, stage by stage. *)
Lemma apply_panel_in_order_stages ports panel t :
  apply_panel_in_order ports panel t
  = let v := read_panel panel in
    let t1 := push_history t in
    match new_vlans (pv_mode v) (pv_native_vlan v) (pv_allowed_vlans v)
                    (pv_data_vlan v) (pv_voice_vlan v) with
    | None => (t1, Raised ValueError)
    | Some vs =>
        let t2 := set_configured_vlans (track_vlans vs (configured_vlans t)) t1 in
        if native_vlan_rejected v then (t2, Warned InvalidInput)
        else if allowed_vlans_rejected v then (t2, Warned InvalidInput)
        else (set_port_configs (apply_loop v ports (port_configs t)).1 t2,
              if (apply_loop v ports (port_configs t)).2 then Completed
              else Warned InvalidInput)
    end.
Proof.
  unfold apply_panel_in_order, native_vlan_rejected, allowed_vlans_rejected. cbv zeta.
  destruct (new_vlans _ _ _ _ _); [|done].
  destruct (_ && _ && negb (vlan_id_ok _)); [done|].
  destruct (_ && _ && negb (_validate_vlan_range _ _)); [done|].
  change (port_configs (set_configured_vlans _ (push_history t))) with (port_configs t).
  by destruct (apply_loop _ _ _).
Qed.

(** The outcome of the handler, reduced to its loop. *)
Lemma apply_completed panel t :
  (_update_vlan_from_port_config panel t).2 = Completed →
  let v := read_panel panel in
  port_configs (_update_vlan_from_port_config panel t).1
    = (apply_loop v (elements (selected_ports t)) (port_configs t)).1
  ∧ (apply_loop v (elements (selected_ports t)) (port_configs t)).2 = true
  ∧ (pv_mode v = "trunk" →
       (pv_native_vlan v = "" ∨ vlan_id_ok (pv_native_vlan v) = true)
       ∧ (Py.lower (pv_allowed_vlans v) = "all"
          ∨ _validate_vlan_range false (pv_allowed_vlans v) = true)).
Proof.
  unfold _update_vlan_from_port_config.
  destruct (decide (selected_ports t = ∅)); [done|].
  rewrite apply_panel_in_order_stages. cbv zeta.
  destruct (new_vlans _ _ _ _ _); [|done].
  destruct (native_vlan_rejected _) eqn:E1; [done|].
  destruct (allowed_vlans_rejected _) eqn:E2; [done|].
  destruct (apply_loop _ _ _) as [pc' finished]. simpl.
  destruct finished; [|done]. intros _. split; [done|]. split; [done|].
  intros Hm. unfold native_vlan_rejected, allowed_vlans_rejected in E1, E2.
  rewrite bool_decide_eq_true_2 in E1, E2 by done. simpl in E1, E2. split.
  - destruct (decide (pv_native_vlan (read_panel panel) = "")) as [|Hn]; [by left|right].
    rewrite bool_decide_eq_false_2 in E1 by done. simpl in E1.
    by destruct (vlan_id_ok _).
  - destruct (decide (Py.lower (pv_allowed_vlans (read_panel panel)) = "all")) as [|Ha];
      [by left|right].
    rewrite bool_decide_eq_false_2 in E2 by done. simpl in E2.
    by destruct (_validate_vlan_range _ _).
Qed.

(** ** Rejected applies: what the validated entries can hold *)














(** X9: the apply handler never touches a port that is not selected,
    whether it completes, warns or fails. *)
Theorem apply_leaves_unselected_ports (panel : Panel) (t : Tool) (p : Z) :
  p ∉ selected_ports t →
  port_configs (_update_vlan_from_port_config panel t).1 !! p = port_configs t !! p.
Proof.
  intros Hp. unfold _update_vlan_from_port_config.
  destruct (decide (selected_ports t = ∅)); [done|].
  rewrite apply_panel_in_order_stages. cbv zeta.
  destruct (new_vlans _ _ _ _ _); [|done].
  destruct (native_vlan_rejected _); [done|].
  destruct (allowed_vlans_rejected _); [done|]. simpl.
  apply apply_loop_frame. by rewrite elem_of_elements.
Qed.

(** Ports 1 to 3 of the mixed session are selected; a trunk apply leaves
    the unconfigured port 4 and any other port as it was. *)
Lemma apply_leaves_port_4_alone :
  port_configs (_update_vlan_from_port_config (trunk_panel "1" "10,20") mixed_session).1 !! 4
  = port_configs mixed_session !! 4.
Proof.
  apply (apply_leaves_unselected_ports (trunk_panel "1" "10,20") mixed_session 4).
  by_evaluation.
Defined.

(** X10: when the apply handler completes in trunk mode, every selected
    port has a record in mode trunk whose allowed list is the panel's list
    (ALL when the entry is blank), which is either "all" in any letter case
    or accepted by [_validate_vlan_range]; its native VLAN is absent when
    the entry is blank and otherwise the entry, an integer from 1 to 4094. *)
Theorem completed_trunk_apply (panel : Panel) (t : Tool) (p : Z) :
  (_update_vlan_from_port_config panel t).2 = Completed →
  Py.lower (port_mode_var panel) = "trunk" →
  p ∈ selected_ports t →
  let v := read_panel panel in
  ∃ r, port_configs (_update_vlan_from_port_config panel t).1 !! p = Some r
       ∧ r !! "mode" = Some (VStr "trunk")
       ∧ r !! "allowed_vlans" = Some (VStr (pv_allowed_vlans v))
       ∧ (Py.lower (pv_allowed_vlans v) = "all"
          ∨ _validate_vlan_range false (pv_allowed_vlans v) = true)
       ∧ r !! "native_vlan"
         = (if decide (pv_native_vlan v = "") then None else Some (VStr (pv_native_vlan v)))
       ∧ (pv_native_vlan v = "" ∨ vlan_id_ok (pv_native_vlan v) = true).
Proof.
  intros Hc Hm Hp v. destruct (apply_completed panel t Hc) as (Hpc & Hfin & Hval).
  fold v in Hpc, Hfin, Hval. destruct (Hval Hm) as [Hnat Hall].
  exists (apply_to_record v (port_configs t !! p)).1. split.
  { rewrite Hpc. apply apply_loop_exact; [apply NoDup_elements|done|].
    by apply elem_of_elements. }
  assert (Hmode : pv_mode v = "trunk") by exact Hm.
  unfold apply_to_record.
  destruct (decide (pv_mode v = "access")) as [Hacc|_]; [by rewrite Hmode in Hacc|].
  destruct (decide (pv_mode v = "trunk")); [cbn [fst]|done].
  split; [|split; [by peel_lookup|split; [done|split; [|done]]]].
  - destruct (decide (pv_native_vlan v = "")); peel_lookup;
      by rewrite write_common_mode, Hmode.
  - by destruct (decide (pv_native_vlan v = "")); peel_lookup.
Qed.

(** The trunk apply on the mixed session: port 2, an access port before,
    ends as a trunk with native VLAN 1 and the list 10,20. *)
Lemma completed_trunk_apply_on_port_2 :
  ∃ r, port_configs (_update_vlan_from_port_config (trunk_panel "1" "10,20") mixed_session).1
         !! 2 = Some r
       ∧ r !! "mode" = Some (VStr "trunk")
       ∧ r !! "allowed_vlans" = Some (VStr "10,20")
       ∧ r !! "native_vlan" = Some (VStr "1").
Proof.
  destruct (completed_trunk_apply (trunk_panel "1" "10,20") mixed_session 2)
    as (r & Hr & Hm & Ha & _ & Hn & _); [by_evaluation..|].
  exists r. split; [exact Hr|]. split; [exact Hm|]. split; [exact Ha|exact Hn].
Defined.

(** X11: when the apply handler completes in access mode, every selected
    port has a record in mode access.  A data VLAN entry that is filled in
    (an integer from 1 to 4094) becomes the port's data VLAN, a blank one
    leaves the port's previous data VLAN in place; a voice VLAN entry that
    is filled in becomes the voice VLAN, a blank one removes it.  Nothing
    asks the voice VLAN to differ from the data VLAN. *)
Theorem completed_access_apply (panel : Panel) (t : Tool) (p : Z) :
  (_update_vlan_from_port_config panel t).2 = Completed →
  Py.lower (port_mode_var panel) = "access" →
  p ∈ selected_ports t →
  let v := read_panel panel in
  ∃ r, port_configs (_update_vlan_from_port_config panel t).1 !! p = Some r
       ∧ r !! "mode" = Some (VStr "access")
       ∧ r !! "data_vlan"
         = (if decide (pv_data_vlan v = "") then port_configs t !! p ≫= (.!! "data_vlan")
            else Some (VStr (pv_data_vlan v)))
       ∧ (pv_data_vlan v = "" ∨ vlan_id_ok (pv_data_vlan v) = true)
       ∧ r !! "voice_vlan"
         = (if decide (pv_voice_vlan v = "") then None else Some (VStr (pv_voice_vlan v)))
       ∧ (pv_voice_vlan v = "" ∨ vlan_id_ok (pv_voice_vlan v) = true).
Proof.
  intros Hc Hm Hp v. destruct (apply_completed panel t Hc) as (Hpc & Hfin & _).
  fold v in Hpc, Hfin.
  assert (Hin : p ∈ elements (selected_ports t)) by by apply elem_of_elements.
  pose proof (apply_loop_exact v _ (port_configs t) (NoDup_elements _) Hfin p Hin) as Hex.
  assert (Hgo : (apply_to_record v (port_configs t !! p)).2 = true).
  { clear Hex Hpc. revert Hfin Hin. generalize (port_configs t) as pc.
    induction (elements (selected_ports t)) as [|q rest IH]; intros pc Hfin Hin; simpl in *.
    { by apply elem_of_nil in Hin. }
    destruct (apply_to_record v (pc !! q)) as [r go_on] eqn:Hr.
    destruct go_on; [|done].
    destruct (decide (p = q)) as [->|Hne]; [by rewrite Hr|].
    apply elem_of_cons in Hin as [?|Hin]; [done|].
    specialize (IH _ Hfin Hin). by rewrite lookup_insert_ne in IH. }
  exists (apply_to_record v (port_configs t !! p)).1.
  split; [by rewrite Hpc|]. clear Hex Hpc Hfin.
  assert (Hmode : pv_mode v = "access") by exact Hm.
  revert Hgo. unfold apply_to_record.
  destruct (decide (pv_mode v = "access")); [|done].
  destruct (decide (pv_data_vlan v = "")) as [Hd|Hd].
  - rewrite bool_decide_eq_true_2 by done. cbn [fst snd negb andb].
    destruct (decide (pv_voice_vlan v = "")) as [Hv|Hv]; cbn [fst snd negb andb].
    + intros _. repeat split; peel_lookup; try done; try by left.
      * by rewrite write_common_mode, Hmode.
      * by rewrite write_common_lookup.
    + destruct (vlan_id_ok (pv_voice_vlan v)) eqn:Hok; cbn [fst snd negb andb]; [|done].
      intros _. repeat split; peel_lookup; try done; try (by left); try (by right).
      * by rewrite write_common_mode, Hmode.
      * by rewrite write_common_lookup.
  - rewrite bool_decide_eq_false_2 by done. cbn [fst snd negb andb].
    destruct (vlan_id_ok (pv_data_vlan v)) eqn:Hdok; cbn [fst snd negb andb]; [|done].
    destruct (decide (pv_voice_vlan v = "")) as [Hv|Hv]; cbn [fst snd negb andb].
    + intros _. repeat split; peel_lookup; try done; try (by left); try (by right).
      by rewrite write_common_mode, Hmode.
    + destruct (vlan_id_ok (pv_voice_vlan v)) eqn:Hok; cbn [fst snd negb andb]; [|done].
      intros _. repeat split; peel_lookup; try done; try (by left); try (by right).
      by rewrite write_common_mode, Hmode.
Qed.

(** Port 1 is on data VLAN 10; an apply with a blank data entry and voice
    VLAN 10 completes, keeps the data VLAN and sets the same VLAN for
    voice. *)
Lemma completed_access_apply_blank_data :
  ∃ r, port_configs (_update_vlan_from_port_config (access_voice_panel "" "10")
                       access_session).1 !! 1 = Some r
       ∧ r !! "data_vlan" = Some (VStr "10")
       ∧ r !! "voice_vlan" = Some (VStr "10").
Proof.
  destruct (completed_access_apply (access_voice_panel "" "10") access_session 1)
    as (r & Hr & _ & Hd & _ & Hv & _); [by_evaluation..|].
  exists r. split; [exact Hr|]. split.
  - rewrite Hd. by_evaluation.
  - exact Hv.
Defined.

Lemma tracked_vlans_of_pieces_elem pieces : ∀ l piece,
  tracked_vlans_of_pieces pieces = Some l → piece ∈ pieces →
  Py.contains "-" piece = false → Py.strip piece ∈ l.
Proof.
  induction pieces as [|q rest IH]; intros l piece Hl Hin Hc.
  { by apply elem_of_nil in Hin. }
  simpl in Hl.
  destruct (tracked_vlans_of_piece q) as [lq|] eqn:Hq; [|done].
  destruct (tracked_vlans_of_pieces rest) as [lr|]; [|done].
  injection Hl as <-. apply elem_of_app.
  apply elem_of_cons in Hin as [->|Hin].
  - left. unfold tracked_vlans_of_piece in Hq. rewrite Hc in Hq.
    injection Hq as <-. by apply list_elem_of_singleton.
  - right. by apply IH.
Qed.

(** X12: the apply handler never removes a VLAN from the registry, and it
    enters the VLAN ids of the panel before it checks any of them.  Unless
    the tracking itself fails with a [ValueError], the registry after the
    handler holds the native VLAN entry when it reads as an integer and, in
    trunk mode with a list other than "all", every piece of the allowed
    list without a hyphen that reads as an integer, in range or not and
    whether or not the apply is then rejected. *)
Theorem apply_registers_vlans_before_checking (panel : Panel) (t : Tool) :
  let v := read_panel panel in
  let r := _update_vlan_from_port_config panel t in
  configured_vlans t ⊆ configured_vlans r.1
  ∧ (selected_ports t ≠ ∅ → r.2 ≠ Raised ValueError →
     (∀ z, Py.int (pv_native_vlan v) = Some z → z ∈ configured_vlans r.1)
     ∧ (pv_mode v = "trunk" → Py.lower (pv_allowed_vlans v) ≠ "all" →
        ∀ piece z, piece ∈ Py.split "," (pv_allowed_vlans v) →
                   Py.contains "-" piece = false →
                   Py.int (Py.strip piece) = Some z → z ∈ configured_vlans r.1)).
Proof.
  intros v r. subst r. unfold _update_vlan_from_port_config.
  destruct (decide (selected_ports t = ∅)); [done|].
  rewrite apply_panel_in_order_stages. cbv zeta. fold v.
  destruct (new_vlans _ _ _ _ _) as [vs|] eqn:Hvs; [|done].
  assert (Hreg : ∀ t', configured_vlans t' = track_vlans vs (configured_vlans t) →
            configured_vlans t ⊆ configured_vlans t'
            ∧ ∀ s z, s ∈ vs → Py.int s = Some z → z ∈ configured_vlans t').
  { intros t' ->. unfold track_vlans. split; [set_solver|].
    intros s z Hs Hz. apply elem_of_union. right.
    apply elem_of_list_to_set, list_elem_of_omap. by exists s. }
  assert (Hnative : ∀ z, Py.int (pv_native_vlan v) = Some z → pv_native_vlan v ∈ vs).
  { intros z Hz. revert Hvs. unfold new_vlans.
    destruct (decide (pv_native_vlan v = "")) as [He|_].
    { rewrite He in Hz. done. }
    repeat case_match; intros [= <-]; set_solver. }
  assert (Hpieces : pv_mode v = "trunk" → Py.lower (pv_allowed_vlans v) ≠ "all" →
            ∀ piece, piece ∈ Py.split "," (pv_allowed_vlans v) →
                     Py.contains "-" piece = false → Py.strip piece ∈ vs).
  { intros Hm Hall piece Hin Hc. revert Hvs. unfold new_vlans.
    destruct (decide (pv_mode v = "access")) as [Ha|_]; [by rewrite Hm in Ha|].
    destruct (decide (pv_mode v = "trunk")); [|done].
    destruct (decide (Py.lower (pv_allowed_vlans v) = "all")); [done|].
    destruct (tracked_vlans_of_pieces _) as [l|] eqn:Hl; [|done].
    intros [= <-]. apply elem_of_app. right.
    by apply (tracked_vlans_of_pieces_elem _ _ _ Hl). }
  assert (Hall : ∀ (res : Tool * Report),
    configured_vlans res.1 = track_vlans vs (configured_vlans t) →
    configured_vlans t ⊆ configured_vlans res.1
    ∧ (selected_ports t ≠ ∅ → res.2 ≠ Raised ValueError →
       (∀ z, Py.int (pv_native_vlan v) = Some z → z ∈ configured_vlans res.1)
       ∧ (pv_mode v = "trunk" → Py.lower (pv_allowed_vlans v) ≠ "all" →
          ∀ piece z, piece ∈ Py.split "," (pv_allowed_vlans v) →
                     Py.contains "-" piece = false →
                     Py.int (Py.strip piece) = Some z → z ∈ configured_vlans res.1))).
  { intros res Hres. destruct (Hreg res.1 Hres) as [Hsub Hmem]. split; [done|].
    intros _ _. split.
    - intros z Hz. apply (Hmem (pv_native_vlan v)); [by eapply Hnative|done].
    - intros Hm Hnot piece z Hin Hc Hz.
      apply (Hmem (Py.strip piece)); [by apply Hpieces|done]. }
  destruct (native_vlan_rejected _); [by apply Hall|].
  destruct (allowed_vlans_rejected _); by apply Hall.
Qed.

(** A trunk apply with the allowed list 10,5000 is rejected, and VLAN 5000
    is in the registry afterwards. *)
Lemma apply_registers_vlan_5000 :
  let r := _update_vlan_from_port_config (trunk_panel "" "10,5000") (session_with_port 1) in
  r.2 = Warned InvalidInput
  ∧ port_configs r.1 = ∅
  ∧ 5000 ∈ configured_vlans r.1.
Proof.
  intros r. split; [by_evaluation|]. split; [by_evaluation|].
  destruct (apply_registers_vlans_before_checking (trunk_panel "" "10,5000")
              (session_with_port 1)) as [_ H].
  destruct H as [_ H]; [by_evaluation|by_evaluation|].
  apply (H ltac:(by_evaluation) ltac:(by_evaluation) "5000"); by_evaluation.
Defined.

(** ** The whole-record apply and the templates are all-or-nothing *)

Lemma write_record_lookup r ports : ∀ pc p,
  write_record r ports pc !! p = if decide (p ∈ ports) then Some r else pc !! p.
Proof.
  unfold write_record. induction ports as [|q rest IH]; intros pc p.
  - destruct (decide (p ∈ [])) as [Hin|_]; [by apply elem_of_nil in Hin|done].
  - cbn [foldl]. rewrite IH.
    destruct (decide (p ∈ rest)) as [Hin|Hout], (decide (p ∈ q :: rest)) as [Hin'|Hout'];
      try done.
    + destruct Hout'. by right.
    + apply elem_of_cons in Hin' as [->|?]; [|done]. by rewrite lookup_insert_eq.
    + rewrite lookup_insert_ne; [done|]. intros ->. apply Hout'. by left.
Qed.

Lemma write_record_selected r (sel : gset Z) pc p :
  write_record r (elements sel) pc !! p = if decide (p ∈ sel) then Some r else pc !! p.
Proof.
  rewrite write_record_lookup.
  destruct (decide (p ∈ sel)) as [Hin|Hout], (decide (p ∈ elements sel)) as [Hin'|Hout'];
    try done.
  - destruct Hout'. by apply elem_of_elements.
  - destruct Hout. by apply elem_of_elements.
Qed.

(** X13: [apply_port_config_to_selected] checks everything before it
    writes: unless it completes, the store is exactly as it was. *)
Theorem whole_record_apply_rejected_writes_nothing (panel : Panel) (t : Tool) :
  (apply_port_config_to_selected panel t).2 ≠ Completed →
  port_configs (apply_port_config_to_selected panel t).1 = port_configs t.
Proof.
  unfold apply_port_config_to_selected.
  destruct (decide (selected_ports t = ∅)); [done|]. cbv zeta.
  destruct (decide (pv_mode (read_panel panel) = "")); [done|].
  by destruct (config_to_apply _ _ _).
Qed.

(** Data VLAN 5000 on ports 1 to 3 of the mixed session: the panel is
    rejected and no record has changed. *)
Lemma whole_record_apply_rejects_vlan_5000 :
  (apply_port_config_to_selected (access_panel "5000") mixed_session).2 = Warned InvalidInput
  ∧ port_configs (apply_port_config_to_selected (access_panel "5000") mixed_session).1
    = port_configs mixed_session.
Proof.
  split; [by_evaluation|].
  apply (whole_record_apply_rejected_writes_nothing (access_panel "5000") mixed_session).
  by_evaluation.
Defined.

(** X14: when [apply_port_config_to_selected] completes in access mode,
    all selected ports hold one and the same record and no other port has
    changed; the record's data VLAN is the canonical decimal text of an
    integer from 1 to 4094 read from the entry, and its voice VLAN is
    absent (blank entry) or the text of an integer from 1 to 4094 that is
    not the data VLAN. *)
Theorem whole_record_apply_access (panel : Panel) (t : Tool) :
  (apply_port_config_to_selected panel t).2 = Completed →
  Py.lower (port_mode_var panel) = "access" →
  ∃ c d,
    (∀ p, port_configs (apply_port_config_to_selected panel t).1 !! p
          = if decide (p ∈ selected_ports t) then Some c else port_configs t !! p)
    ∧ Py.int (Py.strip (port_data_vlan_entry panel)) = Some d
    ∧ 1 ≤ d ≤ 4094
    ∧ c !! "data_vlan" = Some (VStr (Py.str_int d))
    ∧ (c !! "voice_vlan" = None
       ∨ ∃ w, 1 ≤ w ≤ 4094 ∧ w ≠ d ∧ c !! "voice_vlan" = Some (VStr (Py.str_int w))).
Proof.
  unfold apply_port_config_to_selected.
  destruct (decide (selected_ports t = ∅)); [done|]. cbv zeta.
  destruct (decide (pv_mode (read_panel panel) = "")); [done|].
  destruct (config_to_apply _ _ _) as [c|] eqn:Hc; [|done].
  intros _ Hm. exists c.
  revert Hc. unfold config_to_apply.
  destruct (decide (pv_mode (read_panel panel) = "access")) as [_|Hne]; [|by destruct Hne].
  destruct (decide (pv_data_vlan (read_panel panel) = "")); [done|].
  destruct (Py.int (pv_data_vlan (read_panel panel))) as [d|] eqn:Hd; [|done].
  destruct ((1 <=? d) && (d <=? 4094)) eqn:Hrange; [|done]. cbn [negb].
  assert (1 ≤ d ≤ 4094) as Hdr by lia.
  destruct (decide (pv_voice_vlan (read_panel panel) = "")).
  - intros [= <-]. exists d. split; [intros p; apply write_record_selected|].
    split; [done|]. split; [done|]. split; [by peel_lookup|]. left. by peel_lookup.
  - destruct (Py.int (pv_voice_vlan (read_panel panel))) as [w|] eqn:Hw; [|done].
    destruct ((1 <=? w) && (w <=? 4094)) eqn:Hwr; [|done]. cbn [negb].
    destruct (decide (w = d)); [done|].
    intros [= <-]. exists d. split; [intros p; apply write_record_selected|].
    split; [done|]. split; [done|]. split; [by peel_lookup|].
    right. exists w. split; [lia|]. split; [done|]. by peel_lookup.
Qed.

(** The entry 010 is stored as 10 on ports 1 to 3 of the mixed session. *)
Lemma whole_record_apply_normalises_010 :
  ∃ c, port_configs (apply_port_config_to_selected (access_panel "010") mixed_session).1 !! 2
       = Some c
       ∧ c !! "data_vlan" = Some (VStr "10")
       ∧ port_configs (apply_port_config_to_selected (access_panel "010") mixed_session).1 !! 4
         = None.
Proof.
  destruct (whole_record_apply_access (access_panel "010") mixed_session)
    as (c & d & Hall & Hd & _ & Hdata & _); [by_evaluation..|].
  assert (d = 10) as -> by (assert (Py.int (Py.strip "010") = Some 10) as H by by_evaluation;
                            change (port_data_vlan_entry (access_panel "010")) with "010" in Hd;
                            congruence).
  exists c. split; [|split; [exact Hdata|]].
  - rewrite Hall. rewrite decide_True; [done|by_evaluation].
  - rewrite Hall. rewrite decide_False; by_evaluation.
Defined.

(** X15: [_apply_template] writes all selected ports or none.  Either the
    store is exactly as it was, or the template passed its check and every
    selected port holds the template's record, every other port its former
    entry; and the store is as it was whenever the handler does not
    complete. *)
Theorem apply_template_all_or_nothing (templates : gmap string Template) (name : string)
    (create_data create_voice : bool) (t : Tool) :
  let res := _apply_template templates name create_data create_voice t in
  (port_configs res.1 = port_configs t
   ∨ ∃ tpl r, templates !! name = Some tpl
              ∧ template_check tpl = None
              ∧ template_record tpl = Some r
              ∧ res.2 = Completed
              ∧ ∀ p, port_configs res.1 !! p
                     = if decide (p ∈ selected_ports t) then Some r else port_configs t !! p)
  ∧ (res.2 ≠ Completed → port_configs res.1 = port_configs t).
Proof.
  cbv zeta. unfold _apply_template.
  destruct (templates !! name) as [tpl|] eqn:Htpl; [|by split; [left|]].
  destruct (decide (name = "")); [by split; [left|]|].
  destruct (decide (selected_ports t = ∅)); [by split; [left|]|].
  destruct (template_check tpl) eqn:Hcheck; [by split; [left|]|].
  assert (Hfin : ∀ t', port_configs t' = port_configs t →
            let res := match template_record tpl with
                       | None => (t', Raised UnboundLocalError)
                       | Some r =>
                           (set_port_configs
                              (write_record r (elements (selected_ports t)) (port_configs t'))
                              t', Completed)
                       end in
            (port_configs res.1 = port_configs t
             ∨ ∃ tpl0 r, Some tpl = Some tpl0
                  ∧ template_check tpl0 = None
                  ∧ template_record tpl0 = Some r
                  ∧ res.2 = Completed
                  ∧ ∀ p, port_configs res.1 !! p
                         = if decide (p ∈ selected_ports t) then Some r
                           else port_configs t !! p)
            ∧ (res.2 ≠ Completed → port_configs res.1 = port_configs t)).
  { intros t' Ht'. cbv zeta. destruct (template_record tpl) as [r|] eqn:Hr.
    - split; [|done]. right. exists tpl, r. repeat split; try done.
      intros p. simpl. rewrite Ht'. apply write_record_selected.
    - split; [by left|done]. }
  repeat case_match; try (by split; [left|]); by apply Hfin.
Qed.

(** ** The files *)

(** X16: saving the port store and loading the document gives the same
    store back, for every store: each port number comes back from its
    decimal text, negative or not, and each record comes back as it is,
    whether its values are strings, booleans or numbers. *)
Theorem port_file_round_trip (pc : PortConfigs) (t : Tool) :
  _load_port_configs (Some (_save_port_configs pc)) t = set_port_configs pc t.
Proof. apply load_saved_port_configs. Qed.

Lemma load_members_bad_key members k r : ∀ acc,
  (k, r) ∈ members → Py.int k = None → load_members members acc = None.
Proof.
  induction members as [|[k' r'] rest IH]; intros acc Hin Hk; simpl.
  { by apply elem_of_nil in Hin. }
  apply elem_of_cons in Hin as [[= <- <-]|Hin]; [by rewrite Hk|].
  destruct (Py.int k'); [by apply IH|done].
Qed.

(** X17: a port file in which some key is not an integer literal is
    dropped as a whole: the session is left as it was, and none of the
    file's other ports is taken in. *)
Theorem port_file_with_bad_key_is_ignored (members : list (string * PortConfig))
    (k : string) (r : PortConfig) (t : Tool) :
  (k, r) ∈ members → Py.int k = None →
  _load_port_configs (Some members) t = t.
Proof.
  intros Hin Hk. unfold _load_port_configs.
  by rewrite (load_members_bad_key members k r ∅ Hin Hk).
Qed.

(** A file with the keys 1 and uplink: port 1 is not loaded either. *)
Lemma port_file_with_key_uplink_is_ignored :
  _load_port_configs (Some file_with_bad_key) init_tool = init_tool.
Proof.
  apply (port_file_with_bad_key_is_ignored file_with_bad_key
           "uplink" (trunk_record "1" "ALL") init_tool).
  - unfold file_with_bad_key. repeat constructor.
  - by_evaluation.
Defined.

(** ** The global document and the VLAN registry *)

Lemma vlans_from_registry_lookup (known : gset Z) (k v : string) :
  vlans_from_registry known !! k = Some v
  ↔ ∃ n, n ∈ known ∧ k = Py.str_int n ∧ v = "VLAN_" +:+ Py.str_int n.
Proof.
  unfold vlans_from_registry. rewrite <- elem_of_list_to_map.
  - rewrite list_elem_of_fmap. split.
    + intros (n & [= -> ->] & Hn). exists n. by rewrite <- elem_of_elements.
    + intros (n & Hn & -> & ->). exists n. by rewrite elem_of_elements.
  - rewrite <- list_fmap_compose.
    apply NoDup_fmap_2_strong; [|apply NoDup_elements].
    intros a b _ _ H. simpl in H. by apply str_int_inj.
Qed.

(** X18: the [vlans] object that [_save_global_configs] writes lists
    exactly the registry: VLAN [n] is in it, under the key [str(n)] and
    with the name VLAN_n, exactly when [n] is registered; and loading the
    document registers those ids again, so a fresh session ends with the
    registry that was saved. *)
Theorem global_document_lists_registry (ui : GlobalPanel) (known : gset Z)
    (g : GlobalConfigs) :
  let doc := (_save_global_configs ui known g).2 in
  (∀ n, vlans doc !! Py.str_int n
        = if decide (n ∈ known) then Some ("VLAN_" +:+ Py.str_int n) else None)
  ∧ loaded_vlan_ids doc = known
  ∧ (_load_global_configs (Some doc) default_global_configs ∅).2 = known.
Proof.
  cbv zeta. simpl.
  assert (Hlook : ∀ n, vlans_from_registry known !! Py.str_int n
                       = if decide (n ∈ known) then Some ("VLAN_" +:+ Py.str_int n) else None).
  { intros n. destruct (decide (n ∈ known)) as [Hin|Hout].
    - apply vlans_from_registry_lookup. by exists n.
    - destruct (vlans_from_registry known !! Py.str_int n) as [v|] eqn:E; [|done].
      apply vlans_from_registry_lookup in E as (m & Hm & Heq & _).
      apply str_int_inj in Heq as ->. done. }
  assert (Hids : loaded_vlan_ids (_update_global_configs_from_ui ui known g) = known).
  { unfold loaded_vlan_ids. simpl. apply set_eq. intros x.
    rewrite elem_of_list_to_set, list_elem_of_omap. split.
    - intros ([k v] & Hkv & Hint). apply elem_of_map_to_list in Hkv.
      apply vlans_from_registry_lookup in Hkv as (n & Hn & -> & _).
      simpl in Hint. rewrite int_str_int in Hint. by injection Hint as <-.
    - intros Hx. exists (Py.str_int x, "VLAN_" +:+ Py.str_int x). split.
      + apply elem_of_map_to_list, vlans_from_registry_lookup. by exists x.
      + simpl. apply int_str_int. }
  split; [exact Hlook|]. split; [exact Hids|].
  rewrite Hids. by rewrite (left_id_L ∅ (∪)).
Qed.

(** X19: when [add_global_vlan] accepts its input, the id entry reads as
    an integer from 1 to 4094 that was not registered, and it is registered
    now; and whatever name was typed, after the handler the dictionary and
    the document call the VLAN VLAN_n. *)
Theorem add_global_vlan_accepted (ui : GlobalPanel) (g : GlobalConfigs) (known : gset Z)
    (r : AddedVlan) :
  add_global_vlan ui g known = Some r →
  ∃ n, Py.int (Py.strip (global_vlan_id_entry ui)) = Some n
       ∧ (1 ≤ n ≤ 4094)
       ∧ n ∉ known
       ∧ av_configured_vlans r = {[ n ]} ∪ known
       ∧ vlans (av_after_save r) !! Py.str_int n = Some ("VLAN_" +:+ Py.str_int n)
       ∧ av_document r = av_after_save r.
Proof.
  unfold add_global_vlan.
  destruct (decide (Py.strip (global_vlan_id_entry ui) = "")) as [|_]; [done|].
  destruct (Py.int (Py.strip (global_vlan_id_entry ui))) as [n|] eqn:Hn; [|done].
  destruct ((1 <=? n) && (n <=? 4094)) eqn:Hr; [|done]. cbn [negb].
  destruct (decide (n ∈ known)) as [|Hnew]; [done|].
  destruct (Py.contains " " _); [done|].
  intros [= <-]. exists n. simpl.
  split; [done|]. split; [lia|]. split; [done|]. split; [done|]. split; [|done].
  apply vlans_from_registry_lookup. exists n. split; [set_solver|done].
Qed.

(** VLAN 10 added with the name Users is called VLAN_10 afterwards. *)
Lemma add_global_vlan_10_named_users :
  ∃ r, add_global_vlan (vlan_panel "10" "Users") default_global_configs ∅ = Some r
       ∧ av_configured_vlans r = {[ 10 ]}
       ∧ vlans (av_after_save r) !! "10" = Some "VLAN_10".
Proof.
  destruct (add_global_vlan (vlan_panel "10" "Users") default_global_configs ∅)
    as [r|] eqn:Hr; [|by vm_compute in Hr].
  destruct (add_global_vlan_accepted _ _ _ r Hr) as (n & Hn & _ & _ & Hreg & Hname & _).
  assert (n = 10) as ->.
  { assert (Py.int (Py.strip (global_vlan_id_entry (vlan_panel "10" "Users"))) = Some 10)
      as H by by_evaluation. congruence. }
  exists r. split; [done|]. split.
  - rewrite Hreg. by rewrite (right_id_L ∅ (∪)).
  - exact Hname.
Defined.

(** ** The single-VLAN check of the templates *)

Lemma upper_char_digit c : Py.isdigit_char c = true → Py.upper_char c = c.
Proof. destruct c as [[] [] [] [] [] [] [] []]; vm_compute; intros H; try done. Qed.

Lemma all_digits_upper s : Py.all_digits s = true → Py.upper s = s.
Proof.
  induction s as [|c r IH]; [done|]. simpl.
  intros [Hc Hr]%andb_prop. unfold Py.upper in *. simpl.
  by rewrite upper_char_digit, IH.
Qed.

Lemma uint_of_digits s : Py.all_digits s = true → is_Some (NilEmpty.uint_of_string s).
Proof.
  induction s as [|c r IH]; simpl; [by eexists|].
  intros [Hc Hr]%andb_prop. destruct (IH Hr) as [u ->].
  destruct c as [[] [] [] [] [] [] [] []]; try done; by eexists.
Qed.

Lemma int_of_isdigit s : Py.isdigit s = true → is_Some (Py.int s).
Proof.
  destruct s as [|c r]; [done|]. intros H. simpl in H.
  rewrite int_of_digits by done.
  destruct (uint_of_digits (String c r) H) as [u ->]. by eexists.
Qed.

(** X20: [_validate_single_vlan] turns a value down only when it consists
    of decimal digits and the number they spell lies outside 1..4094; the
    empty string, ALL, and any text that is not all digits are let
    through. *)
Theorem validate_single_vlan_rejects_only_numbers_out_of_range (value : string) :
  _validate_single_vlan value = false
  ↔ Py.isdigit value = true ∧ ∃ n, Py.int value = Some n ∧ ¬ (1 ≤ n ≤ 4094).
Proof.
  unfold _validate_single_vlan.
  destruct (decide (value = "")) as [->|Hne].
  { split; [done|]. by intros [H _]. }
  destruct (decide (Py.upper value = "ALL")) as [Hall|_].
  { split; [done|]. intros [Hd _]. exfalso.
    destruct value as [|c r]; [done|].
    change (Py.all_digits (String c r) = true) in Hd.
    rewrite all_digits_upper in Hall by done. by rewrite Hall in Hd. }
  destruct (Py.isdigit value) eqn:Hd; [|split; [done|by intros [? _]]].
  destruct (int_of_isdigit value Hd) as [n Hn]. rewrite Hn. split.
  - intros Hr. split; [done|]. exists n. split; [done|]. lia.
  - intros [_ (m & [= <-] & Hm)]. lia.
Qed.

(** ** The interface line *)

Lemma contains_append c a b :
  Py.contains c (a +:+ b) = Py.contains c a || Py.contains c b.
Proof.
  induction a as [|d r IH]; [done|].
  rewrite append_cons. simpl. by rewrite IH, orb_assoc.
Qed.

(** X21: with an interface prefix that has no hyphen in it, the block of a
    specifier opens with "interface" when the specifier stands for a single
    port and with "interface range" when it stands for a run of ports; a
    prefix with a hyphen makes every block open with "interface range". *)
Theorem interface_verb_follows_the_run (prefix : string) (a b : Z) :
  0 ≤ a → 0 ≤ b →
  command_prefix (range_specifier prefix a b)
  = if Py.contains "-" prefix then "interface range"
    else if decide (a = b) then "interface" else "interface range".
Proof.
  intros Ha Hb. unfold command_prefix, range_specifier.
  assert (Hdash : Py.isdigit_char "-" = false) by done.
  pose proof (all_digits_contains _ _ Hdash (str_int_digits a Ha)) as Hca.
  pose proof (all_digits_contains _ _ Hdash (str_int_digits b Hb)) as Hcb.
  destruct (decide (a = b)) as [->|Hne].
  - rewrite contains_append, Hcb, orb_false_r. done.
  - rewrite !contains_append, Hca.
    change (Py.contains "-" "-") with true.
    by destruct (Py.contains "-" prefix).
Qed.

(** Port 5 alone and the run 7 to 8 under the prefix Gi0/0/; port 5 alone
    under a prefix with a hyphen. *)
Lemma interface_verb_for_5_and_7_8 :
  command_prefix (range_specifier "Gi0/0/" 5 5) = "interface"
  ∧ command_prefix (range_specifier "Gi0/0/" 7 8) = "interface range"
  ∧ command_prefix (range_specifier "Port-channel" 5 5) = "interface range".
Proof.
  split; [|split].
  - rewrite (interface_verb_follows_the_run "Gi0/0/" 5 5) by lia. by_evaluation.
  - rewrite (interface_verb_follows_the_run "Gi0/0/" 7 8) by lia. by_evaluation.
  - rewrite (interface_verb_follows_the_run "Port-channel" 5 5) by lia. by_evaluation.
Defined.

(** ** The specifiers are the maximal runs *)

Lemma ranges_loop_runs prefix rest : ∀ start_range end_range ranges,
  ranges_loop prefix rest start_range end_range ranges
  = ranges ++ ((λ r, range_specifier prefix r.1 r.2) <$> runs_from rest start_range end_range).
Proof.
  induction rest as [|p rest IH]; intros s e ranges; simpl; [done|].
  destruct (decide (p = e + 1)); [apply IH|].
  rewrite IH, <- app_assoc. done.
Qed.

Lemma runs_from_spec rest : ∀ s e,
  s ≤ e → StronglySorted Z.lt (e :: rest) →
  Forall (λ r, r.1 ≤ r.2) (runs_from rest s e)
  ∧ Sorted run_gap (runs_from rest s e)
  ∧ (∃ e' tl, runs_from rest s e = (s, e') :: tl ∧ e ≤ e')
  ∧ (∀ p, (s ≤ p ≤ e ∨ p ∈ rest) ↔ ∃ r, r ∈ runs_from rest s e ∧ r.1 ≤ p ≤ r.2).
Proof.
  induction rest as [|q rest IH]; intros s e Hse Hs; simpl.
  - split; [by repeat constructor|]. split; [by repeat constructor|].
    split; [by exists e, []|].
    intros p. split.
    + intros [Hp|Hp]; [|by apply elem_of_nil in Hp].
      exists (s, e). split; [by left|done].
    + intros (r & Hr & Hp). apply list_elem_of_singleton in Hr as ->. by left.
  - apply StronglySorted_cons in Hs as [Hlt Hs].
    apply Forall_cons in Hlt as [Heq Hlt].
    destruct (decide (q = e + 1)) as [->|Hne].
    + destruct (IH s (e + 1) ltac:(lia) Hs) as (H1 & H2 & (e' & tl & H3 & He') & H4).
      split; [done|]. split; [done|]. split; [exists e', tl; split; [done|lia]|].
      intros p. rewrite <- H4, elem_of_cons. split.
      * intros [?|[->|?]]; [left; lia|left; lia|by right].
      * intros [?|?]; [|right; by right].
        destruct (decide (p = e + 1)) as [->|]; [right; by left|left; lia].
    + destruct (IH q q ltac:(lia) Hs) as (H1 & H2 & (e' & tl & H3 & He') & H4).
      split; [constructor; [done|done]|].
      split; [constructor; [done|rewrite H3; constructor; unfold run_gap; simpl; lia]|].
      split; [by exists e, (runs_from rest q q)|].
      intros p. split.
      * intros [Hp|Hp].
        -- exists (s, e). split; [by left|done].
        -- destruct (proj1 (H4 p)) as (r & Hr & Hpr).
           { apply elem_of_cons in Hp as [->|?]; [left; lia|by right]. }
           exists r. split; [by right|done].
      * intros (r & Hr & Hpr). apply elem_of_cons in Hr as [->|Hr]; [by left|].
        right. destruct (proj2 (H4 p)) as [?|?]; [by exists r| |by right].
        assert (p = q) as -> by lia. by left.
Qed.

Lemma sorted_nodup_strict (l : list Z) :
  Sorted Z.le l → NoDup l → StronglySorted Z.lt l.
Proof.
  intros Hs Hnd. apply Sorted_StronglySorted in Hs; [|apply _].
  induction Hs as [|x l Hs IH Hle]; [constructor|].
  apply NoDup_cons in Hnd as [Hx Hnd]. constructor; [by apply IH|].
  rewrite Forall_forall in Hle |- *. intros y Hy.
  specialize (Hle y Hy). assert (x ≠ y) by (intros ->; done). lia.
Qed.

(** X22: for every set of ports the specifiers are, in this order, those of
    a list of runs (first port, last port) that go up with a gap of at
    least one missing port between one run and the next, and that cover
    exactly the ports of the set: every specifier is a maximal stretch of
    consecutive ports of the set. *)
Theorem interface_ranges_are_maximal_runs (prefix : string) (port_set : gset Z) :
  ∃ runs : list (Z * Z),
    _generate_interface_ranges prefix (elements port_set)
    = (λ r, range_specifier prefix r.1 r.2) <$> runs
    ∧ Forall (λ r, r.1 ≤ r.2) runs
    ∧ Sorted run_gap runs
    ∧ ∀ p, p ∈ port_set ↔ ∃ r, r ∈ runs ∧ r.1 ≤ p ≤ r.2.
Proof.
  unfold _generate_interface_ranges.
  pose proof (Sorted_merge_sort Z.le (elements port_set)) as Hsorted.
  pose proof (merge_sort_Permutation Z.le (elements port_set)) as Hperm.
  assert (Hnd : NoDup (merge_sort Z.le (elements port_set))).
  { rewrite Hperm. apply NoDup_elements. }
  assert (Hmem : ∀ p, p ∈ port_set ↔ p ∈ merge_sort Z.le (elements port_set)).
  { intros p. by rewrite Hperm, elem_of_elements. }
  destruct (merge_sort Z.le (elements port_set)) as [|p0 rest].
  - exists []. split; [done|]. split; [constructor|]. split; [constructor|].
    intros p. rewrite Hmem. split.
    + intros H. by apply elem_of_nil in H.
    + intros (r & Hr & _). by apply elem_of_nil in Hr.
  - pose proof (sorted_nodup_strict _ Hsorted Hnd) as Hstrict.
    destruct (runs_from_spec rest p0 p0 ltac:(lia) Hstrict) as (H1 & H2 & _ & H4).
    exists (runs_from rest p0 p0). rewrite ranges_loop_runs.
    split; [done|]. split; [done|]. split; [done|].
    intros p. rewrite Hmem, <- H4, elem_of_cons. split.
    + intros [->|?]; [left; lia|by right].
    + intros [?|?]; [left; lia|by right].
Qed.

(** ** The groups partition the configured ports *)

Lemma port_groups_of_inv pc ports :
  groups_inv pc (configured_ports_of pc ports) (port_groups_of pc ports).
Proof.
  unfold port_groups_of. apply (group_ports_inv pc _ [] ∅).
  - intros x Hx. by apply elem_of_configured_ports_of in Hx as [_ ?].
  - split; [intros ??? H; by rewrite lookup_empty in H|].
    intros ?? H. by apply elem_of_nil in H.
Qed.

(** X23: every port of the request that has a record is in one group, the
    group of its record's key, and in no other; and a group holds only
    ports of the request that have a record.  Ports without a record are
    left out of the generation altogether. *)
Theorem groups_partition_configured_ports (pc : PortConfigs) (ports : list Z)
    (p : Z) (c : PortConfig) :
  p ∈ ports → pc !! p = Some c →
  (∃ members, port_groups_of pc ports !! config_key c = Some members ∧ p ∈ members)
  ∧ (∀ key members, port_groups_of pc ports !! key = Some members →
       p ∈ members → key = config_key c)
  ∧ (∀ key members q, port_groups_of pc ports !! key = Some members →
       q ∈ members → q ∈ ports ∧ is_Some (pc !! q)).
Proof.
  intros Hp Hc. destruct (port_groups_of_inv pc ports) as [Hmem Hhas].
  assert (Hp' : p ∈ configured_ports_of pc ports)
    by (apply elem_of_configured_ports_of; eauto).
  split; [|split].
  - destruct (Hhas p c Hp' Hc) as [members Hl]. exists members. split; [done|].
    apply (Hmem _ _ p Hl). split; [done|]. by exists c.
  - intros key members Hl Hin.
    apply (Hmem _ _ p Hl) in Hin as (_ & c' & Hc' & <-). congruence.
  - intros key members q Hl Hin.
    apply (Hmem _ _ q Hl) in Hin as (Hq & _).
    by apply elem_of_configured_ports_of in Hq.
Qed.

(** Ports 1 to 4 of the mixed session are requested: port 2 is in the
    group of the access record, port 4 has no record and is in no group. *)
Lemma groups_partition_mixed_session :
  (∃ members, port_groups_of (port_configs mixed_session) [4; 3; 2; 1]
                !! config_key (access_record "10") = Some members ∧ 2 ∈ members)
  ∧ (∀ key members, port_groups_of (port_configs mixed_session) [4; 3; 2; 1] !! key
                    = Some members → 4 ∉ members).
Proof.
  destruct (groups_partition_configured_ports (port_configs mixed_session) [4; 3; 2; 1]
              2 (access_record "10")) as (Hin & _ & Hall);
    [repeat constructor|by_evaluation|].
  split; [exact Hin|].
  intros key members Hl H4. destruct (Hall key members 4 Hl H4) as [_ [r Hr]].
  assert (port_configs mixed_session !! 4 = None) as Hnone by by_evaluation.
  congruence.
Defined.

(** ** Direct updates: what is checked, and when *)

(** X24: a direct update that is turned down with a warning has done
    nothing at all: no snapshot is taken and the session is exactly as it
    was (the apply handler, in contrast, has already taken its snapshot
    when it warns). *)
Theorem direct_update_warning_changes_nothing (panel : Panel) (t : Tool) (w : Warning) :
  (du_report (_direct_update_native_vlan panel t) = Warned w →
   du_tool (_direct_update_native_vlan panel t) = t)
  ∧ (du_report (_direct_update_allowed_vlans panel t) = Warned w →
     du_tool (_direct_update_allowed_vlans panel t) = t).
Proof.
  assert (Hin : ∀ what key value ports,
            du_report (direct_update_in_order what key value ports t) ≠ Warned w).
  { intros what key value ports. unfold direct_update_in_order. cbv zeta.
    destruct (direct_update_loop _ _ _ _ _) as [[pc updated] finished]. simpl.
    destruct finished; [by destruct updated|done]. }
  split.
  - unfold _direct_update_native_vlan.
    destruct (decide (selected_ports t = ∅)); [done|].
    destruct (negb _ && negb _); [done|]. intros H. by apply Hin in H.
  - unfold _direct_update_allowed_vlans.
    destruct (decide (selected_ports t = ∅)); [done|].
    destruct (negb _ && negb _); [done|]. intros H. by apply Hin in H.
Qed.

(** Native VLAN 5000 on the mixed session: warned, and the session is the
    mixed session still. *)
Lemma direct_update_warning_on_vlan_5000 :
  du_report (_direct_update_native_vlan (trunk_panel "5000" "ALL") mixed_session)
  = Warned InvalidInput
  ∧ du_tool (_direct_update_native_vlan (trunk_panel "5000" "ALL") mixed_session)
    = mixed_session.
Proof.
  assert (H : du_report (_direct_update_native_vlan (trunk_panel "5000" "ALL") mixed_session)
              = Warned InvalidInput) by by_evaluation.
  split; [exact H|].
  exact (proj1 (direct_update_warning_changes_nothing
                  (trunk_panel "5000" "ALL") mixed_session InvalidInput) H).
Defined.

(** X25: what a direct update writes.  On every reported port the native
    VLAN becomes the entry, an integer from 1 to 4094, or 1 when the entry
    is blank; the allowed list becomes the entry, or ALL when it is blank,
    and of a list that is not "all" the handler only asks that it contain
    a digit. *)
Theorem direct_update_values (panel : Panel) (t : Tool) (p : Z) :
  let native := Py.strip (port_native_vlan_entry panel) in
  let allowed := Py.strip (port_allowed_vlan_entry panel) in
  (p ∈ du_updated (_direct_update_native_vlan panel t) →
   port_configs (du_tool (_direct_update_native_vlan panel t)) !! p
   = <["native_vlan" := VStr (if decide (native = "") then "1" else native)]>
       <$> port_configs t !! p
   ∧ (native = "" ∨ vlan_id_ok native = true))
  ∧ (p ∈ du_updated (_direct_update_allowed_vlans panel t) →
     let stored := if decide (allowed = "") then "ALL" else allowed in
     port_configs (du_tool (_direct_update_allowed_vlans panel t)) !! p
     = <["allowed_vlans" := VStr stored]> <$> port_configs t !! p
     ∧ (Py.lower stored = "all" ∨ Py.any_digit stored = true)).
Proof.
  cbv zeta. split.
  - unfold _direct_update_native_vlan.
    destruct (decide (selected_ports t = ∅)); [by intros H; apply elem_of_nil in H|].
    destruct (negb _ && negb _) eqn:E; [by intros H; apply elem_of_nil in H|].
    intros Hp.
    match goal with |- context [direct_update_in_order ?w ?k ?v _ _] =>
      destruct (direct_update_in_order_spec w k v t) as (_ & H2 & _); [done|] end.
    destruct (H2 p Hp) as (_ & _ & Hrec). split; [exact Hrec|].
    destruct (decide (Py.strip (port_native_vlan_entry panel) = "")) as [|Hn]; [by left|].
    right. rewrite bool_decide_eq_false_2 in E by done. simpl in E.
    by destruct (vlan_id_ok _).
  - unfold _direct_update_allowed_vlans.
    destruct (decide (selected_ports t = ∅)); [by intros H; apply elem_of_nil in H|].
    destruct (negb _ && negb _) eqn:E; [by intros H; apply elem_of_nil in H|].
    intros Hp.
    match goal with |- context [direct_update_in_order ?w ?k ?v _ _] =>
      destruct (direct_update_in_order_spec w k v t) as (_ & H2 & _); [done|] end.
    destruct (H2 p Hp) as (_ & _ & Hrec). split; [exact Hrec|].
    apply andb_false_iff in E as [E|E].
    + left. apply negb_false_iff, bool_decide_eq_true in E. exact E.
    + right. by apply negb_false_iff in E.
Qed.

(** Ports 1 to 3 of the mixed session are selected and port 1 is the only
    trunk: native VLAN 20 and a blank allowed list are written on it. *)
Lemma direct_update_values_on_port_1 :
  port_configs (du_tool (_direct_update_native_vlan (trunk_panel "20" "") mixed_session)) !! 1
  = Some (<["native_vlan" := VStr "20"]> (trunk_record "1" "ALL"))
  ∧ port_configs (du_tool (_direct_update_allowed_vlans (trunk_panel "20" "") mixed_session)) !! 1
    = Some (<["allowed_vlans" := VStr "ALL"]> (trunk_record "1" "ALL")).
Proof.
  destruct (direct_update_values (trunk_panel "20" "") mixed_session 1) as [Hn Ha].
  split.
  - rewrite (proj1 (Hn ltac:(by_evaluation))). by_evaluation.
  - rewrite (proj1 (Ha ltac:(by_evaluation))). by_evaluation.
Defined.

(** ** Templates and the registry *)

Lemma offer_vlan_grows vlan_id answer known known' :
  offer_vlan vlan_id answer known = Some known' →
  known ⊆ known'
  ∧ (answer = true → ∃ n, Py.int vlan_id = Some n ∧ n ∈ known').
Proof.
  unfold offer_vlan, _check_vlan_exists, _create_vlan.
  destruct (Py.int vlan_id) as [n|] eqn:Hn.
  - destruct (bool_decide (n ∈ known)) eqn:Hin.
    + intros [= <-]. split; [done|]. intros _. exists n. split; [done|].
      by apply bool_decide_eq_true in Hin.
    + destruct answer; intros [= <-].
      * split; [set_solver|]. intros _. exists n. split; [done|set_solver].
      * split; [done|done].
  - destruct answer; [done|]. intros [= <-]. split; [done|done].
Qed.

Lemma template_check_not_completed tpl : template_check tpl ≠ Some Completed.
Proof. unfold template_check. repeat case_match; congruence. Qed.

(** X26: [_apply_template] never removes a VLAN from the registry, whatever
    the template, the answers and the outcome; and when an access template
    is applied to the end with the operator agreeing to create the data
    VLAN, the template's access VLAN reads as an integer and is registered
    afterwards. *)
Theorem apply_template_registers_access_vlan (templates : gmap string Template)
    (name : string) (create_data create_voice : bool) (t : Tool) :
  let res := _apply_template templates name create_data create_voice t in
  configured_vlans t ⊆ configured_vlans res.1
  ∧ (∀ tpl, templates !! name = Some tpl → name ≠ "" →
       tpl_mode tpl = "access" → create_data = true → res.2 = Completed →
       ∃ a n, tpl_access_vlan tpl = Some a ∧ Py.int a = Some n
              ∧ n ∈ configured_vlans res.1).
Proof.
  intros res. subst res. unfold _apply_template.
  destruct (templates !! name) as [tpl|]; [|done].
  destruct (decide (name = "")); [done|].
  destruct (decide (selected_ports t = ∅)); [done|].
  pose proof (template_check_not_completed tpl) as Hchk.
  destruct (template_check tpl) as [report|].
  { split; [done|]. intros ? [= <-] _ _ _ Hr. simpl in Hr. by subst report. }
  cbv zeta.
  destruct (decide (tpl_mode tpl = "access")) as [Hacc|Hnacc].
  - destruct (tpl_access_vlan tpl) as [a|] eqn:Ha.
    2:{ split; [simpl; set_solver|]. by intros ? [= <-] _ _ _ Hr. }
    destruct (offer_vlan a create_data (configured_vlans (push_history t)))
      as [known|] eqn:Hk.
    2:{ split; [simpl; set_solver|]. by intros ? [= <-] _ _ _ Hr. }
    destruct (offer_vlan_grows _ _ _ _ Hk) as [Hsub Hreg]. simpl in Hsub.
    destruct (tpl_voice_vlan tpl) as [v|].
    + destruct (offer_vlan v create_voice known) as [known'|] eqn:Hk'.
      2:{ split; [simpl; set_solver|]. by intros ? [= <-] _ _ _ Hr. }
      destruct (offer_vlan_grows _ _ _ _ Hk') as [Hsub' _].
      destruct (template_record tpl); simpl.
      2:{ split; [simpl; set_solver|]. by intros ? [= <-] _ _ _ Hr. }
      split; [set_solver|]. intros ? [= <-] _ _ Hyes _.
      destruct (Hreg Hyes) as (vid & Hvid & Hin).
      exists a, vid. split; [done|]. split; [done|set_solver].
    + destruct (template_record tpl); simpl.
      2:{ split; [simpl; set_solver|]. by intros ? [= <-] _ _ _ Hr. }
      split; [set_solver|]. intros ? [= <-] _ _ Hyes _.
      destruct (Hreg Hyes) as (vid & Hvid & Hin).
      exists a, vid. by split.
  - destruct (template_record tpl); simpl; (split; [set_solver|]);
      by intros ? [= <-] _ Hm.
Qed.

(** The built-in Phone Port template on port 1 of a fresh session, both
    questions answered with yes: VLANs 10 and 100 are registered. *)
Lemma apply_phone_port_template_registers_vlans :
  let res := _apply_template builtin_templates "Phone Port" true true (session_with_port 1) in
  res.2 = Completed
  ∧ configured_vlans res.1 = {[ 10; 100 ]}
  ∧ ∃ a n, tpl_access_vlan
             {| tpl_mode := "access"; tpl_description := "Voice + Data Port";
                tpl_portfast := true; tpl_qos_trust := true;
                tpl_access_vlan := Some "10"; tpl_voice_vlan := Some "100";
                tpl_native_vlan := None; tpl_trunk_vlans := None |} = Some a
           ∧ Py.int a = Some n ∧ n ∈ configured_vlans res.1.
Proof.
  intros res. split; [by_evaluation|]. split; [by_evaluation|].
  destruct (apply_template_registers_access_vlan builtin_templates "Phone Port" true true
              (session_with_port 1)) as [_ H].
  apply H; by_evaluation.
Defined.
